(** * GitHub-and-document analyzer: the two request handlers

    A shallow embedding of the two route handlers of the application,

      - the file-analysis route ([AnalyzeFile]): content validator,
        PDF extraction chain, document statistics and fallback analysis;
      - the repository-analysis route ([AnalyzeRepo]): metadata fetcher and
        model-reply parsing,

    together with the properties stated for them.

    Conventions of the embedding.

      - A JavaScript string is the list of its UTF-16 code units
        ([jsstring]); [length] is [String.prototype.length].
      - Values of type [any] (parsed JSON) are [jsval].
      - A call that may throw returns [result]; [Throw] carries the
        exception.
      - Everything that comes from outside the process (the uploaded file,
        the replies of the remote services, the extraction back ends) is an
        input of the model.
      - Built-ins whose tables are not reproduced here
        ([String.prototype.toLowerCase] beyond ASCII, [JSON.parse],
        string-to-number coercion, base64 decoding) are methods of the
        classes [CaseMapping] and [Runtime]; theorems hold for every
        instance, closed examples use the instances [ascii_case] and
        the tabulated runtimes defined next to them.
      - Ratios are compared exactly, as rationals.  The source compares
        IEEE doubles ([a / b < 0.7]); for integers [0 <= a <= b] with
        [b] below [2^53 / 10] the correctly rounded quotient is below the
        double nearest to [7/10] exactly when [10 a < 7 b] (two distinct
        fractions with denominators [b] and [10] differ by at least
        [1 / (10 b)], far more than one unit in the last place), and
        likewise for [0.3]; string lengths are far below that bound.  The
        agreement of the two tests is checked by computation for every
        length up to 128 ([double_tests_agree]). *)

From Stdlib Require Import String Ascii.
From Stdlib Require Import List NArith ZArith QArith Bool Arith Lia.
From Stdlib Require Floats Uint63.
Import ListNotations.

Set Warnings "-register-all".
Close Scope Q_scope.

(** ** Strings as lists of code units *)

Module JS.

Local Open Scope N_scope.

Definition codeunit := N.
Bind Scope N_scope with codeunit.
Definition jsstring := list codeunit.

(** An ASCII literal of the source as a [jsstring]. *)
Definition lit (s : string) : jsstring :=
  map N_of_ascii (list_ascii_of_string s).

Definition in_range (lo hi c : codeunit) : bool :=
  (N.leb lo c && N.leb c hi)%bool.

Definition is_lower (c : codeunit) : bool := in_range 97 122 c.   (* a-z *)
Definition is_upper (c : codeunit) : bool := in_range 65 90 c.    (* A-Z *)
Definition is_digit (c : codeunit) : bool := in_range 48 57 c.    (* 0-9 *)
Definition is_ascii (c : codeunit) : bool := N.leb c 127.

(** [\s]: WhiteSpace and LineTerminator of the language specification.
    [String.prototype.trim] strips the same set. *)
Definition is_space (c : codeunit) : bool :=
  in_range 9 13 c            (* \t \n \v \f \r *)
  || N.eqb c 32              (* space *)
  || N.eqb c 160             (* no-break space *)
  || N.eqb c 5760            (* U+1680 *)
  || in_range 8192 8202 c    (* U+2000 .. U+200A *)
  || N.eqb c 8232 || N.eqb c 8233   (* U+2028, U+2029 *)
  || N.eqb c 8239            (* U+202F *)
  || N.eqb c 8287            (* U+205F *)
  || N.eqb c 12288           (* U+3000 *)
  || N.eqb c 65279.          (* U+FEFF *)

(** [\w] *)
Definition is_word_char (c : codeunit) : bool :=
  is_lower c || is_upper c || is_digit c || N.eqb c 95.

(** [.] (no [s] flag): anything but a line terminator. *)
Definition is_line_terminator (c : codeunit) : bool :=
  N.eqb c 10 || N.eqb c 13 || N.eqb c 8232 || N.eqb c 8233.

Fixpoint dropWhile (p : codeunit -> bool) (s : jsstring) : jsstring :=
  match s with
  | [] => []
  | c :: s' => if p c then dropWhile p s' else s
  end.

Definition trimStart (s : jsstring) : jsstring := dropWhile is_space s.
Definition trimEnd (s : jsstring) : jsstring := rev (dropWhile is_space (rev s)).
Definition trim (s : jsstring) : jsstring := trimEnd (trimStart s).

Fixpoint eqb (a b : jsstring) : bool :=
  match a, b with
  | [], [] => true
  | x :: a', y :: b' => N.eqb x y && eqb a' b'
  | _, _ => false
  end.

Fixpoint startsWith (s p : jsstring) {struct p} : bool :=
  match p, s with
  | [], _ => true
  | _ :: _, [] => false
  | x :: p', c :: s' => N.eqb x c && startsWith s' p'
  end.

(** [s.includes(p)] *)
Fixpoint includes (s p : jsstring) : bool :=
  startsWith s p ||
  match s with
  | [] => false
  | _ :: s' => includes s' p
  end.

Definition endsWith (s p : jsstring) : bool :=
  startsWith (rev s) (rev p).

(** [s.split(/[class]+/)]: the pieces between the maximal runs of
    separator characters.  A leading or trailing run leaves an empty piece
    at that end, and the empty string splits into one empty piece. *)
Fixpoint split_runs (sep : codeunit -> bool) (s : jsstring) : list jsstring :=
  match s with
  | [] => [[]]
  | c :: s' =>
      if sep c then
        match s' with
        | [] => [[]; []]
        | c' :: _ => if sep c' then split_runs sep s' else [] :: split_runs sep s'
        end
      else
        match split_runs sep s' with
        | w :: ws => (c :: w) :: ws
        | [] => [[c]]
        end
  end.

Fixpoint takeWhile (p : codeunit -> bool) (s : jsstring) : jsstring :=
  match s with
  | [] => []
  | c :: s' => if p c then c :: takeWhile p s' else []
  end.

(** Some suffix of [s] (a position of a regular-expression search)
    satisfies [p]. *)
Fixpoint exists_suffix (p : jsstring -> bool) (s : jsstring) : bool :=
  p s ||
  match s with
  | [] => false
  | _ :: s' => exists_suffix p s'
  end.

Fixpoint last_index_of (c : codeunit) (s : jsstring) : option nat :=
  match s with
  | [] => None
  | x :: s' =>
      match last_index_of c s' with
      | Some i => Some (S i)
      | None => if N.eqb x c then Some O else None
      end
  end.

(** [s.split(re)] for a separator that never matches the empty string:
    [seplen t] is the length of the match of [re] at the start of [t], if
    there is one.  [skip] counts the code units of the current separator
    still to pass, [cur] holds the current piece, reversed. *)
Fixpoint split_sep (seplen : jsstring -> option nat) (s : jsstring)
                   (skip : nat) (cur : jsstring) : list jsstring :=
  match s with
  | [] => [rev cur]
  | c :: s' =>
      match skip with
      | S k => split_sep seplen s' k cur
      | O =>
          match seplen s with
          | Some (S k) => rev cur :: split_sep seplen s' k []
          | _ => split_sep seplen s' O (c :: cur)
          end
      end
  end.

(** [s.substring(0, n)] *)
Definition substring0 (n : nat) (s : jsstring) : jsstring := firstn n s.

(** [a.join(sep)] on an array of strings. *)
Fixpoint join (sep : jsstring) (l : list jsstring) : jsstring :=
  match l with
  | [] => []
  | [x] => x
  | x :: l' => x ++ sep ++ join sep l'
  end.

(** ASCII part of the lower-case mapping. *)
Definition ascii_lower (c : codeunit) : codeunit :=
  if is_upper c then (c + 32) else c.

(** [String.prototype.toLowerCase].  The Unicode tables are not reproduced:
    the method is kept abstract, with the one fact about it that the
    development uses, its value on ASCII-only strings. *)
Class CaseMapping := {
  toLowerCase : jsstring -> jsstring;
  toLowerCase_ascii :
    forall s, forallb is_ascii s = true -> toLowerCase s = map ascii_lower s
}.

(** The instance that lower-cases [A-Z] and leaves every other code unit
    alone; it agrees with the real method on every string without cased
    characters outside ASCII. *)
#[export] Instance ascii_case : CaseMapping :=
  {| toLowerCase := map ascii_lower;
     toLowerCase_ascii := fun s _ => eq_refl |}.

(** Decimal rendering of a non-negative integer (template literals). *)
Fixpoint digits_of_uint (u : Decimal.uint) : jsstring :=
  match u with
  | Decimal.Nil => []
  | Decimal.D0 u' => 48 :: digits_of_uint u'
  | Decimal.D1 u' => 49 :: digits_of_uint u'
  | Decimal.D2 u' => 50 :: digits_of_uint u'
  | Decimal.D3 u' => 51 :: digits_of_uint u'
  | Decimal.D4 u' => 52 :: digits_of_uint u'
  | Decimal.D5 u' => 53 :: digits_of_uint u'
  | Decimal.D6 u' => 54 :: digits_of_uint u'
  | Decimal.D7 u' => 55 :: digits_of_uint u'
  | Decimal.D8 u' => 56 :: digits_of_uint u'
  | Decimal.D9 u' => 57 :: digits_of_uint u'
  end.

Definition string_of_nat (n : nat) : jsstring := digits_of_uint (Nat.to_uint n).

(** ** Values, exceptions and property access *)

(** A value of type [any] as [JSON.parse] builds it.  Numbers are the
    integers: the only numbers the handlers compute with are lengths, the
    counters of the repository metadata are passed through untouched.  An
    object holds its own properties in insertion order; a lookup takes the
    first entry of a key. *)
Inductive jsval : Type :=
| JUndefined
| JNull
| JBool (b : bool)
| JNum (n : Z)
| JStr (s : jsstring)
| JArr (items : list jsval)
| JObj (fields : list (jsstring * jsval)).

(** Exceptions: [new Error(message)] thrown by the handlers, and the
    engine's [TypeError] and [SyntaxError].  All three are instances of
    [Error] and carry a message. *)
Inductive exn : Type :=
| Error (message : jsstring)
| TypeError (message : jsstring)
| SyntaxError (message : jsstring).

Definition message (e : exn) : jsstring :=
  match e with
  | Error m | TypeError m | SyntaxError m => m
  end.

Inductive result (A : Type) : Type :=
| Ok (a : A)
| Throw (e : exn).

Arguments Ok {A} a.
Arguments Throw {A} e.

Definition bind {A B : Type} (c : result A) (k : A -> result B) : result B :=
  match c with
  | Ok a => k a
  | Throw e => Throw e
  end.

Notation "x <- c ;; k" := (bind c (fun x => k))
  (at level 61, c at next level, right associativity).

(** [try { c } catch (e) { h e }] *)
Definition try_catch {A : Type} (c : result A) (h : exn -> result A) : result A :=
  match c with
  | Ok a => Ok a
  | Throw e => h e
  end.

Fixpoint lookup (key : jsstring) (fields : list (jsstring * jsval)) : jsval :=
  match fields with
  | [] => JUndefined
  | (k, v) :: rest => if eqb k key then v else lookup key rest
  end.

(** The exception of a property read on [undefined] or [null]. *)
Definition cannot_read (v : jsval) (key : jsstring) : exn :=
  TypeError (lit "Cannot read properties of "
             ++ match v with JNull => lit "null" | _ => lit "undefined" end
             ++ lit " (reading '" ++ key ++ lit "')").

(** [v.key] for the property names the handlers read ([length] and the
    field names of the replies): reading a property of [undefined] or
    [null] throws, a missing property is [undefined]. *)
Definition get (v : jsval) (key : jsstring) : result jsval :=
  match v with
  | JUndefined | JNull => Throw (cannot_read v key)
  | JObj fields => Ok (lookup key fields)
  | JArr items =>
      Ok (if eqb key (lit "length") then JNum (Z.of_nat (length items))
          else JUndefined)
  | JStr s =>
      Ok (if eqb key (lit "length") then JNum (Z.of_nat (length s))
          else JUndefined)
  | JBool _ | JNum _ => Ok JUndefined
  end.

(** [v[i]] *)
Definition get_index (v : jsval) (i : nat) : result jsval :=
  match v with
  | JUndefined | JNull => Throw (cannot_read v (string_of_nat i))
  | JObj fields => Ok (lookup (string_of_nat i) fields)
  | JArr items => Ok (nth i items JUndefined)
  | JStr s =>
      Ok (match nth_error s i with
          | Some c => JStr [c]
          | None => JUndefined
          end)
  | JBool _ | JNum _ => Ok JUndefined
  end.

(** ToBoolean *)
Definition truthy (v : jsval) : bool :=
  match v with
  | JUndefined | JNull => false
  | JBool b => b
  | JNum n => negb (Z.eqb n 0)
  | JStr s => match s with [] => false | _ => true end
  | JArr _ | JObj _ => true
  end.

(** [a || b] *)
Definition or_else (a b : jsval) : jsval := if truthy a then a else b.

(** The host functions that are not reproduced: [JSON.parse], the numeric
    value of a string and of an object (ToNumber after ToPrimitive), and
    the decoding [Buffer.from(x, 'base64').toString('utf-8')] of a string
    and of an array or object argument. *)
Class Runtime := {
  JSON_parse : jsstring -> result jsval;
  StringToNumber : jsstring -> option Z;
  ObjectToNumber : jsval -> option Z;
  base64_utf8 : jsstring -> jsstring;
  Buffer_from_object : jsval -> result jsstring
}.

Section Coercions.

Context {RT : Runtime}.

(** ToNumber; [None] is NaN. *)
Definition ToNumber (v : jsval) : option Z :=
  match v with
  | JUndefined => None
  | JNull => Some 0%Z
  | JBool b => Some (if b then 1%Z else 0%Z)
  | JNum n => Some n
  | JStr s => StringToNumber s
  | JArr _ | JObj _ => ObjectToNumber v
  end.

(** [v > k] and [v >= k] against a numeric literal. *)
Definition gt (v : jsval) (k : Z) : bool :=
  match ToNumber v with
  | Some n => Z.ltb k n
  | None => false
  end.

Definition ge (v : jsval) (k : Z) : bool :=
  match ToNumber v with
  | Some n => Z.leb k n
  | None => false
  end.

(** [Buffer.from(v, 'base64').toString('utf-8')] *)
Definition Buffer_from_base64_toString (v : jsval) : result jsstring :=
  match v with
  | JStr s => Ok (base64_utf8 s)
  | JArr _ | JObj _ => Buffer_from_object v
  | JUndefined | JNull | JBool _ | JNum _ =>
      Throw (TypeError (lit "The first argument must be of type string or an instance of Buffer, ArrayBuffer, or Array or an Array-like Object."))
  end.

End Coercions.

(** [text.match(/\{[\s\S]*\}/)]: from the first opening brace to the last
    closing brace after it. *)
Definition match_braces (text : jsstring) : option jsstring :=
  let from_open := dropWhile (fun c => negb (N.eqb c 123)) text in
  let m := rev (dropWhile (fun c => negb (N.eqb c 125)) (rev from_open)) in
  match m with
  | _ :: _ :: _ => Some m
  | _ => None
  end.

(** Calling a string method on a value of type [any]. *)
Definition as_string (method : jsstring) (v : jsval) : result jsstring :=
  match v with
  | JStr s => Ok s
  | JUndefined | JNull => Throw (cannot_read v method)
  | _ => Throw (TypeError (method ++ lit " is not a function"))
  end.

(** [data.candidates[0].content.parts[0].text] *)
Definition candidate_text (data : jsval) : result jsval :=
  candidates <- get data (lit "candidates") ;;
  candidate <- get_index candidates 0 ;;
  content <- get candidate (lit "content") ;;
  parts <- get content (lit "parts") ;;
  part <- get_index parts 0 ;;
  get part (lit "text").

(** The outcome of [await fetch(...)]: the promise rejects, or a response
    arrives with its [ok] flag, its status and what [response.json()]
    gives. *)
Inductive fetch_outcome : Type :=
| FetchRejected (e : exn)
| FetchResponse (ok : bool) (status : nat) (json : result jsval).

(** [NextResponse.json(body, { status })] *)
Record Response := { status : nat; body : jsval }.

End JS.

(** ** The file-analysis route *)

Module AnalyzeFile.

Import JS.

(** *** Numbers of the validator *)

(** [a / b] on two lengths. *)
Definition ratio (a b : nat) : Q :=
  (inject_Z (Z.of_nat a) / inject_Z (Z.of_nat b))%Q.

(** [x < y] *)
Definition lt_num (x y : Q) : bool :=
  if Qlt_le_dec x y then true else false.

(** The same test in double precision, the arithmetic of the source: an
    integer below [2^53] converts exactly, the quotient is the correctly
    rounded one, and the literals [0.7] and [0.3] denote the doubles nearest
    to 7/10 and 3/10, which are the rounded quotients of 7 and 3 by 10. *)
Definition double_of_nat (n : nat) : PrimFloat.float :=
  PrimFloat.of_uint63 (Uint63.of_Z (Z.of_nat n)).

Definition double_ratio (a b : nat) : PrimFloat.float :=
  PrimFloat.div (double_of_nat a) (double_of_nat b).

Definition double_lt_tenths (a b tenths : nat) : bool :=
  PrimFloat.ltb (double_ratio a b) (double_ratio tenths 10).

(** *** Character classes of the validator's regular expressions *)

(** The class of the readable-character count: ASCII letters, digits,
    [\s], and the punctuation [. , ! ? ; : ( ) -], apostrophe and double
    quote (the class also lists [\n \r \t], already in [\s]). *)
Definition is_readable (c : codeunit) : bool :=
  is_lower c || is_upper c || is_digit c || is_space c
  || N.eqb c 46 (* . *) || N.eqb c 44 (* , *) || N.eqb c 33 (* ! *)
  || N.eqb c 63 (* ? *) || N.eqb c 59 (* ; *) || N.eqb c 58 (* : *)
  || N.eqb c 39 (* apostrophe *) || N.eqb c 34 (* double quote *)
  || N.eqb c 40 || N.eqb c 41 (* parentheses *) || N.eqb c 45 (* - *)
  || N.eqb c 10 || N.eqb c 13 || N.eqb c 9.

(** [[0-9a-f]] *)
Definition is_hex (c : codeunit) : bool := is_digit c || in_range 97 102 c.

(** [[a-z0-9_]] *)
Definition is_lower_alnum (c : codeunit) : bool :=
  is_lower c || is_digit c || N.eqb c 95.

(** [[aeiou]] *)
Definition is_vowel (c : codeunit) : bool :=
  N.eqb c 97 || N.eqb c 101 || N.eqb c 105 || N.eqb c 111 || N.eqb c 117.

(** [/^[cls]{n,}$/.test(w)] *)
Definition test_all_min (cls : codeunit -> bool) (n : nat) (w : jsstring) : bool :=
  (n <=? length w) && forallb cls w.

(** [/[cls]/.test(w)] *)
Definition test_any (cls : codeunit -> bool) (w : jsstring) : bool :=
  existsb cls w.

(** The predicate of [words.filter(...)] in [isValidTextContent]. *)
Definition meaningful_word (word : jsstring) : bool :=
  (3 <=? length word)
  && (length word <=? 20)
  && negb (test_all_min is_hex 8 word)          (* hex codes *)
  && negb (test_all_min is_lower_alnum 8 word)  (* random strings *)
  && test_any is_vowel word                     (* has vowels *)
  && negb (test_all_min is_digit 1 word).       (* not just numbers *)

Definition commonWords : list jsstring :=
  map lit
    ["the"; "and"; "or"; "but"; "in"; "on"; "at"; "to"; "for"; "of"; "with";
     "by"; "is"; "are"; "was"; "were"; "be"; "been"; "have"; "has"; "had";
     "do"; "does"; "did"; "will"; "would"; "could"; "should"; "this"; "that";
     "these"; "those"; "a"; "an"]%string.

(** What the validator writes to the console. *)
Inductive validator_log : Type :=
| LowReadableRatio (readableRatio : Q)
| LowMeaningfulRatio (meaningfulRatio : Q)
| NoCommonWords
| ValidationPassed (readableRatio meaningfulRatio : Q)
                   (hasCommonWords : bool) (len : nat).

Section Validator.

Context {CM : CaseMapping}.

Definition readableChars (text : jsstring) : nat :=
  length (filter is_readable text).

Definition words (text : jsstring) : list jsstring :=
  split_runs is_space (toLowerCase text).

Definition meaningfulWords (text : jsstring) : list jsstring :=
  filter meaningful_word (words text).

Definition readableRatio (text : jsstring) : Q :=
  ratio (readableChars text) (length text).

Definition meaningfulRatio (text : jsstring) : Q :=
  ratio (length (meaningfulWords text)) (Nat.max (length (words text)) 1).

Definition hasCommonWords (text : jsstring) : bool :=
  existsb (fun word => includes (toLowerCase text) word) commonWords.

(** [isValidTextContent], with the lines it logs. *)
Definition isValidTextContent_console (text : jsstring)
  : bool * list validator_log :=
  if match text with [] => true | _ => false end
     || (length (trim text) <? 100)
  then (false, [])
  else if lt_num (readableRatio text) (7 # 10)
  then (false, [LowReadableRatio (readableRatio text)])
  else if lt_num (meaningfulRatio text) (3 # 10)
  then (false, [LowMeaningfulRatio (meaningfulRatio text)])
  else if negb (hasCommonWords text)
  then (false, [NoCommonWords])
  else (true, [ValidationPassed (readableRatio text) (meaningfulRatio text)
                                (hasCommonWords text) (length text)]).

Definition isValidTextContent (text : jsstring) : bool :=
  fst (isValidTextContent_console text).

End Validator.

(** *** Document statistics of [generateEnhancedFileAnalysis] *)

(** [[.!?]] *)
Definition is_sentence_end (c : codeunit) : bool :=
  N.eqb c 46 || N.eqb c 33 || N.eqb c 63.

(** Length of the match of [/\n\s*\n/] at the start of [s]: a line feed,
    then the white space up to the last line feed of the run that
    follows. *)
Definition blank_line_len (s : jsstring) : option nat :=
  match s with
  | c :: r =>
      if N.eqb c 10
      then option_map (fun i => i + 2) (last_index_of 10 (takeWhile is_space r))
      else None
  | [] => None
  end.

(** [kw\s*\(] at the start of [s]. *)
Definition keyword_paren (kw s : jsstring) : bool :=
  startsWith s kw &&
  match dropWhile is_space (skipn (length kw) s) with
  | c :: _ => N.eqb c 40
  | [] => false
  end.

Definition code_words : list jsstring :=
  map lit ["```"; "function"; "class"; "import"; "export"; "const"; "let";
           "var"; "def"; "public"; "private"; "return"]%string.

Definition code_keywords : list jsstring :=
  map lit ["if"; "for"; "while"]%string.

(** [#{1,6}\s] at the start of [s]: a match always ends with a hash sign
    and a white-space character, and those two alone are a match. *)
Definition heading_at (s : jsstring) : bool :=
  match s with
  | h :: c :: _ => N.eqb h 35 && is_space c
  | _ => false
  end.

(** [^\*\s] *)
Definition bullet_at_start (s : jsstring) : bool :=
  match s with
  | a :: c :: _ => N.eqb a 42 && is_space c
  | _ => false
  end.

(** [\[.*\]$$.*$$]: the text ends with a closing bracket and an opening
    bracket stands before it on the last line. *)
Definition link_at_end (s : jsstring) : bool :=
  match rev s with
  | c :: before =>
      N.eqb c 93
      && existsb (N.eqb 91) (takeWhile (fun x => negb (is_line_terminator x)) before)
  | [] => false
  end.

(** [`.*`] at the start of [s]. *)
Definition inline_code_at (s : jsstring) : bool :=
  match s with
  | c :: r =>
      N.eqb c 96
      && existsb (N.eqb 96) (takeWhile (fun x => negb (is_line_terminator x)) r)
  | [] => false
  end.

Definition technical_terms : list jsstring :=
  map lit
    ["API"; "database"; "server"; "client"; "framework"; "library";
     "algorithm"; "data"; "system"; "application"; "software";
     "technology"; "programming"; "development"; "code"; "function";
     "method"; "class"; "object"; "variable"; "parameter"; "return";
     "execute"; "implement"; "configure"; "install"; "deploy"; "debug";
     "test"; "version"; "update"; "upgrade"; "download"; "upload";
     "interface"; "protocol"; "network"; "security"; "authentication";
     "authorization"; "encryption"; "decryption"; "hash"; "token";
     "session"; "cookie"; "cache"; "storage"; "memory"; "processor";
     "CPU"; "GPU"; "RAM"; "disk"; "file"; "directory"; "folder"; "path";
     "URL"; "HTTP"; "HTTPS"; "SSL"; "TLS"; "TCP"; "UDP"; "IP"; "DNS";
     "domain"; "subdomain"; "port"; "firewall"; "router"; "switch";
     "gateway"; "proxy"; "load balancer"; "container"; "docker";
     "kubernetes"; "cloud"; "AWS"; "Azure"; "GCP"; "Linux"; "Windows";
     "macOS"; "Ubuntu"; "CentOS"; "shell"; "terminal"; "command";
     "script"; "batch"; "PowerShell"; "bash"; "zsh"; "git"; "github";
     "gitlab"; "bitbucket"; "repository"; "commit"; "branch"; "merge";
     "pull request"; "issue"; "bug"; "feature"; "release"; "deployment";
     "CI/CD"; "DevOps"; "agile"; "scrum"; "kanban"; "project management";
     "documentation"; "README"; "license"; "open source"; "proprietary";
     "commercial"; "enterprise"; "startup"; "business"; "marketing";
     "sales"; "customer"; "user"; "client"; "stakeholder"; "requirement";
     "specification"; "design"; "architecture"; "pattern"; "model";
     "schema"; "entity"; "relationship"; "query"; "SQL"; "NoSQL";
     "MongoDB"; "PostgreSQL"; "MySQL"; "SQLite"; "Redis"; "Elasticsearch";
     "JSON"; "XML"; "YAML"; "CSV"; "REST"; "GraphQL"; "SOAP";
     "microservice"; "monolith"; "scalability"; "performance";
     "optimization"; "monitoring"; "logging"; "analytics"; "metrics";
     "dashboard"; "report"; "visualization"; "chart"; "graph"; "table";
     "list"; "array"; "object"; "string"; "number"; "boolean"; "null";
     "undefined"; "true"; "false"]%string.

(** Matching under the [i] flag: every character of the patterns is ASCII,
    and a code unit outside ASCII never folds to an ASCII one. *)
Fixpoint startsWith_ci (s p : jsstring) {struct p} : bool :=
  match p, s with
  | [], _ => true
  | _ :: _, [] => false
  | x :: p', c :: s' => N.eqb (ascii_lower x) (ascii_lower c) && startsWith_ci s' p'
  end.

Definition is_word_at (c : option codeunit) : bool :=
  match c with
  | Some x => is_word_char x
  | None => false
  end.

(** [\b] between [prev] and [next]. *)
Definition boundary (prev next : option codeunit) : bool :=
  xorb (is_word_at prev) (is_word_at next).

(** [\b(term)\b] at the start of [s], [prev] being the code unit before. *)
Definition term_at (prev : option codeunit) (s term : jsstring) : bool :=
  boundary prev (hd_error s)
  && startsWith_ci s term
  && boundary (nth_error s (length term - 1)) (nth_error s (length term)).

Fixpoint search_terms (prev : option codeunit) (s : jsstring) : bool :=
  existsb (term_at prev s) technical_terms ||
  match s with
  | [] => false
  | c :: s' => search_terms (Some c) s'
  end.

(** [word.replace(/[^\w]/g, '')] *)
Definition cleanWord (word : jsstring) : jsstring := filter is_word_char word.

Definition stop_words : list jsstring :=
  map lit
    ["this"; "that"; "these"; "those"; "with"; "from"; "they"; "them";
     "their"; "there"; "where"; "when"; "what"; "which"; "will"; "would";
     "could"; "should"; "might"; "must"; "shall"; "can't"; "won't"; "don't";
     "didn't"; "isn't"; "aren't"; "wasn't"; "weren't"; "haven't"; "hasn't";
     "hadn't"]%string.

(** The predicate of the topic filter. *)
Definition topic_word (word : jsstring) : bool :=
  let cleanWord := cleanWord word in
  (4 <=? length cleanWord)
  && (length cleanWord <=? 20)
  && negb (test_all_min is_digit 1 cleanWord)
  && negb (test_all_min is_hex 8 cleanWord)
  && test_any is_vowel cleanWord
  && negb (existsb (eqb cleanWord) stop_words).

(** [wordFreq.set(w, (wordFreq.get(w) || 0) + 1)] on a [Map], which keeps
    its keys in insertion order. *)
Fixpoint bump (w : jsstring) (wordFreq : list (jsstring * nat))
  : list (jsstring * nat) :=
  match wordFreq with
  | [] => [(w, 1)]
  | (k, n) :: rest =>
      if eqb k w then (k, S n) :: rest else (k, n) :: bump w rest
  end.

(** [.sort((a, b) => b[1] - a[1])]: descending by count, and stable. *)
Fixpoint insert_desc (x : jsstring * nat) (sorted : list (jsstring * nat))
  : list (jsstring * nat) :=
  match sorted with
  | [] => [x]
  | y :: rest =>
      if snd y <=? snd x then x :: sorted else y :: insert_desc x rest
  end.

Definition sort_desc (l : list (jsstring * nat)) : list (jsstring * nat) :=
  fold_right insert_desc [] l.

Section Statistics.

Context {CM : CaseMapping}.

Definition wordCount (content : jsstring) : nat :=
  length (filter (fun word => 0 <? length word) (split_runs is_space content)).

Definition sentences (content : jsstring) : list jsstring :=
  filter (fun s => 10 <? length (trim s)) (split_runs is_sentence_end content).

Definition paragraphs (content : jsstring) : list jsstring :=
  filter (fun p => 20 <? length (trim p)) (split_sep blank_line_len content 0 []).

Definition hasCode (content : jsstring) : bool :=
  existsb (includes content) code_words
  || existsb (fun kw => exists_suffix (keyword_paren kw) content) code_keywords.

Definition hasMarkdown (content : jsstring) : bool :=
  exists_suffix heading_at content
  || bullet_at_start content
  || link_at_end content
  || exists_suffix inline_code_at content.

Definition hasTechnicalTerms (content : jsstring) : bool :=
  search_terms None content.

Definition topicWords (content : jsstring) : list jsstring :=
  filter topic_word (split_runs is_space (toLowerCase content)).

Definition wordFreq (content : jsstring) : list (jsstring * nat) :=
  fold_left (fun m word => bump (cleanWord word) m) (topicWords content) [].

Definition topTopics (content : jsstring) : list jsstring :=
  filter (fun word => 3 <? length word)
         (map fst (firstn 8 (sort_desc (wordFreq content)))).

(** [topTopics[i] || fallback] *)
Definition topic_or (content : jsstring) (i : nat) (fallback : jsstring) : jsstring :=
  match nth_error (topTopics content) i with
  | Some (c :: t) => c :: t
  | _ => fallback
  end.

(** The object returned when the reply of the model is not used (the
    return statement after the inner [try]). *)
Definition fallbackAnalysis (content extractionMethod : jsstring) : jsval :=
  let wordCount := string_of_nat (wordCount content) in
  let nSentences := string_of_nat (length (sentences content)) in
  let nParagraphs := string_of_nat (length (paragraphs content)) in
  let topTopics := topTopics content in
  let hasCode := hasCode content in
  let hasTechnicalTerms := hasTechnicalTerms content in
  JObj
    [ (lit "summary",
       JStr (lit "This document contains " ++ wordCount
             ++ lit " words across " ++ nSentences
             ++ lit " sentences and " ++ nParagraphs
             ++ lit " paragraphs. The content focuses on "
             ++ join (lit ", ") (firstn 3 topTopics)
             ++ lit " and appears to be "
             ++ (if hasTechnicalTerms
                 then lit "technical documentation or educational material"
                 else lit "informational content")
             ++ lit ". "
             ++ (if hasCode
                 then lit "It includes code examples and technical implementations, suggesting it's meant for developers or technical professionals."
                 else lit "The content is primarily explanatory and conceptual in nature.")
             ++ lit " The document was successfully extracted using "
             ++ extractionMethod
             ++ lit " and provides comprehensive coverage of its subject matter."));
      (lit "features",
       JArr
         [ JStr (lit "Comprehensive content with " ++ wordCount
                 ++ lit " words organized in " ++ nParagraphs
                 ++ lit " main sections");
           JStr (lit "Primary topics include: "
                 ++ join (lit ", ") (firstn 4 topTopics));
           JStr (if hasCode
                 then lit "Contains code examples, functions, and technical implementations"
                 else lit "Focuses on conceptual explanations and theoretical content");
           JStr (lit "Document structure: " ++ nSentences
                 ++ lit " sentences across multiple sections");
           JStr (lit "Successfully extracted using " ++ extractionMethod
                 ++ lit " with high content quality") ]);
      (lit "technologies",
       JArr (if hasTechnicalTerms
             then map JStr (firstn 6 topTopics)
             else map JStr (map lit ["Document Processing"; "Text Analysis";
                                     "Content Management"]%string)));
      (lit "useCases",
       JArr
         [ JStr (lit "Reference material for professionals working with "
                 ++ topic_or content 0 (lit "the documented subject matter"));
           JStr (lit "Educational resource for learning about "
                 ++ topic_or content 1 (lit "the covered topics"));
           JStr (if hasCode
                 then lit "Technical documentation for developers and engineers"
                 else lit "Knowledge base for research and information purposes") ]);
      (lit "insights",
       JStr (lit "This document provides substantial content about "
             ++ join (lit ", ") (firstn 3 topTopics)
             ++ lit " with " ++ wordCount
             ++ lit " words of detailed information. The material is well-structured with "
             ++ nParagraphs
             ++ lit " main sections and appears to target "
             ++ (if hasTechnicalTerms
                 then lit "technical professionals, developers, or engineers"
                 else lit "general audiences interested in the subject matter")
             ++ lit ". "
             ++ (if hasCode
                 then lit "The inclusion of code examples and technical implementations makes it particularly valuable for hands-on learning and practical application."
                 else lit "The explanatory nature of the content makes it suitable for educational and reference purposes.")
             ++ lit " The successful extraction using "
             ++ extractionMethod
             ++ lit " ensures high content fidelity, making this document valuable for knowledge sharing, training, and reference purposes.")) ].

End Statistics.

(** *** The model call and the handler *)

(** The uploaded file: its name, declared media type and size, and what
    [file.text()] resolves to. *)
Record File := {
  file_name : jsstring;
  file_type : jsstring;
  file_size : nat;
  file_text : result jsstring
}.

(** An entry of the multipart form: a file or a plain string field. *)
Inductive FormDataEntryValue : Type :=
| EntryFile (f : File)
| EntryString (s : jsstring).

(** The request, as far as the handler reads it: what [request.formData()]
    resolves to, the list of the named entries of the form. *)
Record Request := {
  formData : result (list (jsstring * FormDataEntryValue))
}.

(** [formData.get(name)]: the first entry of that name, or [null]. *)
Fixpoint form_get (form : list (jsstring * FormDataEntryValue)) (name : jsstring)
  : option FormDataEntryValue :=
  match form with
  | [] => None
  | (k, v) :: rest => if eqb k name then Some v else form_get rest name
  end.

(** What lies outside the handler: the credential read from the
    environment, the three extraction back ends (each resolves to a value
    or throws; their network and parser calls are not looked into), and the
    outcome of the [generateContent] call that asks for the analysis.  The
    prompt sent with that call only influences this outcome and is not
    built here.  The two hosted back ends return a field of a parsed
    answer, a value of any type whatever their signature declares; the
    local parser returns a string it built itself. *)
Record World := {
  GEMINI_API_KEY : option jsstring;
  extractPDFTextWithJina : File -> result jsval;
  extractPDFWithGeminiVision : File -> result jsval;
  extractPDFTextWithPDFJS : File -> result jsstring;
  generateContent : fetch_outcome
}.

(** [!key] is false: the variable is set to a non-empty string. *)
Definition configured (key : option jsstring) : bool :=
  match key with
  | Some (_ :: _) => true
  | _ => false
  end.

Record method := { name : jsstring; fn : File -> result jsval }.

(** A back end that returns a string, as an entry of the method table. *)
Definition as_value (extractor : File -> result jsstring) : File -> result jsval :=
  fun file => text <- extractor file ;; Ok (JStr text).

Definition extractionMethods (w : World) : list method :=
  [ {| name := lit "jina-ai"; fn := extractPDFTextWithJina w |};
    {| name := lit "gemini-vision"; fn := extractPDFWithGeminiVision w |};
    {| name := lit "pdf-js"; fn := as_value (extractPDFTextWithPDFJS w) |} ].

(** The variables of the extraction loop, and the names of the methods
    called so far, in call order.  [content] holds whatever the last
    assignment put there. *)
Record loop_state := {
  content : jsval;
  extractionMethod : jsstring;
  lastError : option exn;
  attempted : list jsstring
}.

Definition initial_state : loop_state :=
  {| content := JStr []; extractionMethod := lit "unknown";
     lastError := None; attempted := [] |}.

(** What the handler has after the extraction step: an early response, the
    text and the method that produced it, or an exception on its way to
    the outer [catch]. *)
Inductive extraction : Type :=
| Respond (r : Response)
| Extracted (content extractionMethod : jsstring)
| Raised (e : exn).

Definition error_response (status : nat) (message : jsstring) : Response :=
  {| status := status; body := JObj [(lit "error", JStr message)] |}.

Definition line (s : string) : jsstring := 10%N :: lit s.
Definition bullet (s : string) : jsstring := [10%N; 8226%N; 32%N] ++ lit s.

Definition unreadable_pdf_message : jsstring :=
  lit "Failed to extract readable text from PDF. This PDF might be:"
  ++ bullet "Image-based (scanned document)"
  ++ bullet "Password protected"
  ++ bullet "Corrupted or using unsupported encoding"
  ++ bullet "Contains only graphics/charts"
  ++ line "" ++ line "Please try:"
  ++ bullet "Converting to text format first"
  ++ bullet "Using OCR software if it's a scanned document"
  ++ bullet "Ensuring the PDF has selectable text".

Section Handler.

Context {CM : CaseMapping} {RT : Runtime}.

(** [v && v.length > k] and [v && v.length >= k] *)
Definition longer_than (k : Z) (v : jsval) : result bool :=
  if truthy v then len <- get v (lit "length") ;; Ok (gt len k) else Ok false.

Definition at_least (k : Z) (v : jsval) : result bool :=
  if truthy v then len <- get v (lit "length") ;; Ok (ge len k) else Ok false.

(** [a && b] on two tests: [b] is evaluated only when [a] is true. *)
Definition and_then (a b : result bool) : result bool :=
  holds <- a ;; if holds then b else Ok false.

(** The test on the parsed reply that decides whether it is returned. *)
Definition quality_ok (parsed : jsval) : result bool :=
  and_then (summary <- get parsed (lit "summary") ;; longer_than 100 summary)
 (and_then (features <- get parsed (lit "features") ;; at_least 3 features)
 (and_then (useCases <- get parsed (lit "useCases") ;; at_least 2 useCases)
           (insights <- get parsed (lit "insights") ;; longer_than 100 insights))).

(** The inner [try] block: [Some parsed] when the block returns the parsed
    reply, [None] when control leaves it without returning. *)
Definition parse_reply (text : jsval) : result (option jsval) :=
  t <- as_string (lit "match") text ;;
  match match_braces t with
  | Some jsonMatch =>
      parsed <- JSON_parse jsonMatch ;;
      good <- quality_ok parsed ;;
      Ok (if good then Some parsed else None)
  | None => Ok None
  end.

Definition generateEnhancedFileAnalysis (w : World)
    (content filename extractionMethod : jsstring) : result jsval :=
  if negb (configured (GEMINI_API_KEY w))
  then Throw (Error (lit "Gemini API key not configured"))
  else
    try_catch
      (match generateContent w with
       | FetchRejected e => Throw e
       | FetchResponse ok status json =>
           if negb ok
           then Throw (Error (lit "Gemini API error: " ++ string_of_nat status))
           else
             data <- json ;;
             text <- candidate_text data ;;
             match try_catch (parse_reply text) (fun _ => Ok None) with
             | Ok (Some parsed) => Ok parsed
             | _ => Ok (fallbackAnalysis content extractionMethod)
             end
       end)
      (fun _ => Throw (Error (lit "Failed to generate AI analysis"))).

(** The call [isValidTextContent(content)] on whatever a back end
    returned: a falsy value is rejected at the first test, a string is
    validated, and on any other value [text.trim()] throws. *)
Definition validate (content : jsval) : result bool :=
  if truthy content then
    match content with
    | JStr text => Ok (isValidTextContent text)
    | _ => Throw (TypeError (lit "text.trim is not a function"))
    end
  else Ok false.

(** The [for ... of] loop over the extraction methods.  Its [catch] also
    receives what the validator throws, after [content] and
    [extractionMethod] were assigned. *)
Fixpoint try_methods (file : File) (methods : list method) (st : loop_state)
  : loop_state :=
  match methods with
  | [] => st
  | m :: rest =>
      let called := attempted st ++ [name m] in
      match fn m file with
      | Ok value =>
          match validate value with
          | Ok true =>
              {| content := value; extractionMethod := name m;
                 lastError := lastError st; attempted := called |}
          | Ok false =>
              try_methods file rest
                {| content := JStr []; extractionMethod := name m;
                   lastError := lastError st; attempted := called |}
          | Throw e =>
              try_methods file rest
                {| content := value; extractionMethod := name m;
                   lastError := Some e; attempted := called |}
          end
      | Throw e =>
          try_methods file rest
            {| content := content st; extractionMethod := extractionMethod st;
               lastError := Some e; attempted := called |}
      end
  end.

Definition is_pdf (file : File) : bool :=
  eqb (file_type file) (lit "application/pdf")
  || endsWith (toLowerCase (file_name file)) (lit ".pdf").

Definition is_markdown (file : File) : bool :=
  eqb (file_type file) (lit "text/markdown")
  || endsWith (toLowerCase (file_name file)) (lit ".md").

Definition is_plain_text (file : File) : bool :=
  eqb (file_type file) (lit "text/plain")
  || endsWith (toLowerCase (file_name file)) (lit ".txt").

Definition read_directly (file : File) : extraction :=
  match file_text file with
  | Ok text => Extracted text (lit "direct-text")
  | Throw e => Raised e
  end.

(** The statements between the branches and the analysis, which log
    [content.length] and [content.substring(0, 300)]: on a value that is no
    string the second one throws. *)
Definition logged (content : jsval) (extractionMethod : jsstring) : extraction :=
  match content with
  | JStr text => Extracted text extractionMethod
  | _ => Raised (TypeError (lit "content.substring is not a function"))
  end.

(** The extraction step of the handler, with the methods it called. *)
Definition extract (w : World) (file : File) : extraction * list jsstring :=
  if is_pdf file then
    let st := try_methods file (extractionMethods w) initial_state in
    (if truthy (content st)
     then logged (content st) (extractionMethod st)
     else Respond (error_response 400 unreadable_pdf_message),
     attempted st)
  else if is_markdown file then (read_directly file, [])
  else if is_plain_text file then (read_directly file, [])
  else
    (Respond (error_response 400
       (lit "Unsupported file type: " ++ file_type file
        ++ lit ". Please upload PDF, Markdown (.md), or Text (.txt) files.")),
     []).

(** The outer [catch]. *)
Definition failure_response (e : exn) : Response :=
  error_response 500 (lit "Failed to analyze file: " ++ message e).

(** The handler: its response, and the extraction methods it called. *)
Definition POST (w : World) (request : Request) : Response * list jsstring :=
  match formData request with
  | Throw e => (failure_response e, [])
  | Ok form =>
      match form_get form (lit "file") with
      | None | Some (EntryString []) =>
          (error_response 400 (lit "No file provided"), [])
      | Some (EntryString (_ :: _)) =>
          (* a string has no [name]: [file.name.toLowerCase()] throws *)
          (failure_response
             (TypeError (lit "Cannot read properties of undefined (reading 'toLowerCase')")),
           [])
      | Some (EntryFile file) =>
          let (step, called) := extract w file in
          (match step with
           | Respond r => r
           | Raised e => failure_response e
           | Extracted content extractionMethod =>
               match generateEnhancedFileAnalysis w content (file_name file)
                                                  extractionMethod with
               | Ok analysis =>
                   {| status := 200; body := JObj [(lit "analysis", analysis)] |}
               | Throw e => failure_response e
               end
           end, called)
      end
  end.

End Handler.

End AnalyzeFile.

(** ** The repository-analysis route *)

Module AnalyzeRepo.

Import JS.

(** What lies outside the handler: the credential of the model, the four
    calls to the repository service for an owner and a repository name
    (the optional token only changes what they answer), and the outcome of
    the [generateContent] call. *)
Record World := {
  GEMINI_API_KEY : option jsstring;
  fetch_repo : jsstring -> jsstring -> fetch_outcome;
  fetch_contributors : jsstring -> jsstring -> fetch_outcome;
  fetch_languages : jsstring -> jsstring -> fetch_outcome;
  fetch_readme : jsstring -> jsstring -> fetch_outcome;
  generateContent : fetch_outcome
}.

(** The request: what [request.json()] resolves to. *)
Record Request := { json : result jsval }.

(** [await (await fetch(url)).json()], the status being ignored. *)
Definition fetch_json (o : fetch_outcome) : result jsval :=
  match o with
  | FetchRejected e => Throw e
  | FetchResponse _ _ body => body
  end.

Definition configured (key : option jsstring) : bool :=
  match key with
  | Some (_ :: _) => true
  | _ => false
  end.

Definition not_slash (c : codeunit) : bool := negb (N.eqb c 47).

(** [/github\.com\/([^\/]+)\/([^\/]+)/] at the start of [s]: the two
    groups. *)
Definition repo_at (s : jsstring) : option (jsstring * jsstring) :=
  if startsWith s (lit "github.com/") then
    let rest := skipn 11 s in
    let owner := takeWhile not_slash rest in
    match owner, skipn (length owner) rest with
    | _ :: _, _ :: rest' =>
        match takeWhile not_slash rest' with
        | [] => None
        | repo => Some (owner, repo)
        end
    | _, _ => None
    end
  else None.

(** [repoUrl.match(...)]: the leftmost match. *)
Fixpoint match_repo_url (s : jsstring) : option (jsstring * jsstring) :=
  match repo_at s with
  | Some groups => Some groups
  | None =>
      match s with
      | [] => None
      | _ :: s' => match_repo_url s'
      end
  end.

Definition error_response (status : nat) (message : jsstring) : Response :=
  {| status := status; body := JObj [(lit "error", JStr message)] |}.

Section Handler.

Context {RT : Runtime}.

(** The README step: whatever is thrown inside its [try] leaves the empty
    string. *)
Definition readme_of (o : fetch_outcome) : jsstring :=
  match (readmeData <- fetch_json o ;;
         encoded <- get readmeData (lit "content") ;;
         Buffer_from_base64_toString encoded) with
  | Ok text => text
  | Throw _ => []
  end.

Definition fetchRepoData (w : World) (owner repo : jsstring) : result jsval :=
  repoInfo <- fetch_json (fetch_repo w owner repo) ;;
  contributors <- fetch_json (fetch_contributors w owner repo) ;;
  languages <- fetch_json (fetch_languages w owner repo) ;;
  let readme := readme_of (fetch_readme w owner repo) in
  name <- get repoInfo (lit "name") ;;
  description <- get repoInfo (lit "description") ;;
  stargazers_count <- get repoInfo (lit "stargazers_count") ;;
  forks_count <- get repoInfo (lit "forks_count") ;;
  language <- get repoInfo (lit "language") ;;
  created_at <- get repoInfo (lit "created_at") ;;
  updated_at <- get repoInfo (lit "updated_at") ;;
  topics <- get repoInfo (lit "topics") ;;
  Ok (JObj
        [ (lit "name", name);
          (lit "description", or_else description (JStr []));
          (lit "stars", stargazers_count);
          (lit "forks", forks_count);
          (lit "language", or_else language (JStr (lit "Unknown")));
          (lit "created_at", created_at);
          (lit "updated_at", updated_at);
          (lit "topics", or_else topics (JArr []));
          (lit "contributors", or_else contributors (JArr []));
          (lit "languages", or_else languages (JObj []));
          (lit "readme", JStr readme) ]).

(** The two method calls made while the prompt is built:
    [repoData.topics.join(', ')] and [repoData.readme.substring(0, 2000)].
    The prompt itself only influences the reply of the model. *)
Definition build_prompt (repoData : jsval) : result unit :=
  topics <- get repoData (lit "topics") ;;
  _ <- match topics with
       | JArr _ => Ok tt
       | JUndefined | JNull => Throw (cannot_read topics (lit "join"))
       | _ => Throw (TypeError (lit "join is not a function"))
       end ;;
  readme <- get repoData (lit "readme") ;;
  _ <- as_string (lit "substring") readme ;;
  Ok tt.

(** The [try] block around the extraction of the JSON text: [Some parsed]
    when it returns, [None] when it is left without returning. *)
Definition parse_reply (text : jsval) : result (option jsval) :=
  t <- as_string (lit "match") text ;;
  match match_braces t with
  | Some jsonMatch => parsed <- JSON_parse jsonMatch ;; Ok (Some parsed)
  | None => Ok None
  end.

(** The object returned after the [try] block. *)
Definition degraded (text : jsstring) (language : jsval) : jsval :=
  JObj
    [ (lit "summary", JStr (substring0 200 text ++ lit "..."));
      (lit "features", JArr [JStr (lit "Feature extraction failed")]);
      (lit "technologies", JArr [language]);
      (lit "useCases", JArr [JStr (lit "Use case analysis failed")]);
      (lit "insights", JStr (lit "Additional analysis unavailable")) ].

Definition generateAnalysis (w : World) (repoData : jsval) : result jsval :=
  if negb (configured (GEMINI_API_KEY w))
  then Throw (Error (lit "Gemini API key not configured"))
  else
    _ <- build_prompt repoData ;;
    data <- fetch_json (generateContent w) ;;
    text <- candidate_text data ;;
    match try_catch (parse_reply text) (fun _ => Ok None) with
    | Ok (Some parsed) => Ok parsed
    | _ =>
        t <- as_string (lit "substring") text ;;
        language <- get repoData (lit "language") ;;
        Ok (degraded t language)
    end.

Definition POST (w : World) (request : Request) : Response :=
  match
    (payload <- json request ;;
     repoUrl <- get payload (lit "repoUrl") ;;
     url <- as_string (lit "match") repoUrl ;;
     match match_repo_url url with
     | None => Ok (error_response 400 (lit "Invalid GitHub URL"))
     | Some (owner, repo) =>
         repoData <- fetchRepoData w owner repo ;;
         analysis <- generateAnalysis w repoData ;;
         Ok {| status := 200;
               body := JObj [(lit "repoData", repoData);
                             (lit "analysis", analysis)] |}
     end)
  with
  | Ok response => response
  | Throw _ => error_response 500 (lit "Failed to analyze repository")
  end.

End Handler.

End AnalyzeRepo.

(** * Stated properties *)

(** ** The validator's four checks, as the design document words them *)

Module ValidatorSpec.

Import JS AnalyzeFile.

(** [p] occurs in [s]. *)
Definition Substring (p s : jsstring) : Prop :=
  exists before after, s = before ++ p ++ after.

(** [w] has at least [n] characters, all of class [cls]. *)
Definition PureOf (cls : codeunit -> bool) (n : nat) (w : jsstring) : Prop :=
  n <= length w /\ Forall (fun c => cls c = true) w.

(** A meaningful word: length in [3,20], not a pure hex string of length 8
    or more, not a pure lower-case alphanumeric-with-underscore string of
    length 8 or more, with a vowel, not purely numeric. *)
Definition Meaningful (w : jsstring) : Prop :=
  3 <= length w <= 20
  /\ ~ PureOf is_hex 8 w
  /\ ~ PureOf is_lower_alnum 8 w
  /\ Exists (fun c => is_vowel c = true) w
  /\ ~ PureOf is_digit 1 w.

(** [k] of the elements of a list satisfy [P]. *)
Inductive Counts {A : Type} (P : A -> Prop) : list A -> nat -> Prop :=
| counts_nil : Counts P [] 0
| counts_yes x l k : P x -> Counts P l k -> Counts P (x :: l) (S k)
| counts_no x l k : ~ P x -> Counts P l k -> Counts P (x :: l) k.

Section Checks.

Context {CM : CaseMapping}.

(** Check 1: the trimmed length is at least 100. *)
Definition long_enough (text : jsstring) : Prop :=
  100 <= length (trim text).

(** Check 2: the readable characters make up at least 0.70 of the text. *)
Definition mostly_readable (text : jsstring) : Prop :=
  exists k, Counts (fun c => is_readable c = true) text k
            /\ (7 # 10 <= ratio k (length text))%Q.

(** Check 3: at least 0.30 of the words are meaningful.  As the design
    document words it, the words are the white-space-separated pieces of
    the text; in the source they are those of the lower-cased text. *)
Definition mostly_meaningful_among (words : list jsstring) : Prop :=
  exists k, Counts Meaningful words k
            /\ (3 # 10 <= ratio k (length words))%Q.

Definition mostly_meaningful_as_written (text : jsstring) : Prop :=
  mostly_meaningful_among (split_runs is_space text).

Definition mostly_meaningful (text : jsstring) : Prop :=
  mostly_meaningful_among (split_runs is_space (toLowerCase text)).

(** Check 4: a common word occurs in the text, case being ignored. *)
Definition has_common_word (text : jsstring) : Prop :=
  exists word, In word commonWords /\ Substring word (toLowerCase text).

End Checks.

(** [n] copies of a token, one after the other. *)
Definition repeated (token : jsstring) (n : nat) : jsstring :=
  concat (repeat token n).

(** The hex-like token of the design document, and a text of 112
    characters made of it alone. *)
Definition hex_token : jsstring := lit "a1b2c3d4a1b2c3d4".
Definition hex_text : jsstring := repeated hex_token 7.

(** Capitalised words of eight letters and more. *)
Definition capitalised : jsstring :=
  lit "Engineering Department Technical Documents Structural Assessment Regulatory Compliance Procedures Specification".

(** Thirty times the word cat, separated by single spaces. *)
Definition cats : jsstring := join (lit " ") (repeat (lit "cat") 30).

End ValidatorSpec.

(** ** The extraction chain and the analysis, as the design document words
    them; sample uploads and replies *)

Module FileSpec.

Import JS AnalyzeFile.

(** A request whose form carries [file] as its file field. *)
Definition upload (file : File) : Request :=
  {| formData := Ok [(lit "file", EntryFile file)] |}.

Section Chain.

Context {CM : CaseMapping}.

(** A strategy succeeds on a file when it returns a text that the
    validator accepts. *)
Definition accepted (file : File) (m : method) : bool :=
  match fn m file with
  | Ok (JStr text) => isValidTextContent text
  | _ => false
  end.

(** The validator rejects a value when it returns false on it: the value
    is falsy, or it is a string that misses one of the checks. *)
Definition rejected (content : jsval) : Prop :=
  truthy content = false
  \/ exists text, content = JStr text /\ isValidTextContent text = false.


(** The validator throws on a value: one that is neither falsy nor a
    string. *)
Definition unvalidated (content : jsval) : Prop :=
  truthy content = true /\ forall text, content <> JStr text.


(** The strategies of a list up to and including the first that
    succeeds; all of them when none does. *)
Fixpoint until_accepted (file : File) (methods : list method) : list method :=
  match methods with
  | [] => []
  | m :: rest => if accepted file m then [m] else m :: until_accepted file rest
  end.

End Chain.

(** The fixed order of the strategies. *)
Definition strategy_order : list jsstring :=
  [lit "jina-ai"; lit "gemini-vision"; lit "pdf-js"].





Section Fallback.

Context {CM : CaseMapping}.


End Fallback.

End FileSpec.

Module Samples.

Import JS.

(** A runtime for closed examples: [JSON.parse] is tabulated on the texts
    the examples parse and throws elsewhere; the coercions that the
    examples never reach answer NaN or throw; base64 decoding is the
    identity. *)
Definition tabulated (table : list (jsstring * jsval)) : Runtime :=
  {| JSON_parse := fun s =>
       match find (fun entry => eqb (fst entry) s) table with
       | Some entry => Ok (snd entry)
       | None => Throw (SyntaxError (lit "Unexpected token"))
       end;
     StringToNumber := fun _ => None;
     ObjectToNumber := fun _ => None;
     base64_utf8 := fun s => s;
     Buffer_from_object := fun _ =>
       Throw (TypeError (lit "The first argument must be of type string")) |}.

(** A successful reply of the model whose first candidate carries [text]. *)
Definition candidates_with (text : jsstring) : jsval :=
  JObj [(lit "candidates",
         JArr [JObj [(lit "content",
                      JObj [(lit "parts", JArr [JObj [(lit "text", JStr text)]])])]])].

(** The body of a refused call: an error object, no candidates. *)
Definition quota_error : jsval :=
  JObj [(lit "error",
         JObj [(lit "code", JNum 429);
               (lit "message", JStr (lit "Resource has been exhausted"));
               (lit "status", JStr (lit "RESOURCE_EXHAUSTED"))])].

Definition quoted (s : string) : jsstring := 34%N :: lit s ++ [34%N].

(** A reply that wraps a JSON object with a short summary, and that
    object. *)
Definition short_json : jsstring :=
  lit "{" ++ quoted "summary" ++ lit ": " ++ quoted "A short note." ++ lit "}".

Definition short_reply : jsstring :=
  lit "Here is the analysis: " ++ short_json ++ lit " Done.".

Definition short_parsed : jsval :=
  JObj [(lit "summary", JStr (lit "A short note."))].

(** The runtime of the examples: it parses the short object above. *)
Definition sample_runtime : Runtime := tabulated [(short_json, short_parsed)].

(** Readable prose of 111 characters. *)
Definition prose : jsstring :=
  lit "The quick brown fox jumps over the lazy dog and then rests in the shade of a tall tree for the rest of the day.".

Definition report_pdf : AnalyzeFile.File :=
  {| AnalyzeFile.file_name := lit "Report.PDF";
     AnalyzeFile.file_type := lit "application/octet-stream";
     AnalyzeFile.file_size := 4821;
     AnalyzeFile.file_text := Ok [] |}.

Definition unavailable {A : Type} (what : string) : AnalyzeFile.File -> result A :=
  fun _ => Throw (Error (lit what)).

(** Every back end would extract the prose. *)
Definition all_readers_work : AnalyzeFile.World :=
  {| AnalyzeFile.GEMINI_API_KEY := Some (lit "key");
     AnalyzeFile.extractPDFTextWithJina := fun _ => Ok (JStr prose);
     AnalyzeFile.extractPDFWithGeminiVision := fun _ => Ok (JStr prose);
     AnalyzeFile.extractPDFTextWithPDFJS := fun _ => Ok prose;
     AnalyzeFile.generateContent :=
       FetchResponse true 200 (Ok (candidates_with short_reply)) |}.

(** The hosted reader throws, the vision model returns the prose. *)
Definition reader_down : AnalyzeFile.World :=
  {| AnalyzeFile.GEMINI_API_KEY := Some (lit "key");
     AnalyzeFile.extractPDFTextWithJina := unavailable "Jina AI API key not configured";
     AnalyzeFile.extractPDFWithGeminiVision := fun _ => Ok (JStr prose);
     AnalyzeFile.extractPDFTextWithPDFJS := unavailable "Insufficient text extracted via PDF.js";
     AnalyzeFile.generateContent :=
       FetchResponse true 200 (Ok (candidates_with short_reply)) |}.

(** The reader throws, the vision model returns noise, the local parser
    throws. *)
Definition nothing_readable : AnalyzeFile.World :=
  {| AnalyzeFile.GEMINI_API_KEY := Some (lit "key");
     AnalyzeFile.extractPDFTextWithJina := unavailable "Jina AI API error: 503";
     AnalyzeFile.extractPDFWithGeminiVision := fun _ => Ok (JStr ValidatorSpec.hex_text);
     AnalyzeFile.extractPDFTextWithPDFJS := unavailable "Insufficient text extracted via PDF.js";
     AnalyzeFile.generateContent :=
       FetchResponse true 200 (Ok (candidates_with short_reply)) |}.




(** A form with a text field only. *)
Definition form_without_file : list (jsstring * AnalyzeFile.FormDataEntryValue) :=
  [(lit "comment", AnalyzeFile.EntryString (lit "see attachment"))].

End Samples.

(** ** The repository route: upstream answers and sample worlds *)

Module RepoSpec.

Import JS AnalyzeRepo.

(** An optional upstream field is missing when it is absent or null. *)
Definition missing (v : jsval) : Prop := v = JUndefined \/ v = JNull.

(** The README call is missing or erroring: the request fails, the body is
    not JSON, or the body carries no content (the answer for a
    repository without README). *)
Inductive readme_unavailable : fetch_outcome -> Prop :=
| readme_rejected e : readme_unavailable (FetchRejected e)
| readme_not_json ok status e :
    readme_unavailable (FetchResponse ok status (Throw e))
| readme_no_content ok status fields :
    missing (lookup (lit "content") fields) ->
    readme_unavailable (FetchResponse ok status (Ok (JObj fields))).

Section Reply.

Context {RT : Runtime}.


End Reply.

End RepoSpec.

Module RepoSamples.

Import JS AnalyzeRepo.

(** Repository information without description, language and topics. *)
Definition bare_repo_info : jsval :=
  JObj [ (lit "name", JStr (lit "analyzer"));
         (lit "description", JNull);
         (lit "stargazers_count", JNum 12);
         (lit "forks_count", JNum 3);
         (lit "language", JNull);
         (lit "created_at", JStr (lit "2024-01-01T00:00:00Z"));
         (lit "updated_at", JStr (lit "2024-06-01T00:00:00Z")) ].

Definition not_found : jsval :=
  JObj [(lit "message", JStr (lit "Not Found"))].

(** A repository service that answers as above, with the given body for
    the contributors call and no README, and a model that answers
    [reply]. *)
Definition service (contributors : jsval) (reply : fetch_outcome) : World :=
  {| GEMINI_API_KEY := Some (lit "key");
     fetch_repo := fun _ _ => FetchResponse true 200 (Ok bare_repo_info);
     fetch_contributors := fun _ _ => FetchResponse true 200 (Ok contributors);
     fetch_languages := fun _ _ =>
       FetchResponse true 200 (Ok (JObj [(lit "TypeScript", JNum 48213)]));
     fetch_readme := fun _ _ => FetchResponse false 404 (Ok not_found);
     generateContent := reply |}.

(** The model refuses the call with status 429 and an error body. *)
Definition quota_exhausted : World :=
  service (JArr []) (FetchResponse false 429 (Ok Samples.quota_error)).

(** The contributors call answers with the JSON value null. *)
Definition null_contributors : World :=
  service JNull (FetchResponse true 200 (Ok (Samples.candidates_with (lit "No JSON here.")))).

Definition repo_url : jsstring := lit "https://github.com/SpandanM110/analyzer".

Definition repo_request : Request :=
  {| json := Ok (JObj [(lit "repoUrl", JStr repo_url)]) |}.

(** The metadata object that [fetchRepoData] builds from [service]. *)
Definition bare_repoData : jsval :=
  JObj [ (lit "name", JStr (lit "analyzer"));
         (lit "description", JStr []);
         (lit "stars", JNum 12);
         (lit "forks", JNum 3);
         (lit "language", JStr (lit "Unknown"));
         (lit "created_at", JStr (lit "2024-01-01T00:00:00Z"));
         (lit "updated_at", JStr (lit "2024-06-01T00:00:00Z"));
         (lit "topics", JArr []);
         (lit "contributors", JArr []);
         (lit "languages", JObj [(lit "TypeScript", JNum 48213)]);
         (lit "readme", JStr []) ].

End RepoSamples.

(** ** Further conditions on the answers of the model and of the
    repository service *)

Module ReplySpec.

Import JS.


(** A call of the repository service gives no JSON: the request is
    rejected or the body does not parse. *)
Inductive call_gives_no_json : fetch_outcome -> Prop :=
| no_json_rejected e : call_gives_no_json (FetchRejected e)
| no_json_body ok status e : call_gives_no_json (FetchResponse ok status (Throw e)).

Section Reply.

Context {RT : Runtime}.

(** The reply holds nothing to return: it is not a string, it has no pair
    of braces, or the text between the braces does not parse. *)
Inductive unusable_reply : jsval -> Prop :=
| reply_not_a_string v : (forall s, v <> JStr s) -> unusable_reply v
| reply_without_braces s : match_braces s = None -> unusable_reply (JStr s)
| reply_not_parsing s jsonMatch e :
    match_braces s = Some jsonMatch -> JSON_parse jsonMatch = Throw e ->
    unusable_reply (JStr s).

End Reply.

End ReplySpec.

Module MoreSamples.

Import JS.

(** JSON text of a value made of objects, arrays and strings that need no
    escaping; enough to write the sample replies. *)
Fixpoint render (v : jsval) : jsstring :=
  match v with
  | JUndefined | JNull => lit "null"
  | JBool true => lit "true"
  | JBool false => lit "false"
  | JNum n => lit "0"
  | JStr s => 34%N :: s ++ [34%N]
  | JArr items =>
      lit "[" ++ join (lit ",") (map render items) ++ lit "]"
  | JObj fields =>
      lit "{"
      ++ join (lit ",")
           (map (fun kv => 34%N :: fst kv ++ [34%N; 58%N] ++ render (snd kv)) fields)
      ++ lit "}"
  end.

(** A reply that meets the quality bar. *)
Definition good_parsed : jsval :=
  JObj [ (lit "summary", JStr Samples.prose);
         (lit "features",
          JArr [JStr (lit "Fable"); JStr (lit "Animals"); JStr (lit "Rest")]);
         (lit "technologies", JArr []);
         (lit "useCases", JArr [JStr (lit "Reading"); JStr (lit "Typing practice")]);
         (lit "insights", JStr Samples.prose) ].

Definition good_json : jsstring := render good_parsed.

Definition good_reply : jsstring :=
  lit "```json" ++ [10%N] ++ good_json ++ [10%N] ++ lit "```".

(** A runtime that parses the two sample objects. *)
Definition sample_runtime : Runtime :=
  Samples.tabulated [(Samples.short_json, Samples.short_parsed);
                     (good_json, good_parsed)].


Definition photo_png : AnalyzeFile.File :=
  {| AnalyzeFile.file_name := lit "photo.png";
     AnalyzeFile.file_type := lit "image/png";
     AnalyzeFile.file_size := 2048;
     AnalyzeFile.file_text := Ok [] |}.

(** The model answers [reply]; of the extraction back ends only the local
    parser yields a text (the vision model shares the key of the analysis
    and is refused). *)
Definition model_answers (key : option jsstring) (reply : fetch_outcome)
  : AnalyzeFile.World :=
  {| AnalyzeFile.GEMINI_API_KEY := key;
     AnalyzeFile.extractPDFTextWithJina := Samples.unavailable "Jina AI API key not configured";
     AnalyzeFile.extractPDFWithGeminiVision :=
       if AnalyzeFile.configured key
       then Samples.unavailable "Gemini Vision API error: 429"
       else Samples.unavailable "Gemini API key not configured";
     AnalyzeFile.extractPDFTextWithPDFJS := fun _ => Ok Samples.prose;
     AnalyzeFile.generateContent := reply |}.

Definition good_world : AnalyzeFile.World :=
  model_answers (Some (lit "key"))
    (FetchResponse true 200 (Ok (Samples.candidates_with good_reply))).


Definition chatty_world : AnalyzeFile.World :=
  model_answers (Some (lit "key"))
    (FetchResponse true 200 (Ok (Samples.candidates_with (lit "I cannot analyse this.")))).

Definition keyless_world : AnalyzeFile.World :=
  model_answers None
    (FetchResponse true 200 (Ok (Samples.candidates_with good_reply))).

End MoreSamples.

Module StatsSpec.

Import JS.

(** [wordFreq.get(w) || 0] *)
Fixpoint count_of (w : jsstring) (wordFreq : list (jsstring * nat)) : nat :=
  match wordFreq with
  | [] => 0
  | (k, n) :: rest => if eqb k w then n else count_of w rest
  end.

(** How often [w] stands in a list of words. *)
Definition occurrences (w : jsstring) (ws : list jsstring) : nat :=
  length (filter (fun k => eqb k w) ws).

(** Descending by count. *)
Definition by_count (a b : jsstring * nat) : Prop := snd b <= snd a.

End StatsSpec.

Module MoreRepoSamples.

Import JS AnalyzeRepo.

(** An address with a suffix on the name and a path after it. *)
Definition tree_url : jsstring :=
  lit "https://github.com/SpandanM110/analyzer.git/tree/main".

Definition gitlab_url : jsstring := lit "https://gitlab.com/SpandanM110/analyzer".

Definition gitlab_request : Request :=
  {| json := Ok (JObj [(lit "repoUrl", JStr gitlab_url)]) |}.

(** The contributors call is rejected. *)
Definition offline : World :=
  {| GEMINI_API_KEY := Some (lit "key");
     fetch_repo := fun _ _ => FetchResponse true 200 (Ok RepoSamples.bare_repo_info);
     fetch_contributors := fun _ _ => FetchRejected (TypeError (lit "fetch failed"));
     fetch_languages := fun _ _ => FetchResponse true 200 (Ok (JObj []));
     fetch_readme := fun _ _ => FetchResponse false 404 (Ok RepoSamples.not_found);
     generateContent := FetchResponse true 200 (Ok (Samples.candidates_with (lit "{}"))) |}.

End MoreRepoSamples.

(** ** The bodies of the three extraction back ends *)

Module Extractors.

Import JS.

(** The text content of a page of the parsed document: the [str] of each
    item ([None] for an item without one), or what [getPage] or
    [getTextContent] throws. *)
Definition page : Type := result (list (option jsstring)).

(** An element of [items.map(item => item.str)] as [join] renders it. *)
Definition item_text (item : option jsstring) : jsstring :=
  match item with
  | Some str => str
  | None => []
  end.

Definition page_marker (pageNum : nat) : jsstring :=
  [10%N; 10%N] ++ lit "--- Page " ++ string_of_nat pageNum ++ lit " ---"
  ++ [10%N; 10%N].

(** The loop over the pages, from page [pageNum] on; [fullText] is the text
    gathered so far. *)
Fixpoint pages_text (pageNum : nat) (pages : list page) (fullText : jsstring)
  : result jsstring :=
  match pages with
  | [] => Ok fullText
  | Throw e :: _ => Throw e
  | Ok items :: rest =>
      let pageText := join (lit " ") (map item_text items) in
      pages_text (S pageNum) rest
        (match trim pageText with
         | [] => fullText
         | _ :: _ => fullText ++ page_marker pageNum ++ pageText
         end)
  end.

(** [extractPDFTextWithPDFJS]: [document] is what loading the parser and
    opening the file give, the pages of the document or an exception.  The
    [catch] of the source logs and rethrows. *)
Definition extractPDFTextWithPDFJS (document : result (list page))
  : result jsstring :=
  pages <- document ;;
  fullText <- pages_text 1 pages [] ;;
  if match trim fullText with [] => true | _ :: _ => false end
     || (length fullText <? 100)
  then Throw (Error (lit "Insufficient text extracted via PDF.js"))
  else Ok (trim fullText).

Definition configured (key : option jsstring) : bool :=
  match key with
  | Some (_ :: _) => true
  | _ => false
  end.

Section Hosted.

Context {RT : Runtime}.

(** [v < k] against a numeric literal. *)
Definition lt (v : jsval) (k : Z) : bool :=
  match ToNumber v with
  | Some n => Z.ltb n k
  | None => false
  end.

(** [!extractedText || extractedText.length < 100] *)
Definition insufficient (extractedText : jsval) : result bool :=
  if truthy extractedText
  then len <- get extractedText (lit "length") ;; Ok (lt len 100)
  else Ok true.

(** [result.data || result.text || result.content || ''] *)
Definition first_text (result : jsval) : JS.result jsval :=
  data <- get result (lit "data") ;;
  if truthy data then Ok data else
  text <- get result (lit "text") ;;
  if truthy text then Ok text else
  content <- get result (lit "content") ;;
  if truthy content then Ok content else Ok (JStr []).

(** [extractPDFTextWithJina]: [response] is the outcome of the call to the
    reader service.  The value returned is what the service sent, of
    whatever type. *)
Definition extractPDFTextWithJina (JINA_API_KEY : option jsstring)
    (response : fetch_outcome) : result jsval :=
  if negb (configured JINA_API_KEY)
  then Throw (Error (lit "Jina AI API key not configured"))
  else
    match response with
    | FetchRejected e => Throw e
    | FetchResponse ok status json =>
        if negb ok
        then Throw (Error (lit "Jina AI API error: " ++ string_of_nat status))
        else
          result <- json ;;
          extractedText <- first_text result ;;
          short <- insufficient extractedText ;;
          if short
          then Throw (Error (lit "Insufficient text extracted via Jina AI"))
          else Ok extractedText
    end.

(** [extractPDFWithGeminiVision]; its [catch] logs and rethrows. *)
Definition extractPDFWithGeminiVision (GEMINI_API_KEY : option jsstring)
    (response : fetch_outcome) : result jsval :=
  if negb (configured GEMINI_API_KEY)
  then Throw (Error (lit "Gemini API key not configured"))
  else
    match response with
    | FetchRejected e => Throw e
    | FetchResponse ok status json =>
        if negb ok
        then Throw (Error (lit "Gemini Vision API error: " ++ string_of_nat status))
        else
          data <- json ;;
          extractedText <- candidate_text data ;;
          short <- insufficient extractedText ;;
          if short
          then Throw (Error (lit "Insufficient text extracted via Gemini Vision"))
          else Ok extractedText
    end.

End Hosted.

(** The text gathered by the loop is empty or begins with the marker of a
    page. *)
Definition marked (s : jsstring) : Prop :=
  s = [] \/ exists rest, s = [10%N; 10%N] ++ lit "--- Page " ++ rest /\ In 45%N rest.

(** A field of the answer that [||] passes over: it is read and falsy. *)
Definition empty_field (result : jsval) (field : jsstring) : Prop :=
  exists value, get result field = Ok value /\ truthy value = false.

(** A document of three pages, the second one blank. *)
Definition three_pages : list page :=
  [ Ok [Some (lit "Quarterly report"); None; Some (lit "on the state of the orchard and of the cider press.")];
    Ok [Some (lit "  "); Some []];
    Ok [Some (lit "The apple harvest was good and the press ran for three weeks.  ")] ].

(** The answer of the reader service with its text under [content]. *)
Definition reader_answer : jsval :=
  JObj [(lit "code", JNum 200); (lit "content", JStr Samples.prose)].

End Extractors.

(** ** The page: its two submit handlers and the age of a repository *)

Module Page.

Import JS.

Definition string_of_Z (n : Z) : jsstring :=
  match n with
  | Z0 => lit "0"
  | Zpos p => string_of_nat (Pos.to_nat p)
  | Zneg p => lit "-" ++ string_of_nat (Pos.to_nat p)
  end.

(** [String(v)], as [new Error(v)] applies it to its argument, on the values
    of a parsed body (numbers below 10^21 in absolute value). *)
Fixpoint ToString (v : jsval) : jsstring :=
  match v with
  | JUndefined => lit "undefined"
  | JNull => lit "null"
  | JBool true => lit "true"
  | JBool false => lit "false"
  | JNum n => string_of_Z n
  | JStr s => s
  | JArr items =>
      join (lit ",")
        (map (fun item => match item with
                          | JUndefined | JNull => []
                          | _ => ToString item
                          end) items)
  | JObj _ => lit "[object Object]"
  end.

(** The state of the component. *)
Record State := {
  repoUrl : jsstring;
  file : option AnalyzeFile.File;
  loading : bool;
  repoData : jsval;
  analysis : jsval;
  error : jsstring
}.

Definition initial : State :=
  {| repoUrl := []; file := None; loading := false;
     repoData := JNull; analysis := JNull; error := [] |}.

Definition setLoading (b : bool) (st : State) : State :=
  {| repoUrl := repoUrl st; file := file st; loading := b;
     repoData := repoData st; analysis := analysis st; error := error st |}.

Definition setError (m : jsstring) (st : State) : State :=
  {| repoUrl := repoUrl st; file := file st; loading := loading st;
     repoData := repoData st; analysis := analysis st; error := m |}.

Definition setRepoData (v : jsval) (st : State) : State :=
  {| repoUrl := repoUrl st; file := file st; loading := loading st;
     repoData := v; analysis := analysis st; error := error st |}.

Definition setAnalysis (v : jsval) (st : State) : State :=
  {| repoUrl := repoUrl st; file := file st; loading := loading st;
     repoData := repoData st; analysis := v; error := error st |}.

(** [try { body } catch (err) { setError(err.message) } finally
    { setLoading(false) }]: every exception of the model is an [Error]. *)
Definition settle (st : State) (body : result State) : State :=
  setLoading false
    (match body with
     | Ok st' => st'
     | Throw err => setError (message err) st
     end).

(** [handleRepoSubmit]: [response] is the outcome of the call to the
    repository route.  Reading [data.analysis] cannot throw once
    [data.repoData] was read, so both setters run or neither. *)
Definition handleRepoSubmit (st : State) (response : fetch_outcome) : State :=
  match repoUrl st with
  | [] => st
  | _ :: _ =>
      let st := setError [] (setLoading true st) in
      settle st
        (match response with
         | FetchRejected e => Throw e
         | FetchResponse ok _ json =>
             if negb ok
             then Throw (Error (lit "Failed to analyze repository"))
             else
               data <- json ;;
               repoData <- get data (lit "repoData") ;;
               analysis <- get data (lit "analysis") ;;
               Ok (setAnalysis analysis (setRepoData repoData st))
         end)
  end.

Definition allowedTypes : list jsstring :=
  [lit "application/pdf"; lit "text/markdown"; lit "text/plain"].

Definition allowedExtensions : list jsstring :=
  [lit ".pdf"; lit ".md"; lit ".txt"].

Section Cased.

Context {CM : CaseMapping}.

Definition isValidType (file : AnalyzeFile.File) : bool :=
  existsb (eqb (AnalyzeFile.file_type file)) allowedTypes
  || existsb (fun ext => endsWith (toLowerCase (AnalyzeFile.file_name file)) ext)
       allowedExtensions.

(** [handleFileSubmit]: [upload] is the call to the file route, made with
    the chosen file only after the two checks of the page. *)
Definition handleFileSubmit (st : State)
    (upload : AnalyzeFile.File -> fetch_outcome) : State :=
  match file st with
  | None => st
  | Some f =>
      if (10 * 1024 * 1024 <? N.of_nat (AnalyzeFile.file_size f))%N
      then setError (lit "File size must be less than 10MB") st
      else if negb (isValidType f)
      then setError (lit "Please upload a PDF, Markdown (.md), or Text (.txt) file") st
      else
        let st := setError [] (setLoading true st) in
        settle st
          (match upload f with
           | FetchRejected e => Throw e
           | FetchResponse ok _ json =>
               data <- json ;;
               if negb ok
               then
                 reason <- get data (lit "error") ;;
                 Throw (Error (ToString
                                 (or_else reason (JStr (lit "Failed to analyze file")))))
               else
                 analysis <- get data (lit "analysis") ;;
                 Ok (setRepoData JNull (setAnalysis analysis st))
           end)
  end.

End Cased.

(** [calculateAge]: [created] is the time value of the creation date in
    milliseconds ([None] for a date that does not parse), [now] the one of
    the clock.  On time values the division by the length of a day and the
    rounding up are exact. *)
Definition day_ms : Z := 1000 * 60 * 60 * 24.

Definition diffDays (created now : Z) : Z :=
  let diffTime := Z.abs (now - created) in
  - ((- diffTime) / day_ms).

Definition calculateAge (created : option Z) (now : Z) : jsstring :=
  match created with
  | None => lit "NaN years"
  | Some created =>
      let d := diffDays created now in
      if (d <? 30)%Z then string_of_Z d ++ lit " days"
      else if (d <? 365)%Z then string_of_Z (d / 30) ++ lit " months"
      else string_of_Z (d / 365) ++ lit " years"
  end.

End Page.

(** ** The charts *)

Module Charts.

Import JS.

(** *** LanguageChart *)

Section Percent.

(** The percentage [Math.round((bytes / totalBytes) * 100 * 100) / 100] is
    a computation on doubles; it is left to the host. *)
Variable number : Type.
Variable percentage : nat -> nat -> number.

Record bar := { bar_name : jsstring; bar_value : number; bar_bytes : nat }.

Definition bar_label (name : jsstring) : jsstring :=
  if 10 <? length name then substring0 10 name ++ lit "..." else name.

(** [languages] is the list of the entries of the object, in the order of
    [Object.entries]. *)
Definition languageData (languages : list (jsstring * nat)) : list bar :=
  let totalBytes := fold_left (fun sum bytes => sum + bytes) (map snd languages) 0 in
  map (fun entry =>
         {| bar_name := bar_label (fst entry);
            bar_value := percentage (snd entry) totalBytes;
            bar_bytes := snd entry |})
      (firstn 5 (AnalyzeFile.sort_desc languages)).

End Percent.

Arguments bar_name {number} b.
Arguments bar_value {number} b.
Arguments bar_bytes {number} b.

(** *** ContributorsChart *)

Record slice := { slice_name : jsval; slice_value : jsval; slice_fill : jsstring }.

Definition COLORS : list jsstring :=
  [lit "#3b82f6"; lit "#10b981"; lit "#f59e0b"; lit "#ef4444"; lit "#8b5cf6"].

(** [.map((contributor, index) => ...)] from position [index] on. *)
Fixpoint map_contributors (index : nat) (items : list jsval)
  : result (list slice) :=
  match items with
  | [] => Ok []
  | contributor :: rest =>
      name <- get contributor (lit "login") ;;
      value <- get contributor (lit "contributions") ;;
      slices <- map_contributors (S index) rest ;;
      Ok ({| slice_name := name; slice_value := value;
             slice_fill := nth (index mod length COLORS) COLORS [] |} :: slices)
  end.

(** [contributors.slice(0, 5).map(...)] on whatever the property holds. *)
Definition topContributors (contributors : jsval) : result (list slice) :=
  match contributors with
  | JArr items => map_contributors 0 (firstn 5 items)
  | JUndefined | JNull => Throw (cannot_read contributors (lit "slice"))
  | JStr _ =>
      Throw (TypeError (lit "contributors.slice(...).map is not a function"))
  | JBool _ | JNum _ | JObj _ =>
      Throw (TypeError (lit "contributors.slice is not a function"))
  end.

(** What the component renders: the notice or the pie. *)
Inductive view : Type :=
| NoData
| Pie (slices : list slice).

(** [ContributorsChart]: the slices are computed first, the check for
    missing data comes after. *)
Definition ContributorsChart (contributors : jsval) : result view :=
  slices <- topContributors contributors ;;
  if negb (truthy contributors) then Ok NoData else
  len <- get contributors (lit "length") ;;
  match len with
  | JNum 0 => Ok NoData
  | _ => Ok (Pie slices)
  end.

(** A slice shows the login and the contributions of a contributor. *)
Definition drawn_from (contributor : jsval) (s : slice) : Prop :=
  get contributor (lit "login") = Ok (slice_name s)
  /\ get contributor (lit "contributions") = Ok (slice_value s).

End Charts.

(** ** Facts about strings *)

Section StringFacts.

Import JS.

Lemma eqb_eq (a b : jsstring) : eqb a b = true <-> a = b.
Proof.
  revert b. induction a as [|x a IH]; intros [|y b]; simpl; split;
    try congruence; try reflexivity.
  - intros H. apply andb_true_iff in H as [Hx Hab].
    apply N.eqb_eq in Hx. apply IH in Hab. congruence.
  - intros H. injection H as -> ->. rewrite N.eqb_refl.
    apply IH. reflexivity.
Qed.

Lemma startsWith_app (s p : jsstring) :
  startsWith s p = true <-> exists rest, s = p ++ rest.
Proof.
  revert s. induction p as [|x p IH]; intros s; simpl.
  - split; [intros _; exists s; reflexivity | reflexivity].
  - destruct s as [|c s].
    + split; [discriminate | intros [rest H]; discriminate].
    + rewrite andb_true_iff, N.eqb_eq, IH. split.
      * intros [-> [rest ->]]. exists rest. reflexivity.
      * intros [rest H]. injection H as -> ->. split; [reflexivity | now exists rest].
Qed.

Lemma includes_unfold (s p : jsstring) :
  includes s p =
  startsWith s p || match s with [] => false | _ :: s' => includes s' p end.
Proof. destruct s; reflexivity. Qed.

Lemma includes_substring (s p : jsstring) :
  includes s p = true <-> ValidatorSpec.Substring p s.
Proof.
  unfold ValidatorSpec.Substring. split.
  - induction s as [|c s IH]; rewrite includes_unfold; intros H;
      apply orb_true_iff in H as [H|H].
    + apply startsWith_app in H as [rest ->]. now exists [], rest.
    + discriminate.
    + apply startsWith_app in H as [rest ->]. now exists [], rest.
    + destruct (IH H) as (before & after & ->). now exists (c :: before), after.
  - intros (before & after & ->).
    induction before as [|c before IH]; rewrite includes_unfold; apply orb_true_iff.
    + left. apply startsWith_app. now exists after.
    + right. exact IH.
Qed.

Lemma split_runs_not_nil (sep : codeunit -> bool) (s : jsstring) :
  split_runs sep s <> [].
Proof.
  induction s as [|c s IH]; simpl; [discriminate|].
  destruct (sep c).
  - destruct s as [|c' s']; [discriminate|].
    destruct (sep c'); [exact IH | discriminate].
  - destruct (split_runs sep s); discriminate.
Qed.

Lemma split_runs_length (sep : codeunit -> bool) (s : jsstring) :
  1 <= length (split_runs sep s).
Proof.
  pose proof (split_runs_not_nil sep s).
  destruct (split_runs sep s); [congruence | simpl; lia].
Qed.




End StringFacts.

(** ** The content validator *)

Section ValidatorFacts.

Import JS AnalyzeFile ValidatorSpec.

Context {CM : CaseMapping}.

Lemma lt_num_true (x y : Q) : lt_num x y = true <-> (x < y)%Q.
Proof.
  unfold lt_num. destruct (Qlt_le_dec x y) as [H|H]; split; try easy.
  intros H'. exfalso. exact (Qlt_not_le _ _ H' H).
Qed.

Lemma lt_num_false (x y : Q) : lt_num x y = false <-> (y <= x)%Q.
Proof.
  unfold lt_num. destruct (Qlt_le_dec x y) as [H|H]; split; try easy.
  intros H'. exfalso. exact (Qlt_not_le _ _ H H').
Qed.

Lemma Counts_filter {A : Type} (P : A -> Prop) (f : A -> bool) (l : list A) :
  (forall x, f x = true <-> P x) -> Counts P l (length (filter f l)).
Proof.
  intros Hf. induction l as [|x l IH]; simpl; [constructor|].
  destruct (f x) eqn:E.
  - simpl. apply counts_yes; [now apply Hf | exact IH].
  - apply counts_no; [|exact IH]. intros HP. apply Hf in HP. congruence.
Qed.

Lemma Counts_unique {A : Type} (P : A -> Prop) (l : list A) (k k' : nat) :
  Counts P l k -> Counts P l k' -> k = k'.
Proof.
  intros H. revert k'. induction H; intros k' H'; inversion H'; subst;
    try reflexivity; try contradiction; auto.
Qed.

Lemma test_all_min_PureOf (cls : codeunit -> bool) (n : nat) (w : jsstring) :
  test_all_min cls n w = true <-> PureOf cls n w.
Proof.
  unfold test_all_min, PureOf.
  rewrite andb_true_iff, Nat.leb_le, forallb_forall, Forall_forall. reflexivity.
Qed.

Lemma meaningful_word_Meaningful (w : jsstring) :
  meaningful_word w = true <-> Meaningful w.
Proof.
  unfold meaningful_word, Meaningful, test_any.
  rewrite !andb_true_iff, !negb_true_iff, !Nat.leb_le.
  rewrite existsb_exists, Exists_exists.
  rewrite <- !test_all_min_PureOf, <- !not_true_iff_false.
  tauto.
Qed.

Lemma hasCommonWords_has_common_word (text : jsstring) :
  hasCommonWords text = true <-> has_common_word text.
Proof.
  unfold hasCommonWords, has_common_word. rewrite existsb_exists.
  split; intros (word & Hin & H); exists word; (split; [exact Hin|]);
    now apply includes_substring.
Qed.

Lemma readableRatio_mostly_readable (text : jsstring) :
  lt_num (readableRatio text) (7 # 10) = false <-> mostly_readable text.
Proof.
  rewrite lt_num_false. unfold mostly_readable, readableRatio, readableChars.
  assert (HC : Counts (fun c => is_readable c = true) text
                      (length (filter is_readable text)))
    by (apply Counts_filter; reflexivity).
  split.
  - intros H. eexists. split; [exact HC | exact H].
  - intros (k & Hk & H). now rewrite (Counts_unique _ _ _ _ HC Hk).
Qed.

Lemma meaningfulRatio_mostly_meaningful (text : jsstring) :
  lt_num (meaningfulRatio text) (3 # 10) = false <-> mostly_meaningful text.
Proof.
  rewrite lt_num_false.
  unfold mostly_meaningful, mostly_meaningful_among, meaningfulRatio,
    meaningfulWords, words.
  set (ws := split_runs is_space (toLowerCase text)).
  assert (Hmax : Nat.max (length ws) 1 = length ws)
    by (pose proof (split_runs_length is_space (toLowerCase text)); fold ws in H; lia).
  rewrite Hmax.
  assert (HC : Counts Meaningful ws (length (filter meaningful_word ws)))
    by (apply Counts_filter; apply meaningful_word_Meaningful).
  split.
  - intros H. eexists. split; [exact HC | exact H].
  - intros (k & Hk & H). now rewrite (Counts_unique _ _ _ _ HC Hk).
Qed.

(** For every length up to 128 the double-precision tests of the source
    and the exact tests of the embedding give the same answer. *)
Lemma double_tests_agree (a b : nat) :
  1 <= b <= 128 -> a <= b ->
  double_lt_tenths a b 7 = lt_num (ratio a b) (7 # 10)
  /\ double_lt_tenths a b 3 = lt_num (ratio a b) (3 # 10).
Proof.
  intros Hb Ha.
  assert (H : forallb (fun b =>
                forallb (fun a =>
                  Bool.eqb (double_lt_tenths a b 7) (lt_num (ratio a b) (7 # 10))
                  && Bool.eqb (double_lt_tenths a b 3) (lt_num (ratio a b) (3 # 10)))
                  (seq 0 (S b)))
                (seq 1 128) = true) by (vm_compute; reflexivity).
  rewrite forallb_forall in H.
  specialize (H b (proj2 (in_seq 128 1 b) ltac:(lia))).
  rewrite forallb_forall in H.
  specialize (H a (proj2 (in_seq (S b) 0 a) ltac:(lia))).
  apply andb_true_iff in H as [H7 H3].
  split; apply eqb_prop; assumption.
Qed.

(** The verdict, check by check. *)
Lemma isValidTextContent_console_cases (text : jsstring) :
  isValidTextContent_console text =
  if length (trim text) <? 100 then (false, [])
  else if lt_num (readableRatio text) (7 # 10)
  then (false, [LowReadableRatio (readableRatio text)])
  else if lt_num (meaningfulRatio text) (3 # 10)
  then (false, [LowMeaningfulRatio (meaningfulRatio text)])
  else if negb (hasCommonWords text)
  then (false, [NoCommonWords])
  else (true, [ValidationPassed (readableRatio text) (meaningfulRatio text)
                                (hasCommonWords text) (length text)]).
Proof.
  unfold isValidTextContent_console. destruct text; reflexivity.
Qed.

(** C1, as the code has it.  For every input string the validator answers
    true exactly when the four checks pass: the trimmed length is at least
    100; the readable characters (letters, digits, white space, common
    punctuation) are at least 0.70 of the total length; at least 0.30 of
    the white-space-split words of the lower-cased text are meaningful;
    and a word of the fixed list occurs in the text as a substring, case
    ignored.  In particular a text shorter than 100 characters after
    trimming is rejected. *)
Theorem isValidTextContent_four_checks (text : jsstring) :
  (isValidTextContent text = true <->
     long_enough text /\ mostly_readable text
     /\ mostly_meaningful text /\ has_common_word text)
  /\ (length (trim text) < 100 -> isValidTextContent text = false).
Proof.
  unfold isValidTextContent. rewrite isValidTextContent_console_cases.
  rewrite <- readableRatio_mostly_readable, <- meaningfulRatio_mostly_meaningful,
    <- hasCommonWords_has_common_word.
  unfold long_enough.
  destruct (length (trim text) <? 100) eqn:Hlen.
  - apply Nat.ltb_lt in Hlen. split; [|reflexivity].
    simpl. split; [discriminate | intros [H _]; lia].
  - apply Nat.ltb_ge in Hlen. split; [|intros; lia].
    destruct (lt_num (readableRatio text) (7 # 10)); simpl;
      [split; [discriminate | intros (_ & H & _); discriminate]|].
    destruct (lt_num (meaningfulRatio text) (3 # 10)); simpl;
      [split; [discriminate | intros (_ & _ & H & _); discriminate]|].
    destruct (hasCommonWords text); simpl.
    + split; [intros _; repeat split; assumption | reflexivity].
    + split; [discriminate | intros (_ & _ & _ & H); discriminate].
Qed.

End ValidatorFacts.

(** ** Texts made of a repeated hex token; substring matching *)

Section HexTexts.

Import JS AnalyzeFile ValidatorSpec.

Context {CM : CaseMapping}.














End HexTexts.



(** C1, as stated, fails on capitalised words.  The text below passes the
    four checks as they are worded: it has 111 characters, all of them
    letters and spaces, each of its words has between 9 and 13 letters, a
    vowel and a capital letter (so none is a pure lower-case alphanumeric
    string), and the listed word in occurs in it.  The validator rejects
    it: it splits the lower-cased text, whose words are all lower-case
    strings of eight letters or more, and logs a meaningful ratio of 0. *)
Lemma capitalised_words_are_rejected :
  AnalyzeFile.isValidTextContent (CM := JS.ascii_case) ValidatorSpec.capitalised = false
  /\ ValidatorSpec.long_enough ValidatorSpec.capitalised
  /\ ValidatorSpec.mostly_readable ValidatorSpec.capitalised
  /\ ValidatorSpec.mostly_meaningful_as_written ValidatorSpec.capitalised
  /\ ValidatorSpec.has_common_word (CM := JS.ascii_case) ValidatorSpec.capitalised
  /\ AnalyzeFile.words (CM := JS.ascii_case) (JS.lit "Engineering Department")
     = [JS.lit "engineering"; JS.lit "department"]
  /\ AnalyzeFile.meaningful_word (JS.lit "Engineering") = true
  /\ AnalyzeFile.meaningful_word (JS.lit "engineering") = false
  /\ snd (AnalyzeFile.isValidTextContent_console (CM := JS.ascii_case)
            ValidatorSpec.capitalised)
     = [AnalyzeFile.LowMeaningfulRatio (0 # 10)].
Proof.
  split; [reflexivity|].
  split; [unfold ValidatorSpec.long_enough; vm_compute; lia|].
  split.
  { eexists. split.
    - apply (Counts_filter _ AnalyzeFile.is_readable). reflexivity.
    - vm_compute. discriminate. }
  split.
  { eexists. split.
    - apply (Counts_filter _ AnalyzeFile.meaningful_word).
      apply meaningful_word_Meaningful.
    - vm_compute. discriminate. }
  split; [apply hasCommonWords_has_common_word; reflexivity|].
  vm_compute. repeat split.
Qed.

(** The "in particular" of C1 at a short text. *)
Lemma isValidTextContent_short_witness :
  AnalyzeFile.isValidTextContent (CM := JS.ascii_case) (JS.lit "  A short note.  ") = false.
Proof.
  apply (proj2 (@isValidTextContent_four_checks JS.ascii_case (JS.lit "  A short note.  "))).
  vm_compute. lia.
Defined.

Section SubstringMatching.

Import JS AnalyzeFile ValidatorSpec.

Context {CM : CaseMapping}.

Lemma toLowerCase_cats : toLowerCase cats = cats.
Proof. rewrite toLowerCase_ascii; reflexivity. Qed.

(** C6.  The common-word check is substring containment in the
    lower-cased text, not a match of words: it passes exactly when a listed
    word occurs somewhere in the lower-cased text.  The text made of the
    word cat thirty times shows the difference: none of its words is
    listed, yet the check passes on it (and the whole validator accepts
    it), and the only listed words that occur in it are a and at, both
    inside cat. *)
Theorem common_word_check_matches_inside_words :
  (forall text,
      hasCommonWords text = true
      <-> exists word, In word commonWords /\ Substring word (toLowerCase text))
  /\ exists text,
       (forall w, In w (words text) -> w = lit "cat")
       /\ (forall w, In w (words text) -> ~ In w commonWords)
       /\ In (lit "cat") (words text)
       /\ In (lit "a") commonWords
       /\ Substring (lit "a") (lit "cat")
       /\ Substring (lit "at") (lit "cat")
       /\ (forall word, In word commonWords ->
             Substring word (toLowerCase text) ->
             word = lit "a" \/ word = lit "at")
       /\ hasCommonWords text = true
       /\ isValidTextContent text = true.
Proof.
  split; [intros text; apply hasCommonWords_has_common_word|].
  exists cats.
  unfold isValidTextContent, isValidTextContent_console, hasCommonWords,
    readableRatio, meaningfulRatio, meaningfulWords, words.
  rewrite toLowerCase_cats.
  split; [|split; [|split; [|split; [|split; [|split; [|split; [|split]]]]]]].
  - assert (H : forallb (fun w => eqb w (lit "cat"))
                        (split_runs is_space cats) = true) by reflexivity.
    rewrite forallb_forall in H. intros w Hw. now apply eqb_eq, H.
  - assert (H : forallb (fun w => negb (existsb (eqb w) commonWords))
                        (split_runs is_space cats) = true) by reflexivity.
    rewrite forallb_forall in H. intros w Hw Hin.
    specialize (H w Hw). apply negb_true_iff in H.
    assert (existsb (eqb w) commonWords = true); [|congruence].
    apply existsb_exists. exists w. split; [exact Hin | now apply eqb_eq].
  - vm_compute. tauto.
  - vm_compute. tauto.
  - exists (lit "c"), (lit "t"). reflexivity.
  - exists (lit "c"), []. reflexivity.
  - assert (H : forallb (fun word =>
                           implb (includes cats word)
                                 (eqb word (lit "a") || eqb word (lit "at")))
                        commonWords = true) by (vm_compute; reflexivity).
    rewrite forallb_forall in H. intros word Hin Hsub.
    specialize (H word Hin). apply includes_substring in Hsub.
    rewrite Hsub in H. apply orb_true_iff in H as [H|H];
      [left | right]; now apply eqb_eq.
  - vm_compute. reflexivity.
  - vm_compute. reflexivity.
Qed.

End SubstringMatching.

(** ** The extraction chain of the file route *)

Section ChainFacts.

Import JS AnalyzeFile FileSpec.

Context {CM : CaseMapping} {RT : Runtime}.

Lemma isValidTextContent_nonempty (text : jsstring) :
  isValidTextContent text = true -> text <> [].
Proof.
  intros H ->. discriminate H.
Qed.

(** The three outcomes of the validator on a value. *)
Lemma validate_cases (value : jsval) :
  (validate value = Ok true
   /\ exists text, value = JStr text /\ isValidTextContent text = true)
  \/ (validate value = Ok false /\ rejected value)
  \/ (validate value = Throw (TypeError (lit "text.trim is not a function"))
      /\ unvalidated value).
Proof.
  unfold validate, rejected, unvalidated.
  destruct value as [| |b|n|s|items|fields]; cbn [truthy];
    try (right; left; split; [reflexivity | now left]).
  - destruct b; [|right; left; split; [reflexivity | now left]].
    right; right. split; [reflexivity|]. split; [reflexivity | discriminate].
  - destruct (negb (n =? 0)%Z) eqn:Hn;
      [|right; left; split; [reflexivity | now left]].
    right; right. split; [reflexivity|]. split; [reflexivity | discriminate].
  - destruct s as [|c s]; [right; left; split; [reflexivity | now left]|].
    destruct (isValidTextContent (c :: s)) eqn:Hv.
    + left. split; [reflexivity|]. now exists (c :: s).
    + right; left. split; [reflexivity|]. right. now exists (c :: s).
  - right; right. split; [reflexivity|]. split; [reflexivity | discriminate].
  - right; right. split; [reflexivity|]. split; [reflexivity | discriminate].
Qed.

Lemma accepted_validate (file : File) (m : method) :
  accepted file m
  = match fn m file with
    | Ok value => match validate value with Ok true => true | _ => false end
    | Throw _ => false
    end.
Proof.
  unfold accepted. destruct (fn m file) as [value|e]; [|reflexivity].
  destruct (validate_cases value)
    as [[-> (text & -> & Hv)] | [[-> Hrej] | [-> [Ht Hns]]]].
  - exact Hv.
  - destruct Hrej as [Hf | (text & -> & Hv)]; [|exact Hv].
    destruct value; try reflexivity.
    destruct s; [reflexivity | discriminate Hf].
  - destruct value; try reflexivity. now elim (Hns s).
Qed.


(** The loop calls the strategies up to the first that succeeds, in list
    order. *)
Lemma try_methods_attempted (file : File) (methods : list method) (st : loop_state) :
  attempted (try_methods file methods st)
  = attempted st ++ map name (until_accepted file methods).
Proof.
  revert st. induction methods as [|m rest IH]; intros st; simpl.
  - now rewrite app_nil_r.
  - rewrite accepted_validate. destruct (fn m file) as [value|e].
    + destruct (validate value) as [[|]|e]; simpl.
      * reflexivity.
      * rewrite IH. simpl. now rewrite <- app_assoc.
      * rewrite IH. simpl. now rewrite <- app_assoc.
    + rewrite IH. simpl. now rewrite <- app_assoc.
Qed.

Lemma until_accepted_prefix (file : File) (methods : list method) :
  exists rest, methods = until_accepted file methods ++ rest.
Proof.
  induction methods as [|m ms [rest IH]]; simpl.
  - now exists [].
  - destruct (accepted file m).
    + now exists ms.
    + exists rest. simpl. now rewrite <- IH.
Qed.



Lemma strategy_order_NoDup : NoDup strategy_order.
Proof.
  unfold strategy_order. repeat constructor; simpl;
    intros H; repeat destruct H as [H|H]; try discriminate H; exact H.
Qed.

(** The handler on a PDF upload, in terms of the final state of the loop. *)
Lemma POST_pdf (w : World) (file : File)
    (form : list (jsstring * FormDataEntryValue)) :
  form_get form (lit "file") = Some (EntryFile file) ->
  is_pdf file = true ->
  POST w {| formData := Ok form |} =
  let st := try_methods file (extractionMethods w) initial_state in
  (if truthy (content st)
   then
     match content st with
     | JStr text =>
         match generateEnhancedFileAnalysis w text (file_name file)
                                            (extractionMethod st) with
         | Ok analysis => {| status := 200; body := JObj [(lit "analysis", analysis)] |}
         | Throw e => failure_response e
         end
     | _ => failure_response (TypeError (lit "content.substring is not a function"))
     end
   else error_response 400 unreadable_pdf_message, attempted st).
Proof.
  intros Hform Hpdf. unfold POST, extract, logged. cbn [formData].
  rewrite Hform, Hpdf. cbv zeta.
  destruct (truthy (content (try_methods file (extractionMethods w) initial_state)));
    [|reflexivity].
  destruct (content (try_methods file (extractionMethods w) initial_state));
    reflexivity.
Qed.

(** C2, as the code has it.  For every uploaded PDF the strategies are
    tried in the fixed order jina-ai, gemini-vision, pdf-js, each at most
    once, up to and including the first whose text the validator accepts:
    an exception or a rejection advances to the next strategy, a success
    ends the chain.  In particular, when the hosted reader throws and the
    vision model returns a text that passes the validator, the reported
    extraction method is gemini-vision. *)
Theorem strategies_tried_in_order_until_accepted
    (w : World) (file : File) (form : list (jsstring * FormDataEntryValue)) :
  form_get form (lit "file") = Some (EntryFile file) ->
  is_pdf file = true ->
  snd (POST w {| formData := Ok form |})
    = map name (until_accepted file (extractionMethods w))
  /\ (exists not_tried,
        strategy_order = snd (POST w {| formData := Ok form |}) ++ not_tried)
  /\ NoDup (snd (POST w {| formData := Ok form |}))
  /\ (forall e text,
        extractPDFTextWithJina w file = Throw e ->
        extractPDFWithGeminiVision w file = Ok (JStr text) ->
        isValidTextContent text = true ->
        fst (extract w file) = Extracted text (lit "gemini-vision")
        /\ snd (POST w {| formData := Ok form |})
           = [lit "jina-ai"; lit "gemini-vision"]).
Proof.
  intros Hform Hpdf. rewrite (POST_pdf w file form Hform Hpdf). cbv zeta.
  cbn [snd]. rewrite try_methods_attempted. cbn [attempted initial_state app].
  assert (Hprefix : exists not_tried,
             strategy_order
             = map name (until_accepted file (extractionMethods w)) ++ not_tried).
  { destruct (until_accepted_prefix file (extractionMethods w)) as [rest Hrest].
    exists (map name rest). rewrite <- map_app, <- Hrest. reflexivity. }
  split; [reflexivity|]. split; [exact Hprefix|]. split.
  - destruct Hprefix as [not_tried Hprefix].
    apply (NoDup_app_remove_r _ not_tried). rewrite <- Hprefix.
    exact strategy_order_NoDup.
  - intros e text Hjina Hvision Hvalid.
    assert (Htext : text <> []) by (intros ->; discriminate Hvalid).
    unfold extract. rewrite Hpdf. unfold extractionMethods.
    cbn [try_methods until_accepted]. unfold accepted. cbn [fn name].
    rewrite Hjina, Hvision, Hvalid.
    destruct text as [|c text]; [now elim Htext|].
    unfold validate. cbn [truthy]. rewrite Hvalid.
    cbn [content extractionMethod fst map name truthy logged].
    split; reflexivity.
Qed.



(** C10.  A request whose form has no field named file is answered with
    status 400 and the message No file provided; nothing is extracted and
    nothing is analysed, whatever the services would have answered. *)
Theorem missing_file_answers_400
    (w : World) (form : list (jsstring * FormDataEntryValue)) :
  form_get form (lit "file") = None ->
  POST w {| formData := Ok form |}
    = (error_response 400 (lit "No file provided"), [])
  /\ status (fst (POST w {| formData := Ok form |})) = 400.
Proof.
  intros Hform. unfold POST. cbn [formData]. rewrite Hform.
  split; reflexivity.
Qed.

End ChainFacts.

(** *** The chain on sample uploads *)

(** C2, as stated, fails when the first strategy succeeds: the hosted
    reader returns readable prose, the loop breaks, and the two other
    strategies are not attempted at all. *)
Lemma first_success_ends_the_chain :
  snd (AnalyzeFile.POST (CM := JS.ascii_case) (RT := Samples.sample_runtime)
         Samples.all_readers_work (FileSpec.upload Samples.report_pdf))
    = [JS.lit "jina-ai"]
  /\ JS.status (fst (AnalyzeFile.POST (CM := JS.ascii_case) (RT := Samples.sample_runtime)
                       Samples.all_readers_work (FileSpec.upload Samples.report_pdf)))
     = 200
  /\ FileSpec.strategy_order
     = [JS.lit "jina-ai"] ++ [JS.lit "gemini-vision"; JS.lit "pdf-js"].
Proof. vm_compute. repeat split. Qed.

(** The reader is down and the vision model returns prose: two strategies
    are tried and the second is reported. *)
Lemma reader_down_witness :
  snd (AnalyzeFile.POST (CM := JS.ascii_case) (RT := Samples.sample_runtime)
         Samples.reader_down (FileSpec.upload Samples.report_pdf))
    = [JS.lit "jina-ai"; JS.lit "gemini-vision"]
  /\ fst (AnalyzeFile.extract (CM := JS.ascii_case) Samples.reader_down Samples.report_pdf)
     = AnalyzeFile.Extracted Samples.prose (JS.lit "gemini-vision").
Proof.
  destruct (@strategies_tried_in_order_until_accepted
              JS.ascii_case Samples.sample_runtime Samples.reader_down
              Samples.report_pdf
              [(JS.lit "file", AnalyzeFile.EntryFile Samples.report_pdf)]
              eq_refl eq_refl) as (_ & _ & _ & H).
  destruct (H (JS.Error (JS.lit "Jina AI API key not configured")) Samples.prose
              eq_refl eq_refl eq_refl) as [Hmethod Hcalled].
  split; [exact Hcalled | exact Hmethod].
Defined.





(** A form with a comment field and no file. *)
Lemma missing_file_witness :
  AnalyzeFile.POST (CM := JS.ascii_case) (RT := Samples.sample_runtime)
    Samples.all_readers_work {| AnalyzeFile.formData := JS.Ok Samples.form_without_file |}
  = (AnalyzeFile.error_response 400 (JS.lit "No file provided"), []).
Proof.
  apply (@missing_file_answers_400
           JS.ascii_case Samples.sample_runtime Samples.all_readers_work
           Samples.form_without_file eq_refl).
Defined.

(** ** The document analysis: quality bar and fallback *)

Section AnalysisFacts.

Import JS AnalyzeFile FileSpec.

Context {CM : CaseMapping} {RT : Runtime}.










End AnalysisFacts.


(** ** The repository route *)

Section RepoFacts.

Import JS AnalyzeRepo RepoSpec.

Context {RT : Runtime}.

Lemma or_else_missing (v fallback : jsval) :
  missing v -> or_else v fallback = fallback.
Proof. intros [-> | ->]; reflexivity. Qed.

Lemma readme_of_unavailable (o : fetch_outcome) :
  readme_unavailable o -> readme_of o = [].
Proof.
  intros [e | ok status e | ok status fields [H|H]]; unfold readme_of;
    cbn [fetch_json bind get]; try reflexivity; rewrite H; reflexivity.
Qed.

(** C8, as the code has it.  When the three main calls answer with JSON
    (the repository information being an object), [fetchRepoData] returns
    a metadata object: a missing or erroring README call leaves the empty
    string in [readme]; a missing description, language or topics field
    defaults to the empty string, to Unknown, to the empty list; name,
    stars, forks and the two dates are the upstream values; contributors
    and languages are the upstream bodies when those are truthy, and the
    empty list and the empty object otherwise. *)
Theorem fetchRepoData_defaults
    (w : World) (owner repo : jsstring) (fields : list (jsstring * jsval))
    (contributors languages : jsval)
    (ok1 ok2 ok3 : bool) (status1 status2 status3 : nat) :
  fetch_repo w owner repo = FetchResponse ok1 status1 (Ok (JObj fields)) ->
  fetch_contributors w owner repo = FetchResponse ok2 status2 (Ok contributors) ->
  fetch_languages w owner repo = FetchResponse ok3 status3 (Ok languages) ->
  exists data,
    fetchRepoData w owner repo = Ok (JObj data)
    /\ (readme_unavailable (fetch_readme w owner repo) ->
        lookup (lit "readme") data = JStr [])
    /\ (missing (lookup (lit "description") fields) ->
        lookup (lit "description") data = JStr [])
    /\ (missing (lookup (lit "language") fields) ->
        lookup (lit "language") data = JStr (lit "Unknown"))
    /\ (missing (lookup (lit "topics") fields) ->
        lookup (lit "topics") data = JArr [])
    /\ lookup (lit "name") data = lookup (lit "name") fields
    /\ lookup (lit "stars") data = lookup (lit "stargazers_count") fields
    /\ lookup (lit "forks") data = lookup (lit "forks_count") fields
    /\ lookup (lit "created_at") data = lookup (lit "created_at") fields
    /\ lookup (lit "updated_at") data = lookup (lit "updated_at") fields
    /\ lookup (lit "contributors") data
       = (if truthy contributors then contributors else JArr [])
    /\ lookup (lit "languages") data
       = (if truthy languages then languages else JObj []).
Proof.
  intros Hrepo Hcontributors Hlanguages.
  unfold fetchRepoData. rewrite Hrepo, Hcontributors, Hlanguages.
  cbn [fetch_json bind get].
  eexists. split; [reflexivity|].
  pose proof (readme_of_unavailable (fetch_readme w owner repo)) as Hreadme.
  revert Hreadme.
  generalize (readme_of (fetch_readme w owner repo))
    (lookup (lit "name") fields) (lookup (lit "description") fields)
    (lookup (lit "stargazers_count") fields) (lookup (lit "forks_count") fields)
    (lookup (lit "language") fields) (lookup (lit "created_at") fields)
    (lookup (lit "updated_at") fields) (lookup (lit "topics") fields).
  intros readme name description stars forks language created updated topics Hreadme.
  split; [intros H; rewrite (Hreadme H); reflexivity|].
  split; [intros H; apply (or_else_missing description (JStr []) H)|].
  split; [intros H; apply (or_else_missing language (JStr (lit "Unknown")) H)|].
  split; [intros H; apply (or_else_missing topics (JArr []) H)|].
  repeat split.
Qed.




End RepoFacts.

(** *** The repository route on sample answers *)



(** C8, as stated, fails for the contributors field when the upstream
    body is falsy: the body null is returned as the empty list. *)
Lemma null_contributors_become_empty_list :
  AnalyzeRepo.fetch_json
    (AnalyzeRepo.fetch_contributors RepoSamples.null_contributors
       (JS.lit "SpandanM110") (JS.lit "analyzer"))
  = JS.Ok JS.JNull
  /\ AnalyzeRepo.fetchRepoData (RT := Samples.sample_runtime)
       RepoSamples.null_contributors (JS.lit "SpandanM110") (JS.lit "analyzer")
     = JS.Ok RepoSamples.bare_repoData
  /\ JS.lookup (JS.lit "contributors")
       (match RepoSamples.bare_repoData with JS.JObj data => data | _ => [] end)
     = JS.JArr [].
Proof. vm_compute. repeat split. Qed.

(** The theorem at the bare repository without README. *)
Lemma fetchRepoData_witness :
  exists data,
    AnalyzeRepo.fetchRepoData (RT := Samples.sample_runtime)
      RepoSamples.null_contributors (JS.lit "SpandanM110") (JS.lit "analyzer")
    = JS.Ok (JS.JObj data)
    /\ JS.lookup (JS.lit "readme") data = JS.JStr []
    /\ JS.lookup (JS.lit "description") data = JS.JStr []
    /\ JS.lookup (JS.lit "language") data = JS.JStr (JS.lit "Unknown")
    /\ JS.lookup (JS.lit "topics") data = JS.JArr []
    /\ JS.lookup (JS.lit "contributors") data = JS.JArr [].
Proof.
  destruct (@fetchRepoData_defaults
              Samples.sample_runtime RepoSamples.null_contributors
              (JS.lit "SpandanM110") (JS.lit "analyzer")
              (match RepoSamples.bare_repo_info with JS.JObj f => f | _ => [] end)
              JS.JNull (JS.JObj [(JS.lit "TypeScript", JS.JNum 48213)])
              true true true 200 200 200 eq_refl eq_refl eq_refl)
    as (data & Hdata & Hreadme & Hdescription & Hlanguage & Htopics
        & _ & _ & _ & _ & _ & Hcontributors & _).
  exists data. split; [exact Hdata|].
  split; [apply Hreadme; apply RepoSpec.readme_no_content; left; reflexivity|].
  split; [apply Hdescription; right; reflexivity|].
  split; [apply Hlanguage; right; reflexivity|].
  split; [apply Htopics; left; reflexivity|].
  exact Hcontributors.
Defined.

(** * Further properties of the two routes *)

From Stdlib Require Import Sorting.Sorted Sorting.Permutation.

(** ** Words and letter case in the validator *)

Section WordFacts.

Import JS AnalyzeFile.

Context {CM : CaseMapping}.

Lemma split_runs_pieces (sep : codeunit -> bool) (s : jsstring) :
  Forall (fun w => forallb (fun c => negb (sep c)) w = true) (split_runs sep s).
Proof.
  induction s as [|c s IH]; simpl.
  - repeat constructor.
  - destruct (sep c) eqn:Hc.
    + destruct s as [|c' s']; [repeat constructor|].
      destruct (sep c'); [exact IH | constructor; [reflexivity | exact IH]].
    + destruct (split_runs sep s) as [|w ws]; [repeat constructor; simpl; now rewrite Hc|].
      inversion IH as [|? ? Hw Hws]; subst.
      constructor; [simpl; now rewrite Hc, Hw | exact Hws].
Qed.

Lemma split_runs_concat (sep : codeunit -> bool) (s : jsstring) :
  concat (split_runs sep s) = filter (fun c => negb (sep c)) s.
Proof.
  induction s as [|c s IH]; simpl; [reflexivity|].
  destruct (sep c) eqn:Hc; simpl.
  - destruct s as [|c' s']; [reflexivity|].
    destruct (sep c'); [exact IH | simpl; exact IH].
  - destruct (split_runs sep s) as [|w ws]; simpl in *; now rewrite <- IH.
Qed.

(** X1.  The words that the validator counts never hold a white-space
    character, there is at least one of them (possibly empty), and put end
    to end they are the lower-cased text without its white space. *)
Theorem words_partition_the_text (text : jsstring) :
  Forall (fun w => forallb (fun c => negb (is_space c)) w = true) (words text)
  /\ 1 <= length (words text)
  /\ concat (words text)
     = filter (fun c => negb (is_space c)) (toLowerCase text).
Proof.
  unfold words. split; [apply split_runs_pieces|].
  split; [apply split_runs_length | apply split_runs_concat].
Qed.

Ltac settle_range :=
  repeat match goal with
         | |- context [N.leb ?a ?b] => destruct (N.leb_spec a b); try lia
         | |- context [N.eqb ?a ?b] => destruct (N.eqb_spec a b); try lia
         end;
  try reflexivity.

Lemma is_space_ascii_lower (c : codeunit) :
  is_space (ascii_lower c) = is_space c.
Proof.
  unfold ascii_lower, is_upper, in_range.
  destruct (N.leb_spec 65 c); [|reflexivity].
  destruct (N.leb_spec c 90); [|reflexivity].
  cbn [andb]. unfold is_space, in_range. settle_range.
Qed.

Lemma is_readable_ascii_lower (c : codeunit) :
  is_readable (ascii_lower c) = is_readable c.
Proof.
  unfold ascii_lower, is_upper, in_range.
  destruct (N.leb_spec 65 c); [|reflexivity].
  destruct (N.leb_spec c 90); [|reflexivity].
  cbn [andb]. unfold is_readable, is_lower, is_upper, is_digit, in_range.
  settle_range.
Qed.

Lemma dropWhile_map (p : codeunit -> bool) (f : codeunit -> codeunit) (s : jsstring) :
  (forall c, p (f c) = p c) ->
  dropWhile p (map f s) = map f (dropWhile p s).
Proof.
  intros Hpf. induction s as [|c s IH]; simpl; [reflexivity|].
  rewrite Hpf. destruct (p c); [exact IH | reflexivity].
Qed.

Lemma trim_map_ascii_lower (s : jsstring) :
  trim (map ascii_lower s) = map ascii_lower (trim s).
Proof.
  unfold trim, trimEnd, trimStart.
  rewrite (dropWhile_map _ _ _ is_space_ascii_lower).
  rewrite <- map_rev, (dropWhile_map _ _ _ is_space_ascii_lower), map_rev.
  reflexivity.
Qed.

Lemma filter_length_map (p : codeunit -> bool) (f : codeunit -> codeunit) (s : jsstring) :
  (forall c, p (f c) = p c) ->
  length (filter p (map f s)) = length (filter p s).
Proof.
  intros Hpf. induction s as [|c s IH]; simpl; [reflexivity|].
  rewrite Hpf. destruct (p c); simpl; now rewrite IH.
Qed.

(** X2.  The verdict does not depend on letter case: two ASCII texts that
    differ only in the case of their letters are both accepted or both
    rejected. *)
Theorem isValidTextContent_ignores_case (a b : jsstring) :
  forallb is_ascii a = true ->
  forallb is_ascii b = true ->
  map ascii_lower a = map ascii_lower b ->
  isValidTextContent a = isValidTextContent b.
Proof.
  intros Ha Hb Hab.
  assert (Hlower : toLowerCase a = toLowerCase b)
    by now rewrite (toLowerCase_ascii a Ha), (toLowerCase_ascii b Hb).
  assert (Hlen : length a = length b).
  { rewrite <- (length_map ascii_lower a), Hab. apply length_map. }
  assert (Htrim : length (trim a) = length (trim b)).
  { rewrite <- (length_map ascii_lower (trim a)), <- trim_map_ascii_lower, Hab.
    rewrite trim_map_ascii_lower. apply length_map. }
  assert (Hread : readableChars a = readableChars b).
  { unfold readableChars.
    rewrite <- (filter_length_map _ ascii_lower a is_readable_ascii_lower), Hab.
    apply filter_length_map, is_readable_ascii_lower. }
  unfold isValidTextContent. rewrite !isValidTextContent_console_cases.
  unfold readableRatio, meaningfulRatio, meaningfulWords, hasCommonWords, words.
  rewrite Htrim, Hread, Hlen, Hlower. reflexivity.
Qed.

Lemma forallb_false_exists (p : codeunit -> bool) (s : jsstring) :
  forallb p s = false -> exists c, In c s /\ p c = false.
Proof.
  induction s as [|c s IH]; simpl; [discriminate|].
  destruct (p c) eqn:Hc; simpl; intros H.
  - destruct (IH H) as (c' & Hin & Hc'). exists c'. split; [now right | exact Hc'].
  - exists c. split; [now left | exact Hc].
Qed.

Lemma ratio_zero (n : nat) : lt_num (ratio 0 n) (3 # 10) = true.
Proof.
  apply lt_num_true. unfold ratio, Qdiv. simpl inject_Z.
  rewrite Qmult_0_l. reflexivity.
Qed.

(** X3.  Every accepted text has, among the words of its lower-cased form,
    one of 3 to 20 characters with a vowel that is shorter than 8
    characters or holds a character other than a lower-case letter, a digit
    or an underscore.  A text whose words are all plain words of 8 letters
    or more is therefore never accepted. *)
Theorem accepted_text_has_a_meaningful_word (text : jsstring) :
  isValidTextContent text = true ->
  exists w,
    In w (words text)
    /\ 3 <= length w <= 20
    /\ (exists c, In c w /\ is_vowel c = true)
    /\ (length w <= 7 \/ exists c, In c w /\ is_lower_alnum c = false).
Proof.
  unfold isValidTextContent. rewrite isValidTextContent_console_cases.
  destruct (length (trim text) <? 100); [discriminate|].
  destruct (lt_num (readableRatio text) (7 # 10)); [discriminate|].
  destruct (lt_num (meaningfulRatio text) (3 # 10)) eqn:Hm; [discriminate|].
  intros _. unfold meaningfulRatio, meaningfulWords in Hm.
  destruct (filter meaningful_word (words text)) as [|w rest] eqn:Hf.
  - simpl length in Hm. rewrite ratio_zero in Hm. discriminate.
  - assert (Hin : In w (filter meaningful_word (words text)))
      by (rewrite Hf; now left).
    apply filter_In in Hin as [Hin Hw].
    exists w. split; [exact Hin|].
    unfold meaningful_word, test_any, test_all_min in Hw.
    rewrite !andb_true_iff, !negb_true_iff in Hw.
    destruct Hw as (((((H3 & H20) & _) & Halnum) & Hvowel) & _).
    apply Nat.leb_le in H3, H20. split; [lia|]. split.
    + apply existsb_exists in Hvowel. exact Hvowel.
    + apply andb_false_iff in Halnum as [Hshort | Hother].
      * left. apply Nat.leb_gt in Hshort. lia.
      * right. now apply forallb_false_exists.
Qed.

End WordFacts.

(** Two spellings of one sentence get the same verdict. *)
Lemma isValidTextContent_ignores_case_witness :
  AnalyzeFile.isValidTextContent (CM := JS.ascii_case) (JS.lit "The Server Stores Data")
  = AnalyzeFile.isValidTextContent (CM := JS.ascii_case) (JS.lit "THE server stores DATA").
Proof.
  apply (@isValidTextContent_ignores_case JS.ascii_case
           (JS.lit "The Server Stores Data") (JS.lit "THE server stores DATA"));
    reflexivity.
Defined.

(** The sample prose is accepted, and its word The qualifies. *)
Lemma accepted_text_witness :
  exists w,
    In w (AnalyzeFile.words (CM := JS.ascii_case) Samples.prose)
    /\ 3 <= length w <= 20
    /\ (exists c, In c w /\ AnalyzeFile.is_vowel c = true)
    /\ (length w <= 7 \/ exists c, In c w /\ AnalyzeFile.is_lower_alnum c = false).
Proof.
  apply (@accepted_text_has_a_meaningful_word JS.ascii_case Samples.prose).
  reflexivity.
Defined.

(** ** The text between braces *)

Section BraceFacts.

Import JS.

Lemma takeWhile_dropWhile (p : codeunit -> bool) (s : jsstring) :
  takeWhile p s ++ dropWhile p s = s.
Proof.
  induction s as [|c s IH]; simpl; [reflexivity|].
  destruct (p c); simpl; [now rewrite IH | reflexivity].
Qed.

Lemma takeWhile_all (p : codeunit -> bool) (s : jsstring) :
  forall c, In c (takeWhile p s) -> p c = true.
Proof.
  induction s as [|x s IH]; simpl; [contradiction|].
  destruct (p x) eqn:Hx; simpl; [|contradiction].
  intros c [<-|Hin]; [exact Hx | now apply IH].
Qed.

Lemma dropWhile_head (p : codeunit -> bool) (s : jsstring) (c : codeunit) (r : jsstring) :
  dropWhile p s = c :: r -> p c = false.
Proof.
  induction s as [|x s IH]; simpl; [discriminate|].
  destruct (p x) eqn:Hx; [exact IH|].
  intros H. injection H as <- _. exact Hx.
Qed.

Lemma negb_eqb_false (c k : codeunit) : negb (N.eqb c k) = false -> c = k.
Proof.
  intros H. apply negb_false_iff in H. now apply N.eqb_eq.
Qed.

Lemma negb_eqb_true (c k : codeunit) : negb (N.eqb c k) = true -> c <> k.
Proof.
  intros H. apply negb_true_iff in H. now apply N.eqb_neq.
Qed.

(** X4.  What both routes hand to [JSON.parse] is a piece of the reply that
    starts with an opening brace and ends with a closing brace: the piece
    from the first opening brace of the reply to its last closing brace.
    No opening brace stands before it and no closing brace after it. *)
Theorem match_braces_shape (text jsonMatch : jsstring) :
  match_braces text = Some jsonMatch ->
  exists before inner after,
    text = before ++ jsonMatch ++ after
    /\ jsonMatch = 123%N :: inner ++ [125%N]
    /\ (forall c, In c before -> c <> 123%N)
    /\ (forall c, In c after -> c <> 125%N).
Proof.
  unfold match_braces. cbv zeta.
  set (open := fun c : codeunit => negb (N.eqb c 123)).
  set (close := fun c : codeunit => negb (N.eqb c 125)).
  set (from_open := dropWhile open text).
  set (back := dropWhile close (rev from_open)).
  intros H.
  assert (Hm : jsonMatch = rev back /\ 2 <= length jsonMatch).
  { revert H. destruct (rev back) as [|x [|y m]]; intros H; try discriminate H.
    injection H as <-. split; [reflexivity | simpl; lia]. }
  clear H. destruct Hm as [Hm Hlen].
  pose proof (takeWhile_dropWhile open text) as Htext. fold from_open in Htext.
  pose proof (takeWhile_dropWhile close (rev from_open)) as Hback. fold back in Hback.
  assert (Hfrom : from_open = jsonMatch ++ rev (takeWhile close (rev from_open))).
  { rewrite Hm, <- rev_app_distr, Hback. now rewrite rev_involutive. }
  exists (takeWhile open text), (removelast (tl jsonMatch)),
         (rev (takeWhile close (rev from_open))).
  split; [now rewrite <- Hfrom|]. split; [|split].
  - destruct jsonMatch as [|x m]; [simpl in Hlen; lia|].
    assert (Hx : x = 123%N).
    { apply negb_eqb_false. apply (dropWhile_head open text x (m ++ rev (takeWhile close (rev from_open)))).
      exact Hfrom. }
    subst x. f_equal. simpl tl.
    destruct back as [|y back'] eqn:Hb; [discriminate Hm|].
    assert (Hy : y = 125%N)
      by (apply negb_eqb_false; exact (dropWhile_head close (rev from_open) y back' Hb)).
    subst y. simpl in Hm.
    assert (Hne : m <> []) by (intros ->; simpl in Hlen; lia).
    destruct (exists_last Hne) as (inner & z & ->).
    rewrite app_comm_cons in Hm.
    apply app_inj_tail in Hm as [_ ->].
    now rewrite removelast_last.
  - intros c Hc. apply negb_eqb_true. exact (takeWhile_all open text c Hc).
  - intros c Hc. apply in_rev in Hc. apply negb_eqb_true.
    exact (takeWhile_all close (rev from_open) c Hc).
Qed.

End BraceFacts.

(** The braces of the sample reply. *)
Lemma match_braces_witness :
  exists before inner after,
    Samples.short_reply = before ++ Samples.short_json ++ after
    /\ Samples.short_json = 123%N :: inner ++ [125%N]
    /\ (forall c, In c before -> c <> 123%N)
    /\ (forall c, In c after -> c <> 125%N).
Proof.
  apply (match_braces_shape Samples.short_reply Samples.short_json).
  reflexivity.
Defined.

(** ** The file route beyond the PDF chain *)

Section FileRouteFacts.

Import JS AnalyzeFile FileSpec ReplySpec.

Context {CM : CaseMapping} {RT : Runtime}.

(** The handler once the extraction step is known. *)
Lemma POST_after_extract (w : World) (file : File)
    (form : list (jsstring * FormDataEntryValue)) :
  form_get form (lit "file") = Some (EntryFile file) ->
  POST w {| formData := Ok form |} =
  (match fst (extract w file) with
   | Respond r => r
   | Raised e => failure_response e
   | Extracted content extractionMethod =>
       match generateEnhancedFileAnalysis w content (file_name file)
                                          extractionMethod with
       | Ok analysis => {| status := 200; body := JObj [(lit "analysis", analysis)] |}
       | Throw e => failure_response e
       end
   end, snd (extract w file)).
Proof.
  intros Hform. unfold POST. cbn [formData]. rewrite Hform.
  destruct (extract w file) as [step called]. reflexivity.
Qed.


(** X6.  A file that is neither PDF, Markdown nor plain text, by declared
    type and by name, is refused with status 400 and a message that quotes
    the declared type; nothing is extracted. *)
Theorem unsupported_type_answers_400
    (w : World) (file : File) (form : list (jsstring * FormDataEntryValue)) :
  form_get form (lit "file") = Some (EntryFile file) ->
  is_pdf file = false ->
  is_markdown file = false ->
  is_plain_text file = false ->
  POST w {| formData := Ok form |}
  = (error_response 400
       (lit "Unsupported file type: " ++ file_type file
        ++ lit ". Please upload PDF, Markdown (.md), or Text (.txt) files."),
     []).
Proof.
  intros Hform Hpdf Hmd Htxt.
  rewrite (POST_after_extract w file form Hform).
  unfold extract. rewrite Hpdf, Hmd, Htxt. reflexivity.
Qed.

(** X7.  The analysis function has four outcomes and no other: it throws
    the configuration error, it throws the one error that stands for every
    failure of the model call, it returns the fallback object, or it
    returns a parsed reply that passed the quality test. *)
Theorem generateEnhancedFileAnalysis_outcomes
    (w : World) (content filename extractionMethod : jsstring) :
  match generateEnhancedFileAnalysis w content filename extractionMethod with
  | Throw e =>
      e = Error (lit "Gemini API key not configured")
      \/ e = Error (lit "Failed to generate AI analysis")
  | Ok analysis =>
      analysis = fallbackAnalysis content extractionMethod
      \/ quality_ok analysis = Ok true
  end.
Proof.
  unfold generateEnhancedFileAnalysis.
  destruct (configured (GEMINI_API_KEY w)); cbn [negb]; [|now left].
  destruct (generateContent w) as [e | ok status [data|e]]; cbn [try_catch];
    try (now right).
  - destruct ok; cbn [negb try_catch bind]; [|now right].
    destruct (candidate_text data) as [text|e]; cbn [bind try_catch]; [|now right].
    unfold parse_reply.
    destruct (as_string (lit "match") text) as [t|e]; cbn [bind try_catch]; [|now left].
    destruct (match_braces t) as [jsonMatch|]; cbn [try_catch]; [|now left].
    destruct (JSON_parse jsonMatch) as [parsed|e]; cbn [bind try_catch]; [|now left].
    destruct (quality_ok parsed) as [[|]|e] eqn:Hq; cbn [bind try_catch];
      [now right | now left | now left].
  - destruct ok; cbn [negb try_catch bind]; now right.
Qed.

Lemma longer_than_long (s : jsstring) :
  100 < length s -> longer_than 100 (JStr s) = Ok true.
Proof.
  intros H. unfold longer_than.
  destruct s as [|c s']; [simpl in H; lia|]. cbn [truthy].
  change (get (JStr (c :: s')) (lit "length"))
    with (Ok (JNum (Z.of_nat (length (c :: s'))))).
  cbn [bind gt ToNumber]. f_equal. apply Z.ltb_lt. lia.
Qed.

Lemma at_least_enough (k : Z) (l : list jsval) :
  (k <= Z.of_nat (length l))%Z -> at_least k (JArr l) = Ok true.
Proof.
  intros H. unfold at_least. cbn [truthy].
  change (get (JArr l) (lit "length")) with (Ok (JNum (Z.of_nat (length l)))).
  cbn [bind ge ToNumber]. f_equal. apply Z.leb_le. exact H.
Qed.

(** X8.  A reply whose JSON object has a summary and insights of more than
    100 characters, at least 3 features and at least 2 use cases is
    returned as parsed, with every field it carries, technologies
    included. *)
Theorem good_reply_is_returned
    (w : World) (content filename extractionMethod : jsstring)
    (status : nat) (data : jsval) (text jsonMatch : jsstring) (parsed : jsval)
    (summary insights : jsstring) (features useCases : list jsval) :
  configured (GEMINI_API_KEY w) = true ->
  generateContent w = FetchResponse true status (Ok data) ->
  candidate_text data = Ok (JStr text) ->
  match_braces text = Some jsonMatch ->
  JSON_parse jsonMatch = Ok parsed ->
  get parsed (lit "summary") = Ok (JStr summary) -> 100 < length summary ->
  get parsed (lit "features") = Ok (JArr features) -> 3 <= length features ->
  get parsed (lit "useCases") = Ok (JArr useCases) -> 2 <= length useCases ->
  get parsed (lit "insights") = Ok (JStr insights) -> 100 < length insights ->
  generateEnhancedFileAnalysis w content filename extractionMethod = Ok parsed.
Proof.
  intros Hkey Hreply Htext Hmatch Hparse Hs Hsl Hf Hfl Hu Hul Hi Hil.
  assert (Hq : quality_ok parsed = Ok true).
  { unfold quality_ok, and_then. rewrite Hs, Hf, Hu, Hi. cbn [bind].
    rewrite (longer_than_long summary Hsl), (longer_than_long insights Hil).
    rewrite (at_least_enough 3 features), (at_least_enough 2 useCases) by lia.
    reflexivity. }
  unfold generateEnhancedFileAnalysis. rewrite Hkey, Hreply.
  cbn [negb bind try_catch]. rewrite Htext. cbn [bind].
  unfold parse_reply. cbn [as_string bind]. rewrite Hmatch, Hparse. cbn [bind].
  rewrite Hq. reflexivity.
Qed.


(** X10.  Without the credential of the model no upload is analysed: one
    that yields a text is answered with status 500 and the configuration
    message, after the extraction has run. *)
Theorem missing_key_answers_500
    (w : World) (file : File) (form : list (jsstring * FormDataEntryValue))
    (content extractionMethod : jsstring) :
  configured (GEMINI_API_KEY w) = false ->
  form_get form (lit "file") = Some (EntryFile file) ->
  fst (extract w file) = Extracted content extractionMethod ->
  POST w {| formData := Ok form |}
  = (error_response 500
       (lit "Failed to analyze file: Gemini API key not configured"),
     snd (extract w file)).
Proof.
  intros Hkey Hform Hextract.
  rewrite (POST_after_extract w file form Hform), Hextract.
  unfold generateEnhancedFileAnalysis. rewrite Hkey. reflexivity.
Qed.

(** X11.  A reply that holds nothing to return (it is not a string, it has
    no pair of braces, or the text between its braces does not parse) gives
    the fallback object, not an error. *)
Theorem unusable_reply_gives_fallback
    (w : World) (content filename extractionMethod : jsstring)
    (status : nat) (data reply : jsval) :
  configured (GEMINI_API_KEY w) = true ->
  generateContent w = FetchResponse true status (Ok data) ->
  candidate_text data = Ok reply ->
  unusable_reply reply ->
  generateEnhancedFileAnalysis w content filename extractionMethod
    = Ok (fallbackAnalysis content extractionMethod).
Proof.
  intros Hkey Hreply Htext Hbad.
  unfold generateEnhancedFileAnalysis. rewrite Hkey, Hreply.
  cbn [negb bind try_catch]. rewrite Htext. cbn [bind]. unfold parse_reply.
  destruct Hbad as [v Hv | s Hs | s jsonMatch e Hs He].
  - destruct v; try reflexivity. exfalso. exact (Hv s eq_refl).
  - cbn [as_string bind]. rewrite Hs. reflexivity.
  - cbn [as_string bind]. rewrite Hs, He. reflexivity.
Qed.

(** X12.  The handler answers with status 200, 400 or 500 and nothing
    else; a 200 body holds the analysis, any other body holds an error
    message. *)
Theorem file_POST_answers (w : World) (request : Request) :
  (status (fst (POST w request)) = 200
   /\ exists analysis,
        body (fst (POST w request)) = JObj [(lit "analysis", analysis)])
  \/ ((status (fst (POST w request)) = 400 \/ status (fst (POST w request)) = 500)
      /\ exists message,
           body (fst (POST w request)) = JObj [(lit "error", JStr message)]).
Proof.
  unfold POST.
  destruct (formData request) as [form|e];
    [|right; split; [now right | eexists; reflexivity]].
  destruct (form_get form (lit "file")) as [[file|[|c s]]|];
    try (right; split; [(now left) || (now right) | eexists; reflexivity]).
  unfold extract, read_directly.
  destruct (is_pdf file).
  - cbv zeta. unfold logged.
    destruct (truthy (content (try_methods file (extractionMethods w) initial_state)));
      [|right; split; [now left | eexists; reflexivity]].
    destruct (content (try_methods file (extractionMethods w) initial_state));
      cbn [fst]; try (right; split; [now right | eexists; reflexivity]).
    destruct (generateEnhancedFileAnalysis w _ _ _);
      [left; split; [reflexivity | eexists; reflexivity]
      |right; split; [now right | eexists; reflexivity]].
  - destruct (is_markdown file); [|destruct (is_plain_text file)];
      try (destruct (file_text file); cbn [fst];
           [destruct (generateEnhancedFileAnalysis w _ _ _);
            [left; split; [reflexivity | eexists; reflexivity]
            |right; split; [now right | eexists; reflexivity]]
           |right; split; [now right | eexists; reflexivity]]).
    right; split; [now left | eexists; reflexivity].
Qed.

End FileRouteFacts.

(** *** The file route on sample uploads *)


Lemma unsupported_type_witness :
  AnalyzeFile.POST (CM := JS.ascii_case) (RT := MoreSamples.sample_runtime)
    MoreSamples.good_world (FileSpec.upload MoreSamples.photo_png)
  = (AnalyzeFile.error_response 400
       (JS.lit "Unsupported file type: image/png. Please upload PDF, Markdown (.md), or Text (.txt) files."),
     []).
Proof.
  apply (@unsupported_type_answers_400
           JS.ascii_case MoreSamples.sample_runtime MoreSamples.good_world
           MoreSamples.photo_png
           [(JS.lit "file", AnalyzeFile.EntryFile MoreSamples.photo_png)]
           eq_refl eq_refl eq_refl eq_refl).
Defined.

Lemma good_reply_witness :
  AnalyzeFile.generateEnhancedFileAnalysis
    (CM := JS.ascii_case) (RT := MoreSamples.sample_runtime)
    MoreSamples.good_world (JS.lit "# Notes") (JS.lit "notes.md") (JS.lit "direct-text")
  = JS.Ok MoreSamples.good_parsed.
Proof.
  apply (@good_reply_is_returned
           JS.ascii_case MoreSamples.sample_runtime MoreSamples.good_world
           (JS.lit "# Notes") (JS.lit "notes.md") (JS.lit "direct-text")
           200 (Samples.candidates_with MoreSamples.good_reply)
           MoreSamples.good_reply MoreSamples.good_json MoreSamples.good_parsed
           Samples.prose Samples.prose
           [JS.JStr (JS.lit "Fable"); JS.JStr (JS.lit "Animals"); JS.JStr (JS.lit "Rest")]
           [JS.JStr (JS.lit "Reading"); JS.JStr (JS.lit "Typing practice")]);
    try reflexivity; vm_compute; lia.
Defined.


Lemma missing_key_witness :
  AnalyzeFile.POST (CM := JS.ascii_case) (RT := MoreSamples.sample_runtime)
    MoreSamples.keyless_world (FileSpec.upload Samples.report_pdf)
  = (AnalyzeFile.error_response 500
       (JS.lit "Failed to analyze file: Gemini API key not configured"),
     snd (AnalyzeFile.extract (CM := JS.ascii_case)
            MoreSamples.keyless_world Samples.report_pdf)).
Proof.
  apply (@missing_key_answers_500
           JS.ascii_case MoreSamples.sample_runtime MoreSamples.keyless_world
           Samples.report_pdf
           [(JS.lit "file", AnalyzeFile.EntryFile Samples.report_pdf)]
           Samples.prose (JS.lit "pdf-js") eq_refl eq_refl eq_refl).
Defined.

Lemma unusable_reply_witness :
  AnalyzeFile.generateEnhancedFileAnalysis
    (CM := JS.ascii_case) (RT := MoreSamples.sample_runtime)
    MoreSamples.chatty_world (JS.lit "# Notes") (JS.lit "notes.md") (JS.lit "direct-text")
  = JS.Ok (AnalyzeFile.fallbackAnalysis (CM := JS.ascii_case)
             (JS.lit "# Notes") (JS.lit "direct-text")).
Proof.
  apply (@unusable_reply_gives_fallback
           JS.ascii_case MoreSamples.sample_runtime MoreSamples.chatty_world
           (JS.lit "# Notes") (JS.lit "notes.md") (JS.lit "direct-text")
           200 (Samples.candidates_with (JS.lit "I cannot analyse this."))
           (JS.JStr (JS.lit "I cannot analyse this.")) eq_refl eq_refl eq_refl).
  apply ReplySpec.reply_without_braces. reflexivity.
Defined.

(** ** Word frequencies and topics *)

Section StatsFacts.

Import JS AnalyzeFile StatsSpec.

Context {CM : CaseMapping}.

Lemma insert_desc_perm (x : jsstring * nat) (l : list (jsstring * nat)) :
  Permutation (x :: l) (insert_desc x l).
Proof.
  induction l as [|y l IH]; simpl; [reflexivity|].
  destruct (snd y <=? snd x); [reflexivity|].
  rewrite perm_swap. now apply perm_skip.
Qed.

Lemma sort_desc_perm (l : list (jsstring * nat)) : Permutation l (sort_desc l).
Proof.
  unfold sort_desc. induction l as [|x l IH]; simpl; [reflexivity|].
  rewrite <- insert_desc_perm. now apply perm_skip.
Qed.

Lemma insert_desc_sorted (x : jsstring * nat) (l : list (jsstring * nat)) :
  StronglySorted by_count l -> StronglySorted by_count (insert_desc x l).
Proof.
  induction 1 as [|y l Hl IH Hy]; simpl.
  - repeat constructor.
  - destruct (snd y <=? snd x) eqn:Hle.
    + apply Nat.leb_le in Hle. constructor; [now constructor|].
      constructor; [exact Hle|].
      rewrite Forall_forall in *. intros z Hz. specialize (Hy z Hz).
      unfold by_count in *. lia.
    + apply Nat.leb_gt in Hle. constructor; [exact IH|].
      rewrite Forall_forall in *. intros z Hz.
      apply (Permutation_in _ (Permutation_sym (insert_desc_perm x l))) in Hz.
      destruct Hz as [<-|Hz]; [unfold by_count; lia | now apply Hy].
Qed.

Lemma insert_desc_stable (n : nat) (x : jsstring * nat) (l : list (jsstring * nat)) :
  filter (fun e => snd e =? n) (insert_desc x l)
  = filter (fun e => snd e =? n) (x :: l).
Proof.
  induction l as [|y l IH]; simpl; [reflexivity|].
  destruct (snd y <=? snd x) eqn:Hle; [reflexivity|].
  apply Nat.leb_gt in Hle. simpl in *. rewrite IH.
  destruct (snd x =? n) eqn:Hx, (snd y =? n) eqn:Hy; try reflexivity.
  apply Nat.eqb_eq in Hx, Hy. lia.
Qed.

Lemma sort_desc_sorted (l : list (jsstring * nat)) :
  StronglySorted by_count (sort_desc l).
Proof.
  unfold sort_desc. induction l as [|x l IH]; simpl;
    [constructor | now apply insert_desc_sorted].
Qed.

(** X13.  The sort of the word counts (and of the language sizes, which
    use the same comparison) keeps every entry, puts the larger counts
    first, and leaves entries of equal count in the order they had. *)
Theorem sort_desc_is_a_stable_sort (l : list (jsstring * nat)) :
  Permutation l (sort_desc l)
  /\ StronglySorted by_count (sort_desc l)
  /\ forall n, filter (fun e => snd e =? n) (sort_desc l)
               = filter (fun e => snd e =? n) l.
Proof.
  split; [apply sort_desc_perm|]. split.
  - apply sort_desc_sorted.
  - intros n. unfold sort_desc. induction l as [|x l IH]; simpl; [reflexivity|].
    rewrite insert_desc_stable. simpl. now rewrite IH.
Qed.

Lemma count_of_bump (w k : jsstring) (m : list (jsstring * nat)) :
  count_of w (bump k m) = if eqb k w then S (count_of w m) else count_of w m.
Proof.
  induction m as [|[k' n] m IH]; simpl; [reflexivity|].
  destruct (eqb k' k) eqn:Hk; simpl.
  - apply eqb_eq in Hk. subst k'. destruct (eqb k w); reflexivity.
  - rewrite IH. destruct (eqb k' w) eqn:Hw; [|reflexivity].
    apply eqb_eq in Hw. subst k'.
    destruct (eqb k w) eqn:Hkw; [|reflexivity].
    apply eqb_eq in Hkw. subst k.
    assert (eqb w w = true) by now apply eqb_eq. congruence.
Qed.

Lemma keys_bump (k : jsstring) (m : list (jsstring * nat)) :
  map fst (bump k m) = map fst m
  \/ (~ In k (map fst m) /\ map fst (bump k m) = map fst m ++ [k]).
Proof.
  induction m as [|[k' n] m IH]; simpl.
  - right. split; [tauto | reflexivity].
  - destruct (eqb k' k) eqn:Hk; simpl; [now left|].
    destruct IH as [-> | [Hnot ->]]; [now left|].
    right. split; [|reflexivity].
    intros [->|H]; [|contradiction].
    assert (eqb k k = true) by now apply eqb_eq. congruence.
Qed.

Lemma NoDup_keys_bump (k : jsstring) (m : list (jsstring * nat)) :
  NoDup (map fst m) -> NoDup (map fst (bump k m)).
Proof.
  intros Hm. destruct (keys_bump k m) as [-> | [Hnot ->]]; [exact Hm|].
  apply NoDup_rev in Hm. rewrite <- (rev_involutive (map fst m ++ [k])).
  apply NoDup_rev. rewrite rev_app_distr. simpl.
  constructor; [now rewrite <- in_rev | exact Hm].
Qed.

Lemma positive_bump (k : jsstring) (m : list (jsstring * nat)) :
  Forall (fun e => 1 <= snd e) m -> Forall (fun e => 1 <= snd e) (bump k m).
Proof.
  induction 1 as [|[k' n] m Hn Hm IH]; simpl.
  - repeat constructor.
  - destruct (eqb k' k); constructor; simpl in *; try assumption; lia.
Qed.

Lemma count_of_entry (w : jsstring) (n : nat) (m : list (jsstring * nat)) :
  NoDup (map fst m) -> In (w, n) m -> count_of w m = n.
Proof.
  induction m as [|[k' n'] m IH]; simpl; [contradiction|].
  intros Hnd [Heq|Hin].
  - injection Heq as -> ->.
    now replace (eqb w w) with true by (symmetry; now apply eqb_eq).
  - inversion Hnd as [|? ? Hnot Hnd']; subst.
    destruct (eqb k' w) eqn:Hk; [|now apply IH].
    apply eqb_eq in Hk. subst k'. exfalso. apply Hnot.
    change w with (fst (w, n)). now apply in_map.
Qed.

(** The invariant of the counting loop. *)
Lemma counting_loop (ws : list jsstring) (m : list (jsstring * nat)) :
  let m' := fold_left (fun m word => bump (cleanWord word) m) ws m in
  (NoDup (map fst m) -> NoDup (map fst m'))
  /\ (Forall (fun e => 1 <= snd e) m -> Forall (fun e => 1 <= snd e) m')
  /\ (forall w, count_of w m' = count_of w m + occurrences w (map cleanWord ws))
  /\ (forall k, In k (map fst m') -> In k (map fst m) \/ In k (map cleanWord ws)).
Proof.
  revert m. induction ws as [|word ws IH]; intros m; cbn zeta; simpl fold_left.
  - split; [auto|]. split; [auto|].
    split; [intros w; unfold occurrences; simpl; lia | auto].
  - destruct (IH (bump (cleanWord word) m)) as (Hnd & Hpos & Hcount & Hkeys).
    cbn zeta in *. split; [|split; [|split]].
    + intros H. now apply Hnd, NoDup_keys_bump.
    + intros H. now apply Hpos, positive_bump.
    + intros w. rewrite Hcount, count_of_bump. unfold occurrences. simpl.
      destruct (eqb (cleanWord word) w); simpl; lia.
    + intros k Hk. destruct (Hkeys k Hk) as [Hb | Hws]; [|right; now right].
      destruct (keys_bump (cleanWord word) m) as [Heq | [_ Heq]];
        rewrite Heq in Hb; [now left|].
      apply in_app_or in Hb as [Hb | [<-|[]]]; [now left | right; now left].
Qed.

Lemma wordFreq_keys_NoDup (content : jsstring) :
  NoDup (map fst (wordFreq content)).
Proof.
  unfold wordFreq.
  destruct (counting_loop (topicWords content) []) as (Hnd & _).
  cbn zeta in Hnd. exact (Hnd (NoDup_nil _)).
Qed.

(** X14.  The frequency table holds each cleaned topic word once, with
    the number of times it occurs among the topic words of the text; no
    entry has count zero, and a word that is no topic word has no entry. *)
Theorem wordFreq_counts_the_topic_words (content : jsstring) :
  NoDup (map fst (wordFreq content))
  /\ (forall w, count_of w (wordFreq content)
                = occurrences w (map cleanWord (topicWords content)))
  /\ (forall w n, In (w, n) (wordFreq content) ->
                  1 <= n
                  /\ n = occurrences w (map cleanWord (topicWords content))
                  /\ In w (map cleanWord (topicWords content))).
Proof.
  unfold wordFreq.
  destruct (counting_loop (topicWords content) []) as (Hnd & Hpos & Hcount & Hkeys).
  cbn zeta in *.
  specialize (Hnd (NoDup_nil _)). specialize (Hpos (Forall_nil _)).
  split; [exact Hnd|]. split; [intros w; now rewrite Hcount|].
  intros w n Hin. split; [|split].
  - rewrite Forall_forall in Hpos. exact (Hpos (w, n) Hin).
  - rewrite <- (count_of_entry w n _ Hnd Hin). now rewrite Hcount.
  - destruct (Hkeys w) as [[]|H]; [|exact H].
    change w with (fst (w, n)). now apply in_map.
Qed.

Lemma topic_key_shape (word : jsstring) :
  topic_word word = true ->
  4 <= length (cleanWord word) <= 20
  /\ forallb is_word_char (cleanWord word) = true
  /\ existsb is_vowel (cleanWord word) = true
  /\ ~ In (cleanWord word) stop_words.
Proof.
  unfold topic_word. cbv zeta. unfold test_any.
  rewrite !andb_true_iff, !negb_true_iff, !Nat.leb_le.
  intros (((((H4 & H20) & _) & _) & Hvowel) & Hstop).
  split; [lia|]. split; [|split; [exact Hvowel|]].
  - unfold cleanWord. apply forallb_forall. intros c Hc.
    now apply filter_In in Hc.
  - intros Hin.
    assert (existsb (eqb (cleanWord word)) stop_words = true); [|congruence].
    apply existsb_exists. exists (cleanWord word). split; [exact Hin|].
    now apply eqb_eq.
Qed.

Lemma wordFreq_key_shape (content w : jsstring) :
  In w (map fst (wordFreq content)) ->
  4 <= length w <= 20
  /\ forallb is_word_char w = true
  /\ existsb is_vowel w = true
  /\ ~ In w stop_words.
Proof.
  intros Hin.
  destruct (counting_loop (topicWords content) []) as (_ & _ & _ & Hkeys).
  cbn zeta in Hkeys. destruct (Hkeys w Hin) as [[]|H].
  apply in_map_iff in H as (word & <- & Hword).
  apply filter_In in Hword as [_ Hword]. now apply topic_key_shape.
Qed.

Lemma filter_all_strings (p : jsstring -> bool) (l : list jsstring) :
  (forall k, In k l -> p k = true) -> filter p l = l.
Proof.
  induction l as [|x l IH]; simpl; [reflexivity|].
  intros H. rewrite (H x (or_introl eq_refl)). f_equal. apply IH.
  intros k Hk. apply H. now right.
Qed.

Lemma StronglySorted_split (l1 l2 : list (jsstring * nat)) :
  StronglySorted by_count (l1 ++ l2) ->
  forall a b, In a l1 -> In b l2 -> snd b <= snd a.
Proof.
  induction l1 as [|x l1 IH]; simpl; [contradiction|].
  intros H a b Ha Hb. inversion H as [|? ? Hs Hx]; subst.
  destruct Ha as [<-|Ha]; [|now apply (IH Hs a b)].
  rewrite Forall_forall in Hx. apply (Hx b). apply in_or_app. now right.
Qed.

(** X15.  The topics are the keys of the first eight entries of the
    sorted frequency table (the last filter of the source removes
    nothing): at most eight, all different, each of 4 to 20 word
    characters with a vowel and outside the stop list; and no word left out
    occurs more often than a topic that is kept. *)
Theorem topTopics_are_the_most_frequent (content : jsstring) :
  topTopics content = map fst (firstn 8 (sort_desc (wordFreq content)))
  /\ length (topTopics content) <= 8
  /\ NoDup (topTopics content)
  /\ (forall t, In t (topTopics content) ->
        4 <= length t <= 20
        /\ forallb is_word_char t = true
        /\ existsb is_vowel t = true
        /\ ~ In t stop_words)
  /\ (forall t w, In t (topTopics content) ->
        In w (map fst (wordFreq content)) -> ~ In w (topTopics content) ->
        count_of w (wordFreq content) <= count_of t (wordFreq content)).
Proof.
  pose proof (sort_desc_perm (wordFreq content)) as Hperm.
  pose proof (sort_desc_sorted (wordFreq content)) as Hsorted.
  pose proof (wordFreq_keys_NoDup content) as Hnd.
  set (sorted := sort_desc (wordFreq content)) in *.
  assert (Hsub : forall k, In k (map fst (firstn 8 sorted)) ->
                           In k (map fst (wordFreq content))).
  { intros k Hk. apply in_map_iff in Hk as (e & <- & He).
    apply in_map. apply (Permutation_in _ (Permutation_sym Hperm)).
    rewrite <- (firstn_skipn 8 sorted). apply in_or_app. now left. }
  assert (Heq : topTopics content = map fst (firstn 8 sorted)).
  { unfold topTopics. fold sorted. apply filter_all_strings.
    intros k Hk. apply Nat.ltb_lt.
    destruct (wordFreq_key_shape content k (Hsub k Hk)) as [Hlen _]. lia. }
  assert (Hnd' : NoDup (map fst sorted))
    by exact (Permutation_NoDup (Permutation_map fst Hperm) Hnd).
  split; [exact Heq|]. rewrite Heq. split; [|split; [|split]].
  - rewrite length_map, length_firstn. lia.
  - rewrite <- (firstn_skipn 8 sorted), map_app in Hnd'.
    exact (NoDup_app_remove_r _ _ Hnd').
  - intros t Ht. exact (wordFreq_key_shape content t (Hsub t Ht)).
  - intros t w Ht Hw Hout.
    apply in_map_iff in Ht as ([t' n] & Ht' & Hkept). simpl in Ht'. subst t'.
    assert (Hw' : In w (map fst sorted))
      by exact (Permutation_in _ (Permutation_map fst Hperm) Hw).
    apply in_map_iff in Hw' as ([w' n'] & Hw'' & Hin). simpl in Hw''. subst w'.
    assert (Hleft : In (w, n') (skipn 8 sorted)).
    { rewrite <- (firstn_skipn 8 sorted) in Hin.
      apply in_app_or in Hin as [Hin|Hin]; [|exact Hin].
      exfalso. apply Hout. change w with (fst (w, n')). now apply in_map. }
    rewrite <- (firstn_skipn 8 sorted) in Hsorted.
    pose proof (StronglySorted_split _ _ Hsorted (t, n) (w, n') Hkept Hleft) as Hle.
    simpl in Hle.
    rewrite (count_of_entry w n' (wordFreq content) Hnd),
            (count_of_entry t n (wordFreq content) Hnd); [exact Hle| |].
    + apply (Permutation_in _ (Permutation_sym Hperm)).
      rewrite <- (firstn_skipn 8 sorted). apply in_or_app. now left.
    + apply (Permutation_in _ (Permutation_sym Hperm)).
      rewrite <- (firstn_skipn 8 sorted). apply in_or_app. now right.
Qed.

(** X16.  The word count is zero exactly for a text of white space only
    (the empty text included). *)
Theorem wordCount_zero_iff_blank (content : jsstring) :
  wordCount content = 0 <-> forallb is_space content = true.
Proof.
  unfold wordCount. induction content as [|c s IH]; simpl; [tauto|].
  destruct (is_space c) eqn:Hc; simpl.
  - destruct s as [|c' s']; [simpl; tauto|].
    destruct (is_space c') eqn:Hc'; [exact IH|]. simpl filter. exact IH.
  - destruct (split_runs is_space s) as [|w ws]; simpl; split; discriminate.
Qed.

End StatsFacts.

(** ** The repository route: the address and the status of the answer *)

Section RepoRouteFacts.

Import JS AnalyzeRepo ReplySpec.

Context {RT : Runtime}.

Lemma skipn_takeWhile (p : codeunit -> bool) (s : jsstring) :
  skipn (length (takeWhile p s)) s = dropWhile p s.
Proof.
  induction s as [|c s IH]; simpl; [reflexivity|].
  destruct (p c); simpl; [exact IH | reflexivity].
Qed.

Lemma not_slash_all (s : jsstring) :
  forall c, In c (takeWhile not_slash s) -> c <> 47%N.
Proof.
  intros c Hc. apply (takeWhile_all not_slash s c) in Hc.
  unfold not_slash in Hc. now apply negb_eqb_true.
Qed.

Lemma repo_at_groups (s owner repo : jsstring) :
  repo_at s = Some (owner, repo) ->
  owner <> [] /\ repo <> []
  /\ (forall c, In c owner -> c <> 47%N)
  /\ (forall c, In c repo -> c <> 47%N)
  /\ exists rest, s = lit "github.com/" ++ owner ++ lit "/" ++ repo ++ rest.
Proof.
  unfold repo_at. destruct (startsWith s (lit "github.com/")) eqn:Hstart; [|discriminate].
  apply startsWith_app in Hstart as [rest ->].
  change (skipn 11 (lit "github.com/" ++ rest)) with rest. cbv zeta.
  pose proof (takeWhile_dropWhile not_slash rest) as Hrest.
  destruct (takeWhile not_slash rest) as [|o owner'] eqn:Howner; [discriminate|].
  rewrite <- Howner, skipn_takeWhile.
  destruct (dropWhile not_slash rest) as [|slash rest'] eqn:Hdrop; [discriminate|].
  pose proof (takeWhile_dropWhile not_slash rest') as Hrest'.
  destruct (takeWhile not_slash rest') as [|r repo'] eqn:Hrepo; [discriminate|].
  intros H. injection H as <- <-.
  assert (Hslash : slash = 47%N).
  { apply negb_eqb_false. exact (dropWhile_head not_slash rest slash rest' Hdrop). }
  subst slash.
  split; [rewrite Howner; discriminate|]. split; [discriminate|]. split; [|split].
  - apply not_slash_all.
  - rewrite <- Hrepo. apply not_slash_all.
  - exists (dropWhile not_slash rest'). rewrite Howner.
    rewrite <- Hrest at 1. rewrite <- Hrest' at 1. reflexivity.
Qed.

(** X17.  The owner and the repository name read from an address are
    never empty and hold no slash, and the address holds the text
    github.com/owner/repo; the name runs up to the next slash or to the
    end of the address, whatever follows the name in between. *)
Theorem match_repo_url_groups (url owner repo : jsstring) :
  match_repo_url url = Some (owner, repo) ->
  owner <> [] /\ repo <> []
  /\ (forall c, In c owner -> c <> 47%N)
  /\ (forall c, In c repo -> c <> 47%N)
  /\ exists before after,
       url = before ++ lit "github.com/" ++ owner ++ lit "/" ++ repo ++ after
       /\ (after = [] \/ exists rest, after = 47%N :: rest).
Proof.
  induction url as [|c url IH]; simpl.
  - destruct (repo_at []) eqn:H; [discriminate H | discriminate].
  - destruct (repo_at (c :: url)) as [[o r]|] eqn:Hat.
    + intros H. injection H as -> ->.
      pose proof Hat as Hat'. apply repo_at_groups in Hat' as (Ho & Hr & Hos & Hrs & rest & Hurl).
      repeat (split; [assumption|]).
      exists [], rest. split; [exact Hurl|].
      revert Hat. unfold repo_at. rewrite Hurl.
      replace (startsWith (lit "github.com/" ++ owner ++ lit "/" ++ repo ++ rest)
                          (lit "github.com/")) with true
        by (symmetry; apply startsWith_app; eexists; reflexivity).
      change (skipn 11 (lit "github.com/" ++ owner ++ lit "/" ++ repo ++ rest))
        with (owner ++ lit "/" ++ repo ++ rest).
      cbv zeta.
      destruct (takeWhile not_slash (owner ++ lit "/" ++ repo ++ rest)) as [|o' owner'] eqn:Htw0;
        [discriminate|].
      rewrite <- Htw0, skipn_takeWhile.
      assert (Hd' : dropWhile not_slash (owner ++ lit "/" ++ repo ++ rest)
                    = lit "/" ++ repo ++ rest).
      { clear -Hos. induction owner as [|x owner IHo]; [reflexivity|]. simpl.
        assert (Hx : not_slash x = true).
        { unfold not_slash. apply negb_true_iff, N.eqb_neq. apply Hos. now left. }
        rewrite Hx. apply IHo. intros c Hc. apply Hos. now right. }
      rewrite Hd'. change (lit "/" ++ repo ++ rest) with (47%N :: repo ++ rest).
      cbv iota.
      pose proof (takeWhile_dropWhile not_slash (repo ++ rest)) as Hsplit.
      destruct (takeWhile not_slash (repo ++ rest)) as [|r' repo'] eqn:Htw; [discriminate|].
      intros H. injection H as _ Hr'.
      rewrite Hr' in Hsplit. apply app_inv_head in Hsplit.
      destruct rest as [|x rest]; [now left|]. right. exists rest. f_equal.
      apply negb_eqb_false.
      exact (dropWhile_head not_slash (repo ++ x :: rest) x rest Hsplit).
    + intros H. destruct (IH H) as (Ho & Hr & Hos & Hrs & before & after & Hurl & Hafter).
      repeat (split; [assumption|]).
      exists (c :: before), after. split; [now rewrite Hurl | exact Hafter].
Qed.

Lemma includes_false_startsWith (s p : jsstring) :
  includes s p = false -> startsWith s p = false.
Proof.
  rewrite includes_unfold. intros H. now apply orb_false_iff in H.
Qed.

Lemma no_host_no_match (url : jsstring) :
  includes url (lit "github.com/") = false -> match_repo_url url = None.
Proof.
  induction url as [|c url IH]; intros H.
  - reflexivity.
  - pose proof (includes_false_startsWith _ _ H) as Hstart.
    rewrite includes_unfold in H. apply orb_false_iff in H as [_ H].
    simpl. unfold repo_at. rewrite Hstart. now apply IH.
Qed.

(** X18.  An address that does not hold github.com/ followed by an owner
    and a name is refused with status 400 and the message Invalid GitHub
    URL, before any call to the repository service or to the model; this
    is the case of every address without the text github.com/. *)
Theorem invalid_url_answers_400
    (w : World) (request : Request) (payload : jsval) (url : jsstring) :
  json request = Ok payload ->
  get payload (lit "repoUrl") = Ok (JStr url) ->
  match_repo_url url = None ->
  POST w request = error_response 400 (lit "Invalid GitHub URL")
  /\ (forall other,
        includes other (lit "github.com/") = false -> match_repo_url other = None).
Proof.
  intros Hjson Hurl Hmatch. split; [|exact no_host_no_match].
  unfold POST. rewrite Hjson. cbn [bind]. rewrite Hurl. cbn [bind as_string].
  now rewrite Hmatch.
Qed.

(** X19.  Unlike the README call, each of the three main calls of the
    metadata fetch is fatal: when one of them is rejected or answers with a
    body that is not JSON, the fetch throws and the request is answered
    with status 500. *)
Theorem metadata_failure_answers_500
    (w : World) (request : Request) (payload : jsval) (url owner repo : jsstring) :
  json request = Ok payload ->
  get payload (lit "repoUrl") = Ok (JStr url) ->
  match_repo_url url = Some (owner, repo) ->
  call_gives_no_json (fetch_repo w owner repo)
  \/ call_gives_no_json (fetch_contributors w owner repo)
  \/ call_gives_no_json (fetch_languages w owner repo) ->
  (exists e, fetchRepoData w owner repo = Throw e)
  /\ POST w request = error_response 500 (lit "Failed to analyze repository").
Proof.
  intros Hjson Hurl Hmatch Hfail.
  assert (Hthrow : exists e, fetchRepoData w owner repo = Throw e).
  { unfold fetchRepoData.
    destruct Hfail as [H | [H | H]].
    - destruct H; cbn [fetch_json bind]; eexists; reflexivity.
    - destruct (fetch_json (fetch_repo w owner repo)); cbn [bind];
        [|eexists; reflexivity].
      destruct H; cbn [fetch_json bind]; eexists; reflexivity.
    - destruct (fetch_json (fetch_repo w owner repo)); cbn [bind];
        [|eexists; reflexivity].
      destruct (fetch_json (fetch_contributors w owner repo)); cbn [bind];
        [|eexists; reflexivity].
      destruct H; cbn [fetch_json bind]; eexists; reflexivity. }
  split; [exact Hthrow|]. destruct Hthrow as [e He].
  unfold POST. rewrite Hjson. cbn [bind]. rewrite Hurl. cbn [bind as_string].
  rewrite Hmatch, He. reflexivity.
Qed.

(** X20.  The handler answers with status 200, 400 or 500 and nothing
    else: 200 with the metadata and the analysis, 400 with Invalid GitHub
    URL, 500 with the one message that stands for every exception, whatever
    its cause. *)
Theorem repo_POST_answers (w : World) (request : Request) :
  (exists repoData analysis,
      POST w request
      = {| status := 200;
           body := JObj [(lit "repoData", repoData); (lit "analysis", analysis)] |})
  \/ POST w request = error_response 400 (lit "Invalid GitHub URL")
  \/ POST w request = error_response 500 (lit "Failed to analyze repository").
Proof.
  unfold POST.
  destruct (json request) as [payload|e]; cbn [bind]; [|now right; right].
  destruct (get payload (lit "repoUrl")) as [repoUrl|e]; cbn [bind]; [|now right; right].
  destruct (as_string (lit "match") repoUrl) as [url|e]; cbn [bind]; [|now right; right].
  destruct (match_repo_url url) as [[owner repo]|]; [|now right; left].
  destruct (fetchRepoData w owner repo) as [repoData|e]; cbn [bind]; [|now right; right].
  destruct (generateAnalysis w repoData) as [analysis|e]; cbn [bind]; [|now right; right].
  left. now exists repoData, analysis.
Qed.

End RepoRouteFacts.

(** *** The repository route on sample addresses *)

Lemma match_repo_url_witness :
  exists before after,
    MoreRepoSamples.tree_url
    = before ++ JS.lit "github.com/" ++ JS.lit "SpandanM110" ++ JS.lit "/"
      ++ JS.lit "analyzer.git" ++ after
    /\ (after = [] \/ exists rest, after = 47%N :: rest).
Proof.
  destruct (match_repo_url_groups MoreRepoSamples.tree_url
              (JS.lit "SpandanM110") (JS.lit "analyzer.git") eq_refl)
    as (_ & _ & _ & _ & H).
  exact H.
Defined.

Lemma invalid_url_witness :
  AnalyzeRepo.POST (RT := Samples.sample_runtime) RepoSamples.quota_exhausted
    MoreRepoSamples.gitlab_request
  = AnalyzeRepo.error_response 400 (JS.lit "Invalid GitHub URL").
Proof.
  apply (@invalid_url_answers_400
           Samples.sample_runtime RepoSamples.quota_exhausted
           MoreRepoSamples.gitlab_request
           (JS.JObj [(JS.lit "repoUrl", JS.JStr MoreRepoSamples.gitlab_url)])
           MoreRepoSamples.gitlab_url eq_refl eq_refl eq_refl).
Defined.

Lemma metadata_failure_witness :
  AnalyzeRepo.POST (RT := Samples.sample_runtime) MoreRepoSamples.offline
    RepoSamples.repo_request
  = AnalyzeRepo.error_response 500 (JS.lit "Failed to analyze repository").
Proof.
  apply (@metadata_failure_answers_500
           Samples.sample_runtime MoreRepoSamples.offline RepoSamples.repo_request
           (JS.JObj [(JS.lit "repoUrl", JS.JStr RepoSamples.repo_url)])
           RepoSamples.repo_url (JS.lit "SpandanM110") (JS.lit "analyzer")
           eq_refl eq_refl eq_refl).
  right. left. apply ReplySpec.no_json_rejected.
Defined.
(** ** The extraction back ends *)

Section ExtractorFacts.

Import JS Extractors.

Context {RT : Runtime}.

Lemma insufficient_false (v : jsval) :
  insufficient v = Ok false ->
  truthy v = true /\ forall s, v = JStr s -> 100 <= length s.
Proof.
  unfold insufficient. destruct (truthy v) eqn:Hv; [|discriminate].
  intros H. split; [reflexivity|]. intros s ->.
  change (get (JStr s) (lit "length")) with (Ok (JNum (Z.of_nat (length s)))) in H.
  cbn [bind lt ToNumber] in H.
  injection H as H. apply Z.ltb_ge in H. lia.
Qed.

Lemma first_text_field (result v : jsval) :
  first_text result = Ok v -> truthy v = true ->
  exists before field after,
    [lit "data"; lit "text"; lit "content"] = before ++ field :: after
    /\ Forall (empty_field result) before
    /\ get result field = Ok v.
Proof.
  unfold first_text. intros H Hv.
  destruct (get result (lit "data")) as [data|e] eqn:Hdata; [|discriminate].
  cbn [bind] in H. destruct (truthy data) eqn:Tdata.
  { injection H as <-. exists [], (lit "data"), [lit "text"; lit "content"].
    split; [reflexivity|]. split; [constructor | exact Hdata]. }
  destruct (get result (lit "text")) as [text|e] eqn:Htext; [|discriminate].
  cbn [bind] in H. destruct (truthy text) eqn:Ttext.
  { injection H as <-. exists [lit "data"], (lit "text"), [lit "content"].
    split; [reflexivity|]. split; [|exact Htext].
    constructor; [now exists data | constructor]. }
  destruct (get result (lit "content")) as [content|e] eqn:Hcontent; [|discriminate].
  cbn [bind] in H. destruct (truthy content) eqn:Tcontent.
  { injection H as <-. exists [lit "data"; lit "text"], (lit "content"), [].
    split; [reflexivity|]. split; [|exact Hcontent].
    constructor; [now exists data|]. constructor; [now exists text | constructor]. }
  injection H as <-. discriminate.
Qed.

(** X21. What the reader back end returns is the first non-empty one of the
    fields data, text and content of an accepted answer of the service, in
    this order: the field it is read from is not empty and the fields
    before it are.  It is a string only if it has at least 100 code units;
    without a key, on a refused call or on a shorter text the back end
    throws. *)
Theorem jina_returns_a_long_field (key : option jsstring)
    (response : fetch_outcome) (v : jsval) :
  extractPDFTextWithJina key response = Ok v ->
  configured key = true
  /\ truthy v = true
  /\ (forall s, v = JStr s -> 100 <= length s)
  /\ exists status result before field after,
       response = FetchResponse true status (Ok result)
       /\ [lit "data"; lit "text"; lit "content"] = before ++ field :: after
       /\ Forall (empty_field result) before
       /\ get result field = Ok v.
Proof.
  unfold extractPDFTextWithJina.
  destruct (configured key); [|discriminate]. cbn [negb].
  destruct response as [e|ok status json]; [discriminate|].
  destruct ok; [|discriminate]. cbn [negb].
  destruct json as [result|e]; [|discriminate]. cbn [bind].
  destruct (first_text result) as [extractedText|e] eqn:Hfirst; [|discriminate].
  cbn [bind].
  destruct (insufficient extractedText) as [short|e] eqn:Hshort; [|discriminate].
  cbn [bind]. destruct short; [discriminate|].
  intros H. injection H as <-.
  destruct (insufficient_false _ Hshort) as [Hv Hlong].
  split; [reflexivity|]. split; [exact Hv|]. split; [exact Hlong|].
  destruct (first_text_field _ _ Hfirst Hv)
    as (before & field & after & Horder & Hempty & Hget).
  exists status, result, before, field, after. auto.
Qed.

(** X22. What the vision back end returns is the text of the first part of
    the first candidate of an accepted answer of the model, and a string
    only if it has at least 100 code units. *)
Theorem gemini_vision_returns_a_long_text (key : option jsstring)
    (response : fetch_outcome) (v : jsval) :
  extractPDFWithGeminiVision key response = Ok v ->
  configured key = true
  /\ truthy v = true
  /\ (forall s, v = JStr s -> 100 <= length s)
  /\ exists status data,
       response = FetchResponse true status (Ok data)
       /\ candidate_text data = Ok v.
Proof.
  unfold extractPDFWithGeminiVision.
  destruct (configured key); [|discriminate]. cbn [negb].
  destruct response as [e|ok status json]; [discriminate|].
  destruct ok; [|discriminate]. cbn [negb].
  destruct json as [data|e]; [|discriminate]. cbn [bind].
  destruct (candidate_text data) as [extractedText|e] eqn:Htext; [|discriminate].
  cbn [bind].
  destruct (insufficient extractedText) as [short|e] eqn:Hshort; [|discriminate].
  cbn [bind]. destruct short; [discriminate|].
  intros H. injection H as <-.
  destruct (insufficient_false _ Hshort) as [Hv Hlong].
  split; [reflexivity|]. split; [exact Hv|]. split; [exact Hlong|].
  exists status, data. auto.
Qed.

End ExtractorFacts.

Section PdfJs.

Import JS Extractors.

Lemma dropWhile_idem (p : codeunit -> bool) (s : jsstring) :
  dropWhile p (dropWhile p s) = dropWhile p s.
Proof.
  induction s as [|c s IH]; simpl; [reflexivity|].
  destruct (p c) eqn:Hc; [exact IH|]. simpl. now rewrite Hc.
Qed.

Lemma dropWhile_app_last (p : codeunit -> bool) (x : jsstring) (c : codeunit) :
  p c = false -> dropWhile p (x ++ [c]) = dropWhile p x ++ [c].
Proof.
  intros Hc. induction x as [|a x IH]; simpl; [now rewrite Hc|].
  destruct (p a); [exact IH | reflexivity].
Qed.

Lemma dropWhile_app_stop (p : codeunit -> bool) (x y : jsstring) (c : codeunit) :
  In c x -> p c = false -> dropWhile p (x ++ y) = dropWhile p x ++ y.
Proof.
  intros Hin Hc. induction x as [|a x IH]; simpl; [contradiction|].
  destruct (p a) eqn:Ha; [|reflexivity].
  destruct Hin as [->|Hin]; [congruence | now apply IH].
Qed.

Lemma trimEnd_app (a b : jsstring) (c : codeunit) :
  In c b -> is_space c = false -> trimEnd (a ++ b) = a ++ trimEnd b.
Proof.
  intros Hin Hc. unfold trimEnd. rewrite rev_app_distr.
  rewrite (dropWhile_app_stop is_space (rev b) (rev a) c);
    [|now apply in_rev in Hin | exact Hc].
  now rewrite rev_app_distr, rev_involutive.
Qed.

Lemma trimEnd_cons (c : codeunit) (t : jsstring) :
  is_space c = false -> trimEnd (c :: t) = c :: trimEnd t.
Proof.
  intros Hc. unfold trimEnd. simpl rev.
  rewrite (dropWhile_app_last _ _ _ Hc), rev_app_distr. reflexivity.
Qed.

Lemma trimEnd_idem (s : jsstring) : trimEnd (trimEnd s) = trimEnd s.
Proof. unfold trimEnd. now rewrite rev_involutive, dropWhile_idem. Qed.

Lemma trim_idem (s : jsstring) : trim (trim s) = trim s.
Proof.
  unfold trim, trimStart.
  destruct (dropWhile is_space s) as [|c t] eqn:Hs; [reflexivity|].
  pose proof (dropWhile_head _ _ _ _ Hs) as Hc.
  rewrite (trimEnd_cons _ _ Hc). simpl dropWhile. rewrite Hc.
  now rewrite (trimEnd_cons _ _ Hc), trimEnd_idem.
Qed.

Lemma pages_text_marked (pages : list page) :
  forall pageNum fullText full,
    pages_text pageNum pages fullText = Ok full -> marked fullText -> marked full.
Proof.
  induction pages as [|p pages IH]; intros pageNum fullText full; simpl.
  - intros H. now injection H as <-.
  - destruct p as [items|e]; [|discriminate].
    intros H Hm. apply IH in H; [exact H|].
    destruct (trim (join (lit " ") (map item_text items))) as [|c0 j0]; [exact Hm|].
    set (pageText := join (lit " ") (map item_text items)).
    right. destruct Hm as [->|[rest [-> Hin]]].
    + exists (string_of_nat pageNum ++ lit " ---" ++ [10%N; 10%N] ++ pageText).
      split.
      * unfold page_marker. simpl. rewrite <- !app_assoc. reflexivity.
      * apply in_or_app. right. simpl. auto.
    + exists (rest ++ page_marker pageNum ++ pageText). split.
      * simpl. rewrite <- !app_assoc. reflexivity.
      * apply in_or_app. now left.
Qed.

Lemma pages_text_read (pages : list page) :
  forall pageNum fullText full,
    pages_text pageNum pages fullText = Ok full ->
    Forall (fun p => exists items, p = Ok items) pages.
Proof.
  induction pages as [|p pages IH]; intros pageNum fullText full; simpl.
  - constructor.
  - destruct p as [items|e]; [|discriminate].
    intros H. constructor; [now exists items | eapply IH; exact H].
Qed.

Lemma pages_text_blank (pages : list page) :
  forall pageNum fullText,
    Forall (fun p => exists items,
              p = Ok items /\ trim (join (lit " ") (map item_text items)) = [])
           pages ->
    pages_text pageNum pages fullText = Ok fullText.
Proof.
  induction pages as [|p pages IH]; intros pageNum fullText H; simpl.
  - reflexivity.
  - inversion H as [|p' pages' [items [-> Hblank]] Hrest]; subst.
    rewrite Hblank. now apply IH.
Qed.

(** X23. The text returned by the local parser is trimmed and begins with
    the marker of a page; the document was opened and every page of it was
    read. *)
Theorem pdfjs_text_is_trimmed_and_marked (document : result (list page))
    (text : jsstring) :
  extractPDFTextWithPDFJS document = Ok text ->
  trim text = text
  /\ startsWith text (lit "--- Page ") = true
  /\ exists pages, document = Ok pages
                   /\ Forall (fun p => exists items, p = Ok items) pages.
Proof.
  unfold extractPDFTextWithPDFJS.
  destruct document as [pages|e]; [|discriminate]. cbn [bind].
  destruct (pages_text 1 pages []) as [fullText|e] eqn:Hloop; [|discriminate].
  cbn [bind].
  destruct (trim fullText) as [|c t] eqn:Htrim; [discriminate|]. cbn [orb].
  destruct (length fullText <? 100); [discriminate|].
  intros H. injection H as <-. rewrite <- Htrim.
  split; [apply trim_idem|]. split.
  - destruct (pages_text_marked _ _ _ _ Hloop (or_introl eq_refl))
      as [->|[rest [-> Hin]]]; [discriminate|].
    unfold trim. change (trimStart ([10%N; 10%N] ++ lit "--- Page " ++ rest))
      with (lit "--- Page " ++ rest).
    rewrite (trimEnd_app _ _ 45%N Hin eq_refl).
    apply startsWith_app. eexists. reflexivity.
  - exists pages. split; [reflexivity|]. eapply pages_text_read. exact Hloop.
Qed.

(** X24. A document whose pages all hold nothing but white space, as the
    pages of a scanned document do, is refused by the local parser, however
    many pages it has. *)
Theorem pdfjs_refuses_blank_documents (pages : list page) :
  Forall (fun p => exists items,
            p = Ok items /\ trim (join (lit " ") (map item_text items)) = [])
         pages ->
  extractPDFTextWithPDFJS (Ok pages)
  = Throw (Error (lit "Insufficient text extracted via PDF.js")).
Proof.
  intros H. unfold extractPDFTextWithPDFJS. cbn [bind].
  rewrite (pages_text_blank pages 1 [] H). reflexivity.
Qed.

End PdfJs.

Lemma pdfjs_text_witness :
  Extractors.extractPDFTextWithPDFJS (JS.Ok Extractors.three_pages)
  = JS.Ok (JS.trim (Extractors.page_marker 1
                 ++ JS.lit "Quarterly report  on the state of the orchard and of the cider press."
                 ++ Extractors.page_marker 3
                 ++ JS.lit "The apple harvest was good and the press ran for three weeks.  "))
  /\ JS.startsWith (JS.trim (Extractors.page_marker 1
                 ++ JS.lit "Quarterly report  on the state of the orchard and of the cider press."
                 ++ Extractors.page_marker 3
                 ++ JS.lit "The apple harvest was good and the press ran for three weeks.  "))
       (JS.lit "--- Page ") = true.
Proof.
  assert (H : Extractors.extractPDFTextWithPDFJS (JS.Ok Extractors.three_pages)
  = JS.Ok (JS.trim (Extractors.page_marker 1
                 ++ JS.lit "Quarterly report  on the state of the orchard and of the cider press."
                 ++ Extractors.page_marker 3
                 ++ JS.lit "The apple harvest was good and the press ran for three weeks.  ")))
    by (vm_compute; reflexivity).
  split; [exact H|].
  exact (proj1 (proj2 (pdfjs_text_is_trimmed_and_marked _ _ H))).
Defined.

Lemma pdfjs_blank_witness :
  Extractors.extractPDFTextWithPDFJS
    (JS.Ok [JS.Ok [Some (JS.lit "  "); None]; JS.Ok []; JS.Ok [Some [9%N]]])
  = JS.Throw (JS.Error (JS.lit "Insufficient text extracted via PDF.js")).
Proof.
  apply pdfjs_refuses_blank_documents.
  repeat constructor; eexists; (split; [reflexivity | vm_compute; reflexivity]).
Defined.

Lemma jina_witness :
  Extractors.extractPDFTextWithJina (RT := MoreSamples.sample_runtime)
    (Some (JS.lit "jina_test_key"))
    (JS.FetchResponse true 200 (JS.Ok Extractors.reader_answer))
  = JS.Ok (JS.JStr Samples.prose)
  /\ 100 <= length Samples.prose.
Proof.
  assert (H : Extractors.extractPDFTextWithJina (RT := MoreSamples.sample_runtime)
    (Some (JS.lit "jina_test_key"))
    (JS.FetchResponse true 200 (JS.Ok Extractors.reader_answer))
  = JS.Ok (JS.JStr Samples.prose)) by (vm_compute; reflexivity).
  split; [exact H|].
  exact (proj1 (proj2 (proj2 (jina_returns_a_long_field _ _ _ H))) _ eq_refl).
Defined.

Lemma gemini_vision_witness :
  Extractors.extractPDFWithGeminiVision (RT := MoreSamples.sample_runtime)
    (Some (JS.lit "gemini_test_key"))
    (JS.FetchResponse true 200 (JS.Ok (Samples.candidates_with Samples.prose)))
  = JS.Ok (JS.JStr Samples.prose)
  /\ 100 <= length Samples.prose.
Proof.
  assert (H : Extractors.extractPDFWithGeminiVision (RT := MoreSamples.sample_runtime)
    (Some (JS.lit "gemini_test_key"))
    (JS.FetchResponse true 200 (JS.Ok (Samples.candidates_with Samples.prose)))
  = JS.Ok (JS.JStr Samples.prose)) by (vm_compute; reflexivity).
  split; [exact H|].
  exact (proj1 (proj2 (proj2 (gemini_vision_returns_a_long_text _ _ _ H))) _ eq_refl).
Defined.

(** ** The page and the two routes *)

Section PageFacts.

Import JS AnalyzeFile Page.

Context {CM : CaseMapping} {RT : Runtime}.

Lemma isValidType_supported (f : File) :
  isValidType f = is_pdf f || is_markdown f || is_plain_text f.
Proof.
  unfold isValidType, is_pdf, is_markdown, is_plain_text,
    allowedTypes, allowedExtensions. cbn [existsb].
  destruct (eqb (file_type f) (lit "application/pdf")),
    (eqb (file_type f) (lit "text/markdown")),
    (eqb (file_type f) (lit "text/plain")),
    (endsWith (toLowerCase (file_name f)) (lit ".pdf")),
    (endsWith (toLowerCase (file_name f)) (lit ".md")),
    (endsWith (toLowerCase (file_name f)) (lit ".txt")); reflexivity.
Qed.

(** X25.  The page lets through exactly the files the route has a branch
    for: a file passes the type check of the page if and only if the route
    would not answer Unsupported file type to it. *)
Theorem page_accepts_what_the_route_supports (w : World) (f : File) :
  isValidType f = false
  <-> fst (extract w f)
      = Respond (error_response 400
                   (lit "Unsupported file type: " ++ file_type f
                    ++ lit ". Please upload PDF, Markdown (.md), or Text (.txt) files.")).
Proof.
  rewrite isValidType_supported. unfold extract, read_directly.
  destruct (is_pdf f); cbn [orb].
  - split; [discriminate|]. cbv zeta. unfold logged.
    destruct (truthy (content (try_methods f (extractionMethods w) initial_state)));
      cbn [fst].
    + destruct (content (try_methods f (extractionMethods w) initial_state));
        discriminate.
    + intros H. injection H as H. vm_compute in H. discriminate.
  - destruct (is_markdown f); cbn [orb].
    + split; [discriminate|]. destruct (file_text f); discriminate.
    + destruct (is_plain_text f).
      * split; [discriminate|]. destruct (file_text f); discriminate.
      * split; reflexivity.
Qed.

(** Every answer of the file route other than 200 carries a message that
    is not empty. *)
Lemma file_POST_refusal (w : World) (request : Request) :
  status (fst (POST w request)) <> 200 ->
  exists c message,
    body (fst (POST w request)) = JObj [(lit "error", JStr (c :: message))].
Proof.
  unfold POST.
  destruct (formData request) as [form|e];
    [|intros _; eexists; eexists; reflexivity].
  destruct (form_get form (lit "file")) as [[file|[|c s]]|];
    try (intros _; eexists; eexists; reflexivity).
  unfold extract, read_directly.
  destruct (is_pdf file).
  - cbv zeta. unfold logged.
    destruct (truthy (content (try_methods file (extractionMethods w) initial_state)));
      [|intros _; eexists; eexists; reflexivity].
    destruct (content (try_methods file (extractionMethods w) initial_state));
      cbn [fst]; try (intros _; eexists; eexists; reflexivity).
    destruct (generateEnhancedFileAnalysis w _ _ _);
      [intros H; now elim H | intros _; eexists; eexists; reflexivity].
  - destruct (is_markdown file); [|destruct (is_plain_text file)];
      try (destruct (file_text file); cbn [fst];
           [destruct (generateEnhancedFileAnalysis w _ _ _);
            [intros H; now elim H | intros _; eexists; eexists; reflexivity]
           |intros _; eexists; eexists; reflexivity]).
    intros _; eexists; eexists; reflexivity.
Qed.

(** X26.  When the file route refuses an upload that passed the checks of
    the page and its answer reaches the page, the page shows the message of
    the route, stops loading and keeps the former results. *)
Theorem file_page_shows_the_route_message (w : World) (st : State) (f : File)
    (upload : File -> fetch_outcome) :
  let r := fst (POST w (FileSpec.upload f)) in
  file st = Some f ->
  (N.of_nat (file_size f) <= 10 * 1024 * 1024)%N ->
  isValidType f = true ->
  status r <> 200 ->
  upload f = FetchResponse false (status r) (Ok (body r)) ->
  body r = JObj [(lit "error", JStr (error (handleFileSubmit st upload)))]
  /\ error (handleFileSubmit st upload) <> []
  /\ loading (handleFileSubmit st upload) = false
  /\ analysis (handleFileSubmit st upload) = analysis st
  /\ repoData (handleFileSubmit st upload) = repoData st.
Proof.
  intros r Hfile Hsize Htype Hstatus Hupload.
  destruct (file_POST_refusal w (FileSpec.upload f) Hstatus) as (c & m & Hbody).
  fold r in Hbody. unfold handleFileSubmit. rewrite Hfile.
  apply N.ltb_ge in Hsize. rewrite Hsize, Htype, Hupload, Hbody.
  cbn. repeat split. discriminate.
Qed.

Lemma get_after_get (data value : jsval) (first second : jsstring) :
  get data first = Ok value -> exists other, get data second = Ok other.
Proof.
  destruct data; try discriminate; intros _; eexists; reflexivity.
Qed.

(** X27.  A submitted repository address ends in one of two ways: the
    metadata and the analysis of an accepted answer are both stored and no
    error is shown, or both former values are kept and the message of what
    went wrong is shown as the error: the rejection of the call, the fixed
    message for an answer that is not ok (whatever the route wrote), or the
    exception of reading the body.  In both cases loading has stopped. *)
Theorem repo_page_updates_both_or_neither (st : State) (response : fetch_outcome) :
  repoUrl st <> [] ->
  loading (handleRepoSubmit st response) = false
  /\ ((error (handleRepoSubmit st response) = []
       /\ exists status data,
            response = FetchResponse true status (Ok data)
            /\ get data (lit "repoData") = Ok (repoData (handleRepoSubmit st response))
            /\ get data (lit "analysis") = Ok (analysis (handleRepoSubmit st response)))
      \/ (repoData (handleRepoSubmit st response) = repoData st
          /\ analysis (handleRepoSubmit st response) = analysis st
          /\ (exists err,
                error (handleRepoSubmit st response) = message err
                /\ (response = FetchRejected err
                    \/ (exists status json,
                          response = FetchResponse false status json
                          /\ err = Error (lit "Failed to analyze repository"))
                    \/ (exists status,
                          response = FetchResponse true status (Throw err))
                    \/ (exists status data,
                          response = FetchResponse true status (Ok data)
                          /\ get data (lit "repoData") = Throw err)))
          /\ forall status json,
               response = FetchResponse false status json ->
               error (handleRepoSubmit st response)
               = lit "Failed to analyze repository")).
Proof.
  intros Hurl. unfold handleRepoSubmit.
  destruct (repoUrl st) as [|c url] eqn:Eurl; [contradiction|].
  destruct response as [e|ok status json].
  - split; [reflexivity|]. right. split; [reflexivity|]. split; [reflexivity|].
    split; [|discriminate]. exists e. split; [reflexivity | now left].
  - destruct ok; cbn [negb].
    + destruct json as [data|e]; cbn [bind].
      * destruct (get data (lit "repoData")) as [rd|e] eqn:Hrd; cbn [bind].
        -- destruct (get_after_get data rd (lit "repoData") (lit "analysis") Hrd)
             as [an Han].
           rewrite Han. cbn [bind].
           split; [reflexivity|]. left. split; [reflexivity|].
           exists status, data. repeat split; assumption.
        -- split; [reflexivity|]. right. split; [reflexivity|]. split; [reflexivity|].
           split; [|discriminate]. exists e. split; [reflexivity|].
           right; right; right. now exists status, data.
      * split; [reflexivity|]. right. split; [reflexivity|]. split; [reflexivity|].
        split; [|discriminate]. exists e. split; [reflexivity|].
        right; right; left. now exists status.
    + split; [reflexivity|]. right. split; [reflexivity|]. split; [reflexivity|].
      split; [|reflexivity]. exists (Error (lit "Failed to analyze repository")).
      split; [reflexivity|]. right; left. now exists status, json.
Qed.

End PageFacts.

Section Age.

Import JS Page.

Lemma diffDays_bounds (created now : Z) :
  (0 <= diffDays created now
   /\ (diffDays created now - 1) * day_ms < Z.abs (now - created)
      <= diffDays created now * day_ms)%Z.
Proof.
  unfold diffDays. cbv zeta.
  assert (Hd : (0 < day_ms)%Z) by reflexivity.
  set (t := Z.abs (now - created)). assert (Ht : (0 <= t)%Z) by apply Z.abs_nonneg.
  pose proof (Z.div_mod (- t) day_ms ltac:(lia)) as Hdm.
  pose proof (Z.mod_pos_bound (- t) day_ms Hd) as Hm.
  nia.
Qed.

(** X28.  The age of a repository is a number of days below 30, or a
    number of months from 1 to 12, or a number of years from 1 on, each
    rounded down from the number of days begun; it is given in days exactly
    when at most 29 times 24 hours have passed, and 360 to 364 days count
    as 12 months. *)
Theorem calculateAge_ranges (created now : Z) :
  let d := diffDays created now in
  ((0 <= d < 30)%Z
   /\ calculateAge (Some created) now = string_of_Z d ++ lit " days"
   /\ (Z.abs (now - created) <= 29 * day_ms)%Z)
  \/ ((30 <= d < 365)%Z
      /\ (29 * day_ms < Z.abs (now - created))%Z
      /\ exists months, (1 <= months <= 12)%Z
           /\ (30 * months <= d < 30 * (months + 1))%Z
           /\ calculateAge (Some created) now
              = string_of_Z months ++ lit " months")
  \/ ((365 <= d)%Z
      /\ (364 * day_ms < Z.abs (now - created))%Z
      /\ exists years, (1 <= years)%Z
           /\ (365 * years <= d < 365 * (years + 1))%Z
           /\ calculateAge (Some created) now
              = string_of_Z years ++ lit " years").
Proof.
  intros d. destruct (diffDays_bounds created now) as [H0 [Hlo Hhi]].
  fold d in H0, Hlo, Hhi. unfold calculateAge. fold d.
  destruct (d <? 30)%Z eqn:H30.
  - apply Z.ltb_lt in H30. left. split; [lia|]. split; [reflexivity|].
    unfold day_ms in *. lia.
  - apply Z.ltb_ge in H30. right.
    destruct (d <? 365)%Z eqn:H365.
    + apply Z.ltb_lt in H365. left. split; [lia|].
      split; [unfold day_ms in *; lia|].
      exists (d / 30)%Z.
      pose proof (Z.div_mod d 30 ltac:(lia)) as Hdm.
      pose proof (Z.mod_pos_bound d 30 ltac:(lia)) as Hm.
      repeat split; try lia.
    + apply Z.ltb_ge in H365. right. split; [lia|].
      split; [unfold day_ms in *; lia|].
      exists (d / 365)%Z.
      pose proof (Z.div_mod d 365 ltac:(lia)) as Hdm.
      pose proof (Z.mod_pos_bound d 365 ltac:(lia)) as Hm.
      repeat split; try lia.
Qed.

End Age.

(** *** The page on sample answers *)

Lemma file_page_witness :
  let st := {| Page.repoUrl := []; Page.file := Some Samples.report_pdf;
               Page.loading := false; Page.repoData := JS.JNull;
               Page.analysis := JS.JNull; Page.error := [] |} in
  let r := fst (AnalyzeFile.POST (CM := JS.ascii_case) (RT := Samples.sample_runtime)
                  Samples.nothing_readable (FileSpec.upload Samples.report_pdf)) in
  let upload := fun _ : AnalyzeFile.File =>
                  JS.FetchResponse false (JS.status r) (JS.Ok (JS.body r)) in
  JS.status r = 400
  /\ Page.error (Page.handleFileSubmit (CM := JS.ascii_case) st upload)
     = AnalyzeFile.unreadable_pdf_message
  /\ Page.loading (Page.handleFileSubmit (CM := JS.ascii_case) st upload) = false.
Proof.
  intros st r upload.
  assert (Hr : JS.status r = 400) by (vm_compute; reflexivity).
  split; [exact Hr|].
  destruct (file_page_shows_the_route_message (CM := JS.ascii_case)
              (RT := Samples.sample_runtime)
              Samples.nothing_readable st Samples.report_pdf upload)
    as (Hbody & _ & Hloading & _).
  - reflexivity.
  - vm_compute. discriminate.
  - vm_compute. reflexivity.
  - fold r. rewrite Hr. discriminate.
  - reflexivity.
  - split; [vm_compute; reflexivity | exact Hloading].
Defined.

Lemma repo_page_witness :
  let st := {| Page.repoUrl := MoreRepoSamples.gitlab_url; Page.file := None;
               Page.loading := false; Page.repoData := JS.JNull;
               Page.analysis := JS.JNull; Page.error := [] |} in
  let response :=
    JS.FetchResponse false 400
      (JS.Ok (JS.body (AnalyzeRepo.error_response 400 (JS.lit "Invalid GitHub URL")))) in
  Page.error (Page.handleRepoSubmit st response) = JS.lit "Failed to analyze repository"
  /\ Page.loading (Page.handleRepoSubmit st response) = false.
Proof.
  intros st response.
  destruct (repo_page_updates_both_or_neither st response) as [Hloading Hcases].
  - vm_compute. discriminate.
  - split; [|exact Hloading].
    destruct Hcases as [[_ (status & data & Heq & _)] | (_ & _ & _ & Herror)].
    + discriminate Heq.
    + eapply Herror. reflexivity.
Defined.

(** ** The charts *)

Section LanguageChartFacts.

Import JS AnalyzeFile StatsSpec Charts.

Variable number : Type.
Variable percentage : nat -> nat -> number.

Lemma bar_label_length (name : jsstring) : length (bar_label name) <= 13.
Proof.
  unfold bar_label, substring0.
  destruct (10 <? length name) eqn:Hlen.
  - rewrite length_app, length_firstn.
    change (length (lit "...")) with 3. lia.
  - apply Nat.ltb_ge in Hlen. lia.
Qed.

(** X29.  The language chart shows the five largest languages, or all of
    them when there are fewer: the bars come in descending order of size, no
    language left out is larger than one that is shown, a label has at most
    13 code units, and there is no bar only when there is no language. *)
Theorem languageData_shows_the_largest (languages : list (jsstring * nat)) :
  exists shown rest,
    Permutation languages (shown ++ rest)
    /\ map (@bar_bytes number) (languageData number percentage languages)
       = map snd shown
    /\ map (@bar_name number) (languageData number percentage languages)
       = map (fun e => bar_label (fst e)) shown
    /\ length shown = Nat.min 5 (length languages)
    /\ StronglySorted by_count shown
    /\ (forall a b, In a shown -> In b rest -> snd b <= snd a)
    /\ (forall b, In b (languageData number percentage languages) ->
          length (bar_name b) <= 13)
    /\ (languageData number percentage languages = [] <-> languages = []).
Proof.
  pose proof (sort_desc_perm languages) as Hperm.
  pose proof (sort_desc_sorted languages) as Hsorted.
  set (sorted := sort_desc languages) in *.
  exists (firstn 5 sorted), (skipn 5 sorted).
  assert (Hlen : length (firstn 5 sorted) = Nat.min 5 (length languages)).
  { rewrite length_firstn, (Permutation_length Hperm). reflexivity. }
  unfold languageData. fold sorted. cbv zeta. rewrite !map_map. cbn [bar_bytes bar_name].
  split; [now rewrite firstn_skipn|]. split; [reflexivity|]. split; [reflexivity|].
  split; [exact Hlen|]. rewrite <- (firstn_skipn 5 sorted) in Hsorted.
  split; [|split; [|split]].
  - clear -Hsorted. induction (firstn 5 sorted) as [|x l IH]; [constructor|].
    simpl in Hsorted. inversion Hsorted as [|? ? Hl Hx]; subst.
    constructor; [now apply IH|].
    rewrite Forall_forall in *. intros y Hy. apply Hx, in_or_app. now left.
  - intros a b Ha Hb. exact (StronglySorted_split _ _ Hsorted a b Ha Hb).
  - intros b Hb. apply in_map_iff in Hb as (e & <- & _). apply bar_label_length.
  - split.
    + intros H. apply (f_equal (@length _)) in H.
      rewrite length_map, Hlen in H. simpl in H.
      destruct languages; [reflexivity | simpl in H; lia].
    + intros ->. reflexivity.
Qed.

End LanguageChartFacts.

Section ContributorsChartFacts.

Import JS Charts.

Lemma map_contributors_slices (items : list jsval) :
  forall index slices,
    map_contributors index items = Ok slices ->
    Forall2 drawn_from items slices
    /\ map slice_fill slices
       = map (fun k => nth (k mod 5) COLORS []) (seq index (length items)).
Proof.
  induction items as [|c items IH]; intros index slices; simpl.
  - intros H. injection H as <-. split; [constructor | reflexivity].
  - destruct (get c (lit "login")) as [name|e] eqn:Hname; [|discriminate].
    cbn [bind].
    destruct (get c (lit "contributions")) as [value|e] eqn:Hvalue; [|discriminate].
    cbn [bind].
    destruct (map_contributors (S index) items) as [rest|e] eqn:Hrest; [|discriminate].
    cbn [bind]. intros H. injection H as <-.
    destruct (IH _ _ Hrest) as [Hall Hfill].
    split; [constructor; [split; assumption | exact Hall]|].
    simpl. now rewrite Hfill.
Qed.

Lemma firstn_COLORS (n : nat) :
  n <= 5 ->
  map (fun k => nth (k mod 5) COLORS []) (seq 0 n) = firstn n COLORS
  /\ NoDup (firstn n COLORS).
Proof.
  intros Hn.
  assert (Hnd : NoDup COLORS).
  { unfold COLORS. repeat constructor; simpl; intuition discriminate. }
  split.
  - do 6 (destruct n as [|n]; [reflexivity|]). lia.
  - rewrite <- (firstn_skipn n COLORS) in Hnd. exact (NoDup_app_remove_r _ _ Hnd).
Qed.

(** X30.  The contributors chart shows its notice for the empty array only,
    and throws for anything that is no array (the check for missing data
    comes after the slices were computed); a pie has a slice for each of
    the first five contributors, in their order, and the slices have
    different colours. *)
Theorem ContributorsChart_views (contributors : jsval) :
  (ContributorsChart contributors = Ok NoData <-> contributors = JArr [])
  /\ (forall slices,
        ContributorsChart contributors = Ok (Pie slices) ->
        exists items,
          contributors = JArr items
          /\ length slices = Nat.min 5 (length items)
          /\ 1 <= length slices
          /\ Forall2 drawn_from (firstn 5 items) slices
          /\ map slice_fill slices = firstn (length slices) COLORS
          /\ NoDup (map slice_fill slices))
  /\ ((forall items, contributors <> JArr items) ->
      exists message, ContributorsChart contributors = Throw (TypeError message)).
Proof.
  unfold ContributorsChart.
  destruct contributors as [| |b|n|s|items|fields];
    try (cbn [topContributors bind]; split; [split; discriminate|];
         split; [discriminate|]; intros _; eexists; reflexivity).
  cbn [topContributors].
  destruct (map_contributors 0 (firstn 5 items)) as [slices|e] eqn:Hmap; cbn [bind].
  - change (get (JArr items) (lit "length")) with (Ok (JNum (Z.of_nat (length items)))).
    cbn [bind truthy negb].
    destruct (map_contributors_slices _ _ _ Hmap) as [Hall Hfill].
    pose proof (Forall2_length Hall) as Hlen. rewrite Hlen in Hfill.
    rewrite length_firstn in Hlen.
    destruct items as [|c items].
    + split; [split; reflexivity|]. split; [discriminate|].
      intros H. now elim (H []).
    + change (Z.of_nat (length (c :: items))) with (Z.pos (Pos.of_succ_nat (length items))).
      split; [split; discriminate|]. split.
      * intros slices' H. injection H as <-. exists (c :: items).
        assert (Hle : length slices <= 5) by lia.
        destruct (firstn_COLORS (length slices) Hle) as [Hseq Hnd].
        rewrite Hseq in Hfill.
        split; [reflexivity|]. split; [lia|]. split; [simpl in Hlen; lia|].
        split; [exact Hall|]. split; [exact Hfill|]. now rewrite Hfill.
      * intros H. now elim (H (c :: items)).
  - split; [split; [discriminate|]|].
    { intros H. injection H as ->. discriminate Hmap. }
    split; [discriminate|]. intros H. now elim (H items).
Qed.

End ContributorsChartFacts.

